(** * decom: layer stack, SLIP and ISO 15765-2 protocols, message buffer

    A shallow embedding of the protocol layers of the decom library
    (prot_slip.h, prot_iso15765.h, com_serial.h) and of its message
    container, together with the properties stated about them. *)

From Stdlib Require Import ZArith Lia Bool String.
From stdpp Require Import base tactics option list.

Local Open Scope Z_scope.

(** ** Common vocabulary of the layer interface *)

(** A byte is an unsigned 8 bit value, carried as an integer. *)
Definition byte := Z.

(** std::uint8_t and std::uint16_t conversions (wrap-around written out). *)
Definition u8 (x : Z) : Z := Z.land x 255.
Definition u16 (x : Z) : Z := Z.land x 65535.

(** Modelled from the spec: decom::eid, the endpoint identifier, whose
    header is not among the sources.  Only the sentinel [eid_any] and
    values built from an integer (as the tests do) are needed. *)
Inductive eid : Type :=
| eid_any
| eid_of (n : Z).

(** status_type: the closed set of indication codes. *)
Inductive status_type : Type :=
| connected | disconnected
| tx_done | tx_error | tx_timeout
| rx_error | rx_overrun | rx_timeout.

(** Modelled from the spec: the base classes of prot.h and layer.h are
    not among the sources.  Their defaults forward to the opposite peer
    unchanged: protocol::open, protocol::close and protocol::send call
    the lower layer, protocol::receive and protocol::indication call the
    upper layer.  Each such call is recorded, in program order, with the
    logical content of the message; what the lower layer answers to
    open() and send() is an input of the operation that calls it. *)
Inductive event : Type :=
| LowerOpen (address : option string) (id : eid)
| LowerClose (id : eid)
| LowerSend (data : list byte) (id : eid) (more : bool)
| UpperReceive (data : list byte) (id : eid) (more : bool)
| UpperIndication (code : status_type) (id : eid).

(** ** Logical view of decom::msg used by the protocol layers *)
Module LMsg.

(** Modelled from the spec: msg.h is not among the sources.  The
    protocols see a message as an ordered sequence of bytes with deque
    semantics; the operations below are those the protocol code calls,
    on a message that is writable and while the pool still has pages
    (the paged, pooled representation is the subject of [MsgPool]). *)
Definition msg := list byte.

Definition size (m : msg) : Z := Z.of_nat (length m).
Definition empty (m : msg) : bool := match m with [] => true | _ => false end.
Definition clear (m : msg) : msg := [].
Definition push_back (m : msg) (v : byte) : msg := m ++ [v].
Definition push_front (m : msg) (v : byte) : msg := v :: m.
Definition pop_front (m : msg) : msg := tail m.

(** Modelled from the spec: operator[] is bounds-checked like at(), an
    index past the end reads the marker value 0xCC (test_msg.h, access). *)
Definition at_ (m : msg) (i : nat) : byte := nth i m 0xCC.

(** resize(n): truncate, or pad with zero bytes. *)
Definition resize (m : msg) (n : nat) : msg :=
  firstn n m ++ repeat 0 (n - length m)%nat.

(** insert(end(), n, v) *)
Definition insert_end_n (m : msg) (n : nat) (v : byte) : msg := m ++ repeat v n.

(** insert(end(), first, last) with the range given as its bytes. *)
Definition insert_end (m : msg) (range : list byte) : msg := m ++ range.

(** The bytes between begin() + from and begin() + to. *)
Definition range (m : msg) (from to : nat) : list byte :=
  firstn (to - from)%nat (skipn from m).

End LMsg.

(** ** SLIP protocol (rfc1055), class decom::prot::slip *)
Module Slip.

(* SLIP special character codes *)
Definition END : byte := 0xC0.
Definition ESC : byte := 0xDB.
Definition ESC_END : byte := 0xDC.
Definition ESC_ESC : byte := 0xDD.

Inductive rx_state_type : Type :=
| RCV_IDLE      (* idle, wait for starting END delimiter *)
| RCV_DATA      (* receive data *)
| RCV_ESC.      (* ESC delimiter received *)

Record slip : Type := mk {
  upper_ : bool;               (* the upper layer is wired (non null) *)
  rx_state_ : rx_state_type;   (* receive message state *)
  is_open_ : bool;             (* true if layer is open *)
  rx_msg_ : LMsg.msg;          (* receive message buffer *)
  tx_msg_ : LMsg.msg           (* transmit message buffer *)
}.

Definition set_rx_state (v : rx_state_type) (s : slip) : slip :=
  mk (upper_ s) v (is_open_ s) (rx_msg_ s) (tx_msg_ s).
Definition set_is_open (v : bool) (s : slip) : slip :=
  mk (upper_ s) (rx_state_ s) v (rx_msg_ s) (tx_msg_ s).
Definition set_rx_msg (v : LMsg.msg) (s : slip) : slip :=
  mk (upper_ s) (rx_state_ s) (is_open_ s) v (tx_msg_ s).
Definition set_tx_msg (v : LMsg.msg) (s : slip) : slip :=
  mk (upper_ s) (rx_state_ s) (is_open_ s) (rx_msg_ s) v.

(** The constructor: state IDLE, closed, empty buffers.  [wired] tells
    whether a layer above has registered itself. *)
Definition ctor (wired : bool) : slip := mk wired RCV_IDLE false [] [].

(** open(): [lower_ok] is the answer of the lower layer's open(). *)
Definition open (lower_ok : bool) (address : option string) (id : eid)
    (s : slip) : bool * slip * list event :=
  if negb (upper_ s) then (false, s, [])
  else
    let s1 := set_is_open lower_ok s in
    let s2 := set_rx_state RCV_IDLE s1 in
    (is_open_ s2, s2, [LowerOpen address id]).

Definition close (id : eid) (s : slip) : slip * list event :=
  let s1 := set_is_open false s in
  let s2 := set_rx_msg (LMsg.clear (rx_msg_ s1)) s1 in
  let s3 := set_tx_msg (LMsg.clear (tx_msg_ s2)) s2 in
  let s4 := set_rx_state RCV_IDLE s3 in
  (s4, [LowerClose id]).

(** The body of the loop of send(): ESC_END or ESC_ESC is inserted. *)
Definition send_byte (tx : LMsg.msg) (it : byte) : LMsg.msg :=
  if it =? END then LMsg.push_back (LMsg.push_back tx ESC) ESC_END
  else if it =? ESC then LMsg.push_back (LMsg.push_back tx ESC) ESC_ESC
  else LMsg.push_back tx it.

Fixpoint send_loop (packet : list byte) (tx : LMsg.msg) : LMsg.msg :=
  match packet with
  | [] => tx
  | it :: rest => send_loop rest (send_byte tx it)
  end.

(** send(): [lower_ok] is the answer of the lower layer's send(). *)
Definition send (lower_ok : bool) (packet : LMsg.msg) (id : eid) (more : bool)
    (s : slip) : bool * slip * list event :=
  if negb (is_open_ s) then (false, s, [])
  else
    let tx0 := if LMsg.empty (tx_msg_ s)
               then LMsg.push_front (tx_msg_ s) END else tx_msg_ s in
    let tx1 := send_loop packet tx0 in
    if negb more then
      let tx2 := LMsg.push_back tx1 END in
      (lower_ok, set_tx_msg (LMsg.clear tx2) s, [LowerSend tx2 id false])
    else
      (true, set_tx_msg tx1 s, [UpperIndication tx_done id]).

(** One turn of the loop of receive(): the switch on rx_state_. *)
Definition receive_byte (s : slip) (it : byte) : slip * list event :=
  match rx_state_ s with
  | RCV_IDLE =>
      if it =? END then (set_rx_state RCV_DATA s, []) else (s, [])
  | RCV_DATA =>
      if it =? ESC then (set_rx_state RCV_ESC s, [])
      else if it =? END then
        if 0 <? LMsg.size (rx_msg_ s) then
          (set_rx_state RCV_IDLE (set_rx_msg (LMsg.clear (rx_msg_ s)) s),
           [UpperReceive (rx_msg_ s) eid_any false])
        else (set_rx_state RCV_IDLE s, [])
      else (set_rx_msg (LMsg.push_back (rx_msg_ s) it) s, [])
  | RCV_ESC =>
      if it =? ESC_END then
        (set_rx_state RCV_DATA (set_rx_msg (LMsg.push_back (rx_msg_ s) END) s), [])
      else if it =? ESC_ESC then
        (set_rx_state RCV_DATA (set_rx_msg (LMsg.push_back (rx_msg_ s) ESC) s), [])
      else
        (set_rx_state RCV_IDLE (set_rx_msg (LMsg.clear (rx_msg_ s)) s), [])
  end.

Fixpoint receive_loop (data : list byte) (s : slip) : slip * list event :=
  match data with
  | [] => (s, [])
  | it :: rest =>
      let '(s1, ev1) := receive_byte s it in
      let '(s2, ev2) := receive_loop rest s1 in
      (s2, ev1 ++ ev2)
  end.

Definition receive (data : LMsg.msg) (id : eid) (more : bool)
    (s : slip) : slip * list event :=
  if negb (is_open_ s) then (s, [])
  else receive_loop data s.

End Slip.

(** ** Timer and event primitives (util/timer.h, util/event.h) *)
Module Util.

(** Modelled from the spec: util::timer is not among the sources.
    [start(duration, periodic, callback, arg)] schedules the callback
    after [duration]; [stop()] cancels it.  The protocols only use
    one-shot timers with a fixed callback per timer, so a timer is
    either stopped or armed with its duration in milliseconds. *)
Definition timer := option Z.
Definition timer_start (ms : Z) : timer := Some ms.
Definition timer_stop : timer := None.

(** Modelled from the spec: util::event is a binary latch; [set()]
    releases the current or next wait, [reset()] clears, and
    [wait_for(dur)] returns no_timeout if the latch is set within [dur],
    else timeout.  [set_in_time] tells whether a [set()] arrives during
    the wait. *)
Inductive cv_status : Type := no_timeout | timeout.
Definition wait_for (latch set_in_time : bool) : cv_status :=
  if latch || set_in_time then no_timeout else timeout.

(** Modelled from the spec: decom::util::make_large<uint8, uint16>(lo, hi)
    joins two bytes into a 16 bit value, [hi] being the upper byte
    (multi-byte fields are big-endian on the wire). *)
Definition make_large (lo hi : Z) : Z := u16 (Z.lor (Z.shiftl hi 8) lo).

End Util.

(** ** ISO 15765-2 (CAN TP) transport protocol, class decom::prot::iso15765 *)
Module Iso15765.

Import Util.

(* protocol definitions *)
Definition NPCI_SINGLE_FRAME : Z := 0x00.
Definition NPCI_FIRST_FRAME : Z := 0x10.
Definition NPCI_CONSECUTIVE_FRAME : Z := 0x20.
Definition NPCI_FLOW_CONTROL : Z := 0x30.
Definition NPCI_ERROR_FRAME : Z := 0x40.

(* data frame length - normal addressing *)
Definition SF_DATALENGTH : Z := 7.
Definition FF_DATALENGTH : Z := 6.
Definition CF_DATALENGTH : Z := 7.
Definition FC_DATALENGTH : Z := 3.

(* data frame length - extended addressing *)
Definition SF_DATALENGTH_EXT : Z := 6.
Definition FF_DATALENGTH_EXT : Z := 5.
Definition CF_DATALENGTH_EXT : Z := 6.

(* complete frame length *)
Definition FRAME_LENGTH : Z := 8.

(* flow control codes *)
Definition FC_CTS : Z := 0.
Definition FC_WAIT : Z := 1.
Definition FC_OVERFLOW : Z := 2.

(* timing *)
Definition N_As : Z := 1000.
Definition N_Ar : Z := 1000.
Definition N_Bs : Z := 1000.
Definition N_Cr : Z := 1000.

(* the largest frame size to accept by protocol, and due to buffer limit *)
Definition CF_MAX_FRAME_SIZE : Z := 4095.
Definition CF_MAX_BUFFER_SIZE : Z := CF_MAX_FRAME_SIZE.

Record iso15765 : Type := mk {
  upper_ : bool;                (* the upper layer is wired (non null) *)
  CF_frame_ : LMsg.msg;         (* buffer for consecutive frames *)
  CF_eid_ : eid;                (* CF tx eid *)
  CF_SN_ : Z;                   (* frame sequence number (uint8) *)
  CF_DL_ : Z;                   (* actual sent data length (uint16) *)
  CF_size_ : Z;                 (* complete frame size (uint16) *)
  CF_MAX_DL_ : Z;               (* maximum data length (uint16) *)
  CF_STmin_ : Z;                (* own STmin parameter, send to peer *)
  CF_BS_ : Z;                   (* own BS parameter, send to peer *)
  CF_BScnt_ : Z;                (* own BS counter, internal *)
  FC_STmin_ : Z;                (* STmin parameter, received by FC frame *)
  FC_BS_ : Z;                   (* BS parameter, received by FC frame *)
  FC_FS_ : Z;                   (* FS parameter, received by FC frame *)
  use_ext_adr_ : bool;          (* use extended addressing *)
  ext_source_adr_ : Z;          (* extended addressing source address *)
  ext_target_adr_ : Z;          (* extended addressing target address *)
  use_zero_padding_ : bool;     (* pad frames with zeros to length 8 *)
  timer_TX_CF_ : timer;         (* TX CF timer *)
  timer_TX_FC_ : timer;         (* TX FC timer *)
  timer_RX_CF_ : timer;         (* RX CF timer *)
  tx_ev_ : bool                 (* transmit done indication (event latch) *)
}.

Definition set_CF_frame (v : LMsg.msg) (s : iso15765) : iso15765 :=
  mk (s.(upper_)) v (s.(CF_eid_)) (s.(CF_SN_)) (s.(CF_DL_)) (s.(CF_size_))
    (s.(CF_MAX_DL_)) (s.(CF_STmin_)) (s.(CF_BS_)) (s.(CF_BScnt_))
    (s.(FC_STmin_)) (s.(FC_BS_)) (s.(FC_FS_)) (s.(use_ext_adr_))
    (s.(ext_source_adr_)) (s.(ext_target_adr_)) (s.(use_zero_padding_))
    (s.(timer_TX_CF_)) (s.(timer_TX_FC_)) (s.(timer_RX_CF_)) (s.(tx_ev_)).
Definition set_CF_eid (v : eid) (s : iso15765) : iso15765 :=
  mk (s.(upper_)) (s.(CF_frame_)) v (s.(CF_SN_)) (s.(CF_DL_)) (s.(CF_size_))
    (s.(CF_MAX_DL_)) (s.(CF_STmin_)) (s.(CF_BS_)) (s.(CF_BScnt_))
    (s.(FC_STmin_)) (s.(FC_BS_)) (s.(FC_FS_)) (s.(use_ext_adr_))
    (s.(ext_source_adr_)) (s.(ext_target_adr_)) (s.(use_zero_padding_))
    (s.(timer_TX_CF_)) (s.(timer_TX_FC_)) (s.(timer_RX_CF_)) (s.(tx_ev_)).
Definition set_CF_SN (v : Z) (s : iso15765) : iso15765 :=
  mk (s.(upper_)) (s.(CF_frame_)) (s.(CF_eid_)) v (s.(CF_DL_))
    (s.(CF_size_)) (s.(CF_MAX_DL_)) (s.(CF_STmin_)) (s.(CF_BS_))
    (s.(CF_BScnt_)) (s.(FC_STmin_)) (s.(FC_BS_)) (s.(FC_FS_))
    (s.(use_ext_adr_)) (s.(ext_source_adr_)) (s.(ext_target_adr_))
    (s.(use_zero_padding_)) (s.(timer_TX_CF_)) (s.(timer_TX_FC_))
    (s.(timer_RX_CF_)) (s.(tx_ev_)).
Definition set_CF_DL (v : Z) (s : iso15765) : iso15765 :=
  mk (s.(upper_)) (s.(CF_frame_)) (s.(CF_eid_)) (s.(CF_SN_)) v
    (s.(CF_size_)) (s.(CF_MAX_DL_)) (s.(CF_STmin_)) (s.(CF_BS_))
    (s.(CF_BScnt_)) (s.(FC_STmin_)) (s.(FC_BS_)) (s.(FC_FS_))
    (s.(use_ext_adr_)) (s.(ext_source_adr_)) (s.(ext_target_adr_))
    (s.(use_zero_padding_)) (s.(timer_TX_CF_)) (s.(timer_TX_FC_))
    (s.(timer_RX_CF_)) (s.(tx_ev_)).
Definition set_CF_size (v : Z) (s : iso15765) : iso15765 :=
  mk (s.(upper_)) (s.(CF_frame_)) (s.(CF_eid_)) (s.(CF_SN_)) (s.(CF_DL_)) v
    (s.(CF_MAX_DL_)) (s.(CF_STmin_)) (s.(CF_BS_)) (s.(CF_BScnt_))
    (s.(FC_STmin_)) (s.(FC_BS_)) (s.(FC_FS_)) (s.(use_ext_adr_))
    (s.(ext_source_adr_)) (s.(ext_target_adr_)) (s.(use_zero_padding_))
    (s.(timer_TX_CF_)) (s.(timer_TX_FC_)) (s.(timer_RX_CF_)) (s.(tx_ev_)).
Definition set_CF_BScnt (v : Z) (s : iso15765) : iso15765 :=
  mk (s.(upper_)) (s.(CF_frame_)) (s.(CF_eid_)) (s.(CF_SN_)) (s.(CF_DL_))
    (s.(CF_size_)) (s.(CF_MAX_DL_)) (s.(CF_STmin_)) (s.(CF_BS_)) v
    (s.(FC_STmin_)) (s.(FC_BS_)) (s.(FC_FS_)) (s.(use_ext_adr_))
    (s.(ext_source_adr_)) (s.(ext_target_adr_)) (s.(use_zero_padding_))
    (s.(timer_TX_CF_)) (s.(timer_TX_FC_)) (s.(timer_RX_CF_)) (s.(tx_ev_)).
Definition set_FC_STmin (v : Z) (s : iso15765) : iso15765 :=
  mk (s.(upper_)) (s.(CF_frame_)) (s.(CF_eid_)) (s.(CF_SN_)) (s.(CF_DL_))
    (s.(CF_size_)) (s.(CF_MAX_DL_)) (s.(CF_STmin_)) (s.(CF_BS_))
    (s.(CF_BScnt_)) v (s.(FC_BS_)) (s.(FC_FS_)) (s.(use_ext_adr_))
    (s.(ext_source_adr_)) (s.(ext_target_adr_)) (s.(use_zero_padding_))
    (s.(timer_TX_CF_)) (s.(timer_TX_FC_)) (s.(timer_RX_CF_)) (s.(tx_ev_)).
Definition set_FC_BS (v : Z) (s : iso15765) : iso15765 :=
  mk (s.(upper_)) (s.(CF_frame_)) (s.(CF_eid_)) (s.(CF_SN_)) (s.(CF_DL_))
    (s.(CF_size_)) (s.(CF_MAX_DL_)) (s.(CF_STmin_)) (s.(CF_BS_))
    (s.(CF_BScnt_)) (s.(FC_STmin_)) v (s.(FC_FS_)) (s.(use_ext_adr_))
    (s.(ext_source_adr_)) (s.(ext_target_adr_)) (s.(use_zero_padding_))
    (s.(timer_TX_CF_)) (s.(timer_TX_FC_)) (s.(timer_RX_CF_)) (s.(tx_ev_)).
Definition set_FC_FS (v : Z) (s : iso15765) : iso15765 :=
  mk (s.(upper_)) (s.(CF_frame_)) (s.(CF_eid_)) (s.(CF_SN_)) (s.(CF_DL_))
    (s.(CF_size_)) (s.(CF_MAX_DL_)) (s.(CF_STmin_)) (s.(CF_BS_))
    (s.(CF_BScnt_)) (s.(FC_STmin_)) (s.(FC_BS_)) v (s.(use_ext_adr_))
    (s.(ext_source_adr_)) (s.(ext_target_adr_)) (s.(use_zero_padding_))
    (s.(timer_TX_CF_)) (s.(timer_TX_FC_)) (s.(timer_RX_CF_)) (s.(tx_ev_)).
Definition set_use_ext_adr (v : bool) (s : iso15765) : iso15765 :=
  mk (s.(upper_)) (s.(CF_frame_)) (s.(CF_eid_)) (s.(CF_SN_)) (s.(CF_DL_))
    (s.(CF_size_)) (s.(CF_MAX_DL_)) (s.(CF_STmin_)) (s.(CF_BS_))
    (s.(CF_BScnt_)) (s.(FC_STmin_)) (s.(FC_BS_)) (s.(FC_FS_)) v
    (s.(ext_source_adr_)) (s.(ext_target_adr_)) (s.(use_zero_padding_))
    (s.(timer_TX_CF_)) (s.(timer_TX_FC_)) (s.(timer_RX_CF_)) (s.(tx_ev_)).
Definition set_ext_source_adr (v : Z) (s : iso15765) : iso15765 :=
  mk (s.(upper_)) (s.(CF_frame_)) (s.(CF_eid_)) (s.(CF_SN_)) (s.(CF_DL_))
    (s.(CF_size_)) (s.(CF_MAX_DL_)) (s.(CF_STmin_)) (s.(CF_BS_))
    (s.(CF_BScnt_)) (s.(FC_STmin_)) (s.(FC_BS_)) (s.(FC_FS_))
    (s.(use_ext_adr_)) v (s.(ext_target_adr_)) (s.(use_zero_padding_))
    (s.(timer_TX_CF_)) (s.(timer_TX_FC_)) (s.(timer_RX_CF_)) (s.(tx_ev_)).
Definition set_ext_target_adr (v : Z) (s : iso15765) : iso15765 :=
  mk (s.(upper_)) (s.(CF_frame_)) (s.(CF_eid_)) (s.(CF_SN_)) (s.(CF_DL_))
    (s.(CF_size_)) (s.(CF_MAX_DL_)) (s.(CF_STmin_)) (s.(CF_BS_))
    (s.(CF_BScnt_)) (s.(FC_STmin_)) (s.(FC_BS_)) (s.(FC_FS_))
    (s.(use_ext_adr_)) (s.(ext_source_adr_)) v (s.(use_zero_padding_))
    (s.(timer_TX_CF_)) (s.(timer_TX_FC_)) (s.(timer_RX_CF_)) (s.(tx_ev_)).
Definition set_use_zero_padding (v : bool) (s : iso15765) : iso15765 :=
  mk (s.(upper_)) (s.(CF_frame_)) (s.(CF_eid_)) (s.(CF_SN_)) (s.(CF_DL_))
    (s.(CF_size_)) (s.(CF_MAX_DL_)) (s.(CF_STmin_)) (s.(CF_BS_))
    (s.(CF_BScnt_)) (s.(FC_STmin_)) (s.(FC_BS_)) (s.(FC_FS_))
    (s.(use_ext_adr_)) (s.(ext_source_adr_)) (s.(ext_target_adr_)) v
    (s.(timer_TX_CF_)) (s.(timer_TX_FC_)) (s.(timer_RX_CF_)) (s.(tx_ev_)).
Definition set_timer_TX_CF (v : timer) (s : iso15765) : iso15765 :=
  mk (s.(upper_)) (s.(CF_frame_)) (s.(CF_eid_)) (s.(CF_SN_)) (s.(CF_DL_))
    (s.(CF_size_)) (s.(CF_MAX_DL_)) (s.(CF_STmin_)) (s.(CF_BS_))
    (s.(CF_BScnt_)) (s.(FC_STmin_)) (s.(FC_BS_)) (s.(FC_FS_))
    (s.(use_ext_adr_)) (s.(ext_source_adr_)) (s.(ext_target_adr_))
    (s.(use_zero_padding_)) v (s.(timer_TX_FC_)) (s.(timer_RX_CF_))
    (s.(tx_ev_)).
Definition set_timer_TX_FC (v : timer) (s : iso15765) : iso15765 :=
  mk (s.(upper_)) (s.(CF_frame_)) (s.(CF_eid_)) (s.(CF_SN_)) (s.(CF_DL_))
    (s.(CF_size_)) (s.(CF_MAX_DL_)) (s.(CF_STmin_)) (s.(CF_BS_))
    (s.(CF_BScnt_)) (s.(FC_STmin_)) (s.(FC_BS_)) (s.(FC_FS_))
    (s.(use_ext_adr_)) (s.(ext_source_adr_)) (s.(ext_target_adr_))
    (s.(use_zero_padding_)) (s.(timer_TX_CF_)) v (s.(timer_RX_CF_))
    (s.(tx_ev_)).
Definition set_timer_RX_CF (v : timer) (s : iso15765) : iso15765 :=
  mk (s.(upper_)) (s.(CF_frame_)) (s.(CF_eid_)) (s.(CF_SN_)) (s.(CF_DL_))
    (s.(CF_size_)) (s.(CF_MAX_DL_)) (s.(CF_STmin_)) (s.(CF_BS_))
    (s.(CF_BScnt_)) (s.(FC_STmin_)) (s.(FC_BS_)) (s.(FC_FS_))
    (s.(use_ext_adr_)) (s.(ext_source_adr_)) (s.(ext_target_adr_))
    (s.(use_zero_padding_)) (s.(timer_TX_CF_)) (s.(timer_TX_FC_)) v
    (s.(tx_ev_)).
Definition set_tx_ev (v : bool) (s : iso15765) : iso15765 :=
  mk (s.(upper_)) (s.(CF_frame_)) (s.(CF_eid_)) (s.(CF_SN_)) (s.(CF_DL_))
    (s.(CF_size_)) (s.(CF_MAX_DL_)) (s.(CF_STmin_)) (s.(CF_BS_))
    (s.(CF_BScnt_)) (s.(FC_STmin_)) (s.(FC_BS_)) (s.(FC_FS_))
    (s.(use_ext_adr_)) (s.(ext_source_adr_)) (s.(ext_target_adr_))
    (s.(use_zero_padding_)) (s.(timer_TX_CF_)) (s.(timer_TX_FC_))
    (s.(timer_RX_CF_)) v.

(** The constructor iso15765(lower, STmin, BS, MAX_DL). *)
Definition ctor (wired : bool) (STmin BS MAX_DL : Z) : iso15765 :=
  mk wired [] eid_any 0 0 0 (u16 MAX_DL) (u8 STmin) (u8 BS) 0 0 0 0
     false 0 0 false timer_stop timer_stop timer_stop false.

Definition extended_addressing (use_extended : bool) (source_adr target_adr : Z)
    (s : iso15765) : iso15765 :=
  set_ext_target_adr (u8 target_adr)
    (set_ext_source_adr (u8 source_adr) (set_use_ext_adr use_extended s)).

Definition set_zero_padding (v : bool) (s : iso15765) : iso15765 :=
  set_use_zero_padding v s.

(* use_ext_adr_ ? x_EXT : x *)
Definition SF_len (s : iso15765) : Z :=
  if use_ext_adr_ s then SF_DATALENGTH_EXT else SF_DATALENGTH.
Definition FF_len (s : iso15765) : Z :=
  if use_ext_adr_ s then FF_DATALENGTH_EXT else FF_DATALENGTH.
Definition CF_len (s : iso15765) : Z :=
  if use_ext_adr_ s then CF_DATALENGTH_EXT else CF_DATALENGTH.

(** if (use_ext_adr_) m.push_front(ext_target_adr_) *)
Definition add_target (s : iso15765) (m : LMsg.msg) : LMsg.msg :=
  if use_ext_adr_ s then LMsg.push_front m (ext_target_adr_ s) else m.

(** if (use_zero_padding_)
      m.insert(m.end(), m.size() < FRAME_LENGTH ? FRAME_LENGTH - m.size() : 0, 0) *)
Definition zero_pad (s : iso15765) (m : LMsg.msg) : LMsg.msg :=
  if use_zero_padding_ s then
    LMsg.insert_end_n m
      (if LMsg.size m <? FRAME_LENGTH
       then Z.to_nat (FRAME_LENGTH - LMsg.size m) else 0%nat) 0
  else m.

(** open(): [lower_ok] is the answer of the lower layer's open(). *)
Definition open (lower_ok : bool) (address : option string) (id : eid)
    (s : iso15765) : bool * iso15765 * list event :=
  if negb (upper_ s) then (false, s, [])
  else
    let result := lower_ok in
    (result, set_CF_DL 0 s, [LowerOpen address id]).

Definition close (id : eid) (s : iso15765) : iso15765 * list event :=
  let s1 := set_timer_TX_CF timer_stop s in
  let s2 := set_timer_TX_FC timer_stop s1 in
  let s3 := set_timer_RX_CF timer_stop s2 in
  (s3, [LowerClose id]).

(** send(): [lower_ok] is the answer of the lower layer's send().  The
    message of the caller is passed by its content. *)
Definition send (lower_ok : bool) (data : LMsg.msg) (id : eid) (more : bool)
    (s : iso15765) : bool * iso15765 * list event :=
  if CF_MAX_FRAME_SIZE <? LMsg.size data then (false, s, [])
  else if negb (CF_DL_ s =? 0) then (false, s, [])
  else if LMsg.size data <=? SF_len s then
    (* send SF *)
    let d1 := LMsg.push_front data
                (u8 (Z.lor NPCI_SINGLE_FRAME (Z.land (LMsg.size data) 0x0F))) in
    let d2 := add_target s d1 in
    let d3 := zero_pad s d2 in
    (lower_ok, s, [LowerSend d3 id false])
  else
    (* send FF *)
    let s1 := set_CF_frame data s in
    let s2 := set_CF_SN 1 s1 in
    let s3 := set_CF_DL (FF_len s2) s2 in
    let s4 := set_CF_size (u16 (LMsg.size data)) s3 in
    let s5 := set_CF_BScnt 0 s4 in
    let s6 := set_CF_eid id s5 in
    let ff1 := LMsg.push_back []
                 (u8 (Z.lor NPCI_FIRST_FRAME
                            (Z.land (Z.shiftr (CF_size_ s6) 8) 0x0F))) in
    let ff2 := LMsg.push_back ff1 (u8 (CF_size_ s6)) in
    let ff3 := LMsg.insert_end ff2
                 (LMsg.range data 0 (Z.to_nat (CF_DL_ s6))) in
    let ff4 := add_target s6 ff3 in
    if lower_ok then
      (true, set_timer_TX_FC (timer_start N_Bs) s6, [LowerSend ff4 id false])
    else
      (false, set_CF_frame (LMsg.clear (CF_frame_ s6)) (set_CF_DL 0 s6),
       [LowerSend ff4 id false]).

(** send_FC(FS, id); the answer of the lower layer is returned by the
    source and dropped by every caller. *)
Definition send_FC (FS : Z) (id : eid) (s : iso15765) : list event :=
  let fc1 := LMsg.push_back [] (u8 (Z.lor NPCI_FLOW_CONTROL (Z.land FS 0x0F))) in
  let fc2 := LMsg.push_back fc1 (CF_BS_ s) in
  let fc3 := LMsg.push_back fc2 (CF_STmin_ s) in
  let fc4 := add_target s fc3 in
  let fc5 := zero_pad s fc4 in
  [LowerSend fc5 id false].

(** case NPCI_SINGLE_FRAME of receive() *)
Definition receive_SF (data : LMsg.msg) (id : eid) (s : iso15765)
    : iso15765 * list event :=
  let s1 := set_CF_DL 0 s in
  let SF_DL := Z.land (LMsg.at_ data 0) 0x0F in
  if (SF_len s1 <? SF_DL) || (LMsg.size data <=? SF_DL) then
    (s1, [UpperIndication rx_error id])
  else
    let d1 := LMsg.pop_front data in
    let d2 := LMsg.resize d1 (Z.to_nat SF_DL) in
    (s1, [UpperReceive d2 id false]).

(** case NPCI_FIRST_FRAME of receive() *)
Definition receive_FF (data : LMsg.msg) (id : eid) (s : iso15765)
    : iso15765 * list event :=
  let s1 := set_CF_DL (make_large (LMsg.at_ data 1)
                         (Z.land (LMsg.at_ data 0) 0x0F)) s in
  if CF_DL_ s1 <? FF_len s1 + 2 then
    (set_CF_frame (LMsg.clear (CF_frame_ s1)) (set_CF_DL 0 s1),
     [UpperIndication rx_error id])
  else if (CF_MAX_DL_ s1 <? CF_DL_ s1) || (CF_MAX_BUFFER_SIZE <? CF_DL_ s1) then
    (set_CF_frame (LMsg.clear (CF_frame_ s1)) (set_CF_DL 0 s1),
     [UpperIndication rx_error id])
  else
    let d1 := LMsg.pop_front data in
    let d2 := LMsg.pop_front d1 in
    let d3 := LMsg.resize d2 (Z.to_nat (FF_len s1)) in
    let s2 := set_CF_frame d3 s1 in
    let s3 := set_CF_SN 1 s2 in
    let s4 := set_CF_BScnt 0 s3 in
    let ev := send_FC FC_CTS id s4 in
    (set_timer_RX_CF (timer_start N_Cr) s4, ev).

(** case NPCI_CONSECUTIVE_FRAME of receive() *)
Definition receive_CF (data : LMsg.msg) (id : eid) (s : iso15765)
    : iso15765 * list event :=
  let s1 := set_timer_RX_CF timer_stop s in
  if CF_DL_ s1 =? 0 then (s1, [UpperIndication rx_error id])
  else
    let SN := Z.land (LMsg.at_ data 0) 0x0F in
    if negb (SN =? CF_SN_ s1) then
      (set_CF_frame (LMsg.clear (CF_frame_ s1)) (set_CF_DL 0 s1),
       [UpperIndication rx_error id])
    else
      let s2 := set_CF_SN (Z.land (u8 (CF_SN_ s1 + 1)) 0x0F) s1 in
      let d1 := LMsg.pop_front data in
      let '(s3, ev1) :=
        if LMsg.size (CF_frame_ s2) + LMsg.size d1 <=? CF_MAX_BUFFER_SIZE
        then (set_CF_frame (LMsg.insert_end (CF_frame_ s2) d1) s2, [])
        else (s2, [UpperIndication rx_overrun id]) in
      if CF_DL_ s3 <=? LMsg.size (CF_frame_ s3) then
        let whole := LMsg.resize (CF_frame_ s3) (Z.to_nat (CF_DL_ s3)) in
        (set_CF_frame (LMsg.clear whole) (set_CF_DL 0 s3),
         ev1 ++ [UpperReceive whole id false])
      else
        let '(s4, ev2) :=
          if negb (CF_BS_ s3 =? 0) then
            let s3' := set_CF_BScnt (u8 (CF_BScnt_ s3 + 1)) s3 in
            if CF_BS_ s3' <=? CF_BScnt_ s3' then
              let s3'' := set_CF_BScnt 0 s3' in
              (s3'', send_FC FC_CTS id s3'')
            else (s3', [])
          else (s3, []) in
        (set_timer_RX_CF (timer_start N_Cr) s4, ev1 ++ ev2).

(** case NPCI_FLOW_CONTROL of receive() *)
Definition receive_FC (data : LMsg.msg) (id : eid) (s : iso15765)
    : iso15765 * list event :=
  let s1 := set_timer_TX_FC timer_stop s in
  if LMsg.size data <? FC_DATALENGTH then
    (s1, [UpperIndication rx_error id])
  else if 1 <? Z.land (LMsg.at_ data 0) 0x0F then
    (s1, [UpperIndication rx_error id])
  else
    let s2 := set_FC_FS (Z.land (LMsg.at_ data 0) 0x01) s1 in
    let s3 := set_FC_BS (LMsg.at_ data 1) s2 in
    let s4 := set_FC_STmin (LMsg.at_ data 2) s3 in
    let s5 := set_CF_BScnt 0 s4 in
    if FC_FS_ s5 =? 0 then
      (set_timer_TX_CF (timer_start (FC_STmin_ s5)) s5, [])
    else (s5, []).

Definition receive (data : LMsg.msg) (id : eid) (more : bool)
    (s : iso15765) : iso15765 * list event :=
  if use_ext_adr_ s && negb (LMsg.at_ data 0 =? ext_source_adr_ s) then
    (* source address mismatch, discard frame - this is no error *)
    (s, [])
  else
    let d := if use_ext_adr_ s then LMsg.pop_front data else data in
    let npci := Z.land (LMsg.at_ d 0) 0xF0 in
    if npci =? NPCI_SINGLE_FRAME then receive_SF d id s
    else if npci =? NPCI_FIRST_FRAME then receive_FF d id s
    else if npci =? NPCI_CONSECUTIVE_FRAME then receive_CF d id s
    else if npci =? NPCI_FLOW_CONTROL then receive_FC d id s
    else (s, [UpperIndication rx_error id]).

Definition indication (code : status_type) (id : eid) (s : iso15765)
    : iso15765 * list event :=
  let s1 := match code with tx_done => set_tx_ev true s | _ => s end in
  (s1, [UpperIndication code id]).

(** send_CF(): [set_in_time] tells whether tx_done is signalled while the
    function waits on tx_ev_, [lower_ok] is the answer of the lower
    layer's send(). *)
Definition send_CF (set_in_time lower_ok : bool) (s : iso15765)
    : bool * iso15765 * list event :=
  let cf1 := LMsg.push_back []
               (u8 (Z.lor NPCI_CONSECUTIVE_FRAME (Z.land (CF_SN_ s) 0x0F))) in
  let last := if CF_DL_ s + CF_len s <? LMsg.size (CF_frame_ s)
              then Z.to_nat (CF_DL_ s + CF_len s)
              else length (CF_frame_ s) in
  let cf2 := LMsg.insert_end cf1
               (LMsg.range (CF_frame_ s) (Z.to_nat (CF_DL_ s)) last) in
  let cf3 := add_target s cf2 in
  let cf4 := zero_pad s cf3 in
  match wait_for (tx_ev_ s) set_in_time with
  | timeout =>
      (false, set_CF_frame (LMsg.clear (CF_frame_ s)) (set_CF_DL 0 s),
       [UpperIndication tx_timeout eid_any])
  | no_timeout =>
      let s1 := set_tx_ev false s in
      if lower_ok then
        let s2 := set_CF_SN (u8 (CF_SN_ s1 + 1)) s1 in
        let s3 := set_CF_DL (u16 (CF_DL_ s2 + CF_len s2)) s2 in
        if CF_size_ s3 <=? CF_DL_ s3 then
          (true, set_CF_frame (LMsg.clear (CF_frame_ s3)) (set_CF_DL 0 s3),
           [LowerSend cf4 (CF_eid_ s) false])
        else if negb (FC_BS_ s3 =? 0) then
          let s4 := set_CF_BScnt (u8 (CF_BScnt_ s3 + 1)) s3 in
          if FC_BS_ s3 <=? CF_BScnt_ s3 then
            (true, set_timer_TX_FC (timer_start N_Bs) s4,
             [LowerSend cf4 (CF_eid_ s) false])
          else
            (true, set_timer_TX_CF (timer_start (FC_STmin_ s4)) s4,
             [LowerSend cf4 (CF_eid_ s) false])
        else
          (true, set_timer_TX_CF (timer_start (FC_STmin_ s3)) s3,
           [LowerSend cf4 (CF_eid_ s) false])
      else
        (false, set_timer_TX_CF (timer_start (FC_STmin_ s1)) s1,
         [LowerSend cf4 (CF_eid_ s) false])
  end.

Definition send_CF_abort (s : iso15765) : iso15765 * list event :=
  (set_CF_frame (LMsg.clear (CF_frame_ s)) (set_CF_DL 0 s),
   [UpperIndication rx_timeout eid_any]).

(** The timer callbacks. *)
Definition timer_func_TX_CF (set_in_time lower_ok : bool) (s : iso15765)
    : iso15765 * list event :=
  let '(_, s1, ev) := send_CF set_in_time lower_ok s in (s1, ev).
Definition timer_func_TX_FC (s : iso15765) : iso15765 * list event :=
  send_CF_abort s.
Definition timer_func_RX_CF (s : iso15765) : iso15765 * list event :=
  send_CF_abort s.

(** Expiry of an armed one-shot timer: the timer is no longer pending
    and its callback runs.  A stopped timer does not fire. *)
Definition expire_TX_CF (set_in_time lower_ok : bool) (s : iso15765)
    : iso15765 * list event :=
  match timer_TX_CF_ s with
  | Some _ => timer_func_TX_CF set_in_time lower_ok (set_timer_TX_CF timer_stop s)
  | None => (s, [])
  end.
Definition expire_TX_FC (s : iso15765) : iso15765 * list event :=
  match timer_TX_FC_ s with
  | Some _ => timer_func_TX_FC (set_timer_TX_FC timer_stop s)
  | None => (s, [])
  end.
Definition expire_RX_CF (s : iso15765) : iso15765 * list event :=
  match timer_RX_CF_ s with
  | Some _ => timer_func_RX_CF (set_timer_RX_CF timer_stop s)
  | None => (s, [])
  end.

End Iso15765.

(** ** Serial port communicator (Windows), class decom::com::serial *)
Module Serial.

(** A Windows HANDLE as far as the code tells values apart. *)
Inductive handle : Type :=
| INVALID_HANDLE_VALUE
| NULL_HANDLE
| VALID_HANDLE.

Definition handle_is_invalid (h : handle) : bool :=
  match h with INVALID_HANDLE_VALUE => true | _ => false end.

(** The operating system calls the layer makes, recorded in order. *)
Inductive os_call : Type :=
| CreateFileA (port : string)
| SetCommState
| SetCommTimeouts
| BeginThread
| ResumeThread
| TerminateThread      (* SetEvent(ev_terminate), wait, CloseHandle(thread) *)
| PurgeComm
| CloseHandle.

Inductive serial_event : Type :=
| Os (c : os_call)
| Up (e : event).

(** The answers of the operating system to one open(). *)
Record os_answers : Type := mk_os {
  create_file_ok : bool;
  set_comm_state_ok : bool;
  set_comm_timeouts_ok : bool;
  begin_thread_ok : bool
}.

Record serial : Type := mk {
  upper_ : bool;              (* the upper layer is wired (non null) *)
  thread_handle_ : handle;
  com_handle_ : handle;
  tx_busy_ : bool
}.

Definition ctor (wired : bool) : serial :=
  mk wired INVALID_HANDLE_VALUE INVALID_HANDLE_VALUE false.

Definition is_open (s : serial) : bool := negb (handle_is_invalid (com_handle_ s)).

Definition close (s : serial) : serial * list serial_event :=
  let '(s1, ev1) :=
    if negb (handle_is_invalid (thread_handle_ s)) then
      (mk (upper_ s) INVALID_HANDLE_VALUE (com_handle_ s) (tx_busy_ s),
       [Os TerminateThread])
    else (s, []) in
  let '(s2, ev2) :=
    if negb (handle_is_invalid (com_handle_ s1)) then
      (mk (upper_ s1) (thread_handle_ s1) INVALID_HANDLE_VALUE (tx_busy_ s1),
       [Os PurgeComm; Os CloseHandle; Up (UpperIndication disconnected eid_any)])
    else (s1, []) in
  (s2, ev1 ++ ev2).

(** set_param(): validates the port, then applies the settings. *)
Definition set_param (os : os_answers) (s : serial) : bool * list serial_event :=
  if negb (is_open s) then (false, [])
  else (set_comm_state_ok os, [Os SetCommState]).

Definition open (os : os_answers) (address : option string) (id : eid)
    (s : serial) : bool * serial * list serial_event :=
  (* check that upper protocol/device exists *)
  if negb (upper_ s) then (false, s, [])
  else
    match address with
    | None => (false, s, [])
    | Some EmptyString => (false, s, [])
    | Some adr =>
        let port := String.append "\\.\" adr in
        let '(s1, ev1) := close s in
        let ev2 := ev1 ++ [Os (CreateFileA port)] in
        if negb (create_file_ok os) then
          (false, mk (upper_ s1) (thread_handle_ s1) INVALID_HANDLE_VALUE
                     (tx_busy_ s1), ev2)
        else
          let s2 := mk (upper_ s1) (thread_handle_ s1) VALID_HANDLE (tx_busy_ s1) in
          let '(ok3, ev3) := set_param os s2 in
          if negb ok3 then
            let '(s3, ev4) := close s2 in (false, s3, ev2 ++ ev3 ++ ev4)
          else if negb (set_comm_timeouts_ok os) then
            let '(s3, ev4) := close s2 in
            (false, s3, ev2 ++ ev3 ++ [Os SetCommTimeouts] ++ ev4)
          else
            let s4 := mk (upper_ s2) (thread_handle_ s2) (com_handle_ s2) false in
            let ev5 := ev2 ++ ev3 ++ [Os SetCommTimeouts; Os BeginThread] in
            if negb (begin_thread_ok os) then
              let '(s5, ev6) :=
                close (mk (upper_ s4) NULL_HANDLE (com_handle_ s4) (tx_busy_ s4)) in
              (false, s5, ev5 ++ ev6)
            else
              (true, mk (upper_ s4) VALID_HANDLE (com_handle_ s4) (tx_busy_ s4),
               ev5 ++ [Os ResumeThread; Up (UpperIndication connected eid_any)])
    end.

(** The outcome of WriteFile on the overlapped port handle. *)
Inductive write_answer : Type :=
| written (n : Z)        (* TRUE, with [n] bytes written *)
| write_pending          (* FALSE, GetLastError() is ERROR_IO_PENDING *)
| write_failed.          (* FALSE with any other error *)

(** send(): [w] is the answer of WriteFile.  The third component lists
    the buffers handed to WriteFile (tx_buf_, the bytes of the message
    in order). *)
Definition send (w : write_answer) (data : LMsg.msg) (s : serial)
    : bool * serial * list (list byte) :=
  if negb (is_open s) then (false, s, [])
  else if tx_busy_ s then (false, s, [])
  else
    let tx_buf : list byte := data in
    let s1 := mk (upper_ s) (thread_handle_ s) (com_handle_ s) true in
    let idle := mk (upper_ s1) (thread_handle_ s1) (com_handle_ s1) false in
    match w with
    | written n =>
        if negb (n =? LMsg.size tx_buf) then (false, idle, [tx_buf])
        else (true, s1, [tx_buf])
    | write_pending => (true, s1, [tx_buf])
    | write_failed => (false, idle, [tx_buf])
    end.

(** The transmit event of the worker thread: [ok] is the answer of
    GetOverlappedResult and [n] the number of bytes it reports. *)
Definition worker_transmit (ok : bool) (n : Z) (s : serial)
    : serial * list serial_event :=
  let ev := if ok && negb (n =? 0)
            then [Up (UpperIndication tx_done eid_any)]
            else [Up (UpperIndication tx_error eid_any)] in
  (mk (upper_ s) (thread_handle_ s) (com_handle_ s) false, ev).

End Serial.

(** ** The message pool and the paged message container (msg.h, msg_pool.h) *)
Module MsgPool.

Local Open Scope nat_scope.

Section pool.

(** DECOM_MSG_POOL_PAGE_SIZE, the number of bytes of a page. *)
Variable B : nat.

(** Modelled from the spec: msg_pool.h is not among the sources.  The
    pool is a static array of pages of [B] bytes; each page has a
    reference count; free pages live on a LIFO free list; a counter
    keeps the high-water mark of the pages in use. *)
Record page : Type := mk_page {
  ref_count : nat;
  bytes : list byte
}.

Record msg_pool : Type := mk_pool {
  pages : list page;
  free_list : list nat;
  used_max : nat
}.

Definition pool_init (P : nat) : msg_pool :=
  mk_pool (replicate P (mk_page 0 (replicate B 0%Z))) (seq 0 P) 0.

Definition used_pages (p : msg_pool) : nat :=
  length (pages p) - length (free_list p).
Definition used_pages_max (p : msg_pool) : nat := used_max p.
Definition clear_used_pages_max (p : msg_pool) : msg_pool :=
  mk_pool (pages p) (free_list p) (used_pages p).

Definition refcnt (p : msg_pool) (i : nat) : nat :=
  match pages p !! i with Some pg => ref_count pg | None => 0 end.

Definition set_refcnt (i n : nat) (p : msg_pool) : msg_pool :=
  mk_pool (alter (fun pg => mk_page n (bytes pg)) i (pages p))
          (free_list p) (used_max p).

(** Modelled from the spec: acquire() takes one free page, refcount = 1,
    and fails when the free list is empty. *)
Definition acquire (p : msg_pool) : option (nat * msg_pool) :=
  match free_list p with
  | [] => None
  | i :: rest =>
      let p1 := set_refcnt i 1 p in
      let p2 := mk_pool (pages p1) rest (used_max p1) in
      Some (i, mk_pool (pages p2) (free_list p2)
                       (Nat.max (used_max p2) (used_pages p2)))
  end.

(** Modelled from the spec: acquire(page_ref) increments the reference
    count (share). *)
Definition acquire_ref (i : nat) (p : msg_pool) : msg_pool :=
  set_refcnt i (S (refcnt p i)) p.

(** Modelled from the spec: release(page_ref) decrements the reference
    count; at zero the page returns to the free list. *)
Definition release (i : nat) (p : msg_pool) : msg_pool :=
  match refcnt p i with
  | 0 => p
  | 1 => let p1 := set_refcnt i 0 p in
         mk_pool (pages p1) (i :: free_list p1) (used_max p1)
  | S n => set_refcnt i n p
  end.

(** The bytes of page [i]. *)
Definition page_bytes (p : msg_pool) (i : nat) : list byte :=
  match pages p !! i with
  | Some pg => bytes pg
  | None => []
  end.

Definition read_page (p : msg_pool) (i off : nat) : byte :=
  nth off (page_bytes p i) 0%Z.

Definition write_page (i off : nat) (v : byte) (p : msg_pool) : msg_pool :=
  mk_pool (alter (fun pg => mk_page (ref_count pg) (<[off := v]> (bytes pg)))
                 i (pages p))
          (free_list p) (used_max p).

(** Modelled from the spec: msg.h is not among the sources.
    A message holds an ordered list of pages borrowed from the pool
    and a window [(head, tail)]: its bytes are
    pages[0][head..B) ++ pages[1][0..B) ++ ... ++ pages[k-1][0..tail). *)
Record msg : Type := mk_msg {
  pgs : list nat;
  head : nat;
  tail : nat
}.

Definition msg_empty : msg := mk_msg [] 0 0.

(** Modelled from the spec: size() = (k * B) - head - (B - tail) for
    k >= 1, else 0. *)
Definition size (m : msg) : nat :=
  match pgs m with
  | [] => 0
  | _ => length (pgs m) * B - head m - (B - tail m)
  end.

Definition empty (m : msg) : bool := size m =? 0.

(** Modelled from the spec: the effective bytes of the message, the
    window over its pages, linearized. *)
Definition content (p : msg_pool) (m : msg) : list byte :=
  take (size m) (drop (head m) (concat (page_bytes p <$> pgs m))).

(** Modelled from the spec: at(i), and operator[] as the access test
    uses it, is bounds-checked; the marker 0xCC is read past the end. *)
Definition at_ (p : msg_pool) (m : msg) (i : nat) : byte :=
  if size m <=? i then 0xCC%Z
  else
    let k := head m + i in
    match pgs m !! (k / B) with
    | Some pg => read_page p pg (k mod B)
    | None => 0xCC%Z
    end.

(** Modelled from the spec: the unshared invariant every write path
    verifies.  A message is shared when one of its pages is referenced
    a second time.  (Sharing is by page reference count, not a mark on
    the message: in the copy test the original accepts push_back again
    once its cheap copy was cleared.) *)
Definition is_shared (p : msg_pool) (m : msg) : bool :=
  existsb (fun i => 1 <? refcnt p i) (pgs m).

(** Modelled from the spec: push_back(v) takes a new trailing page when
    there is none or when tail == B; it returns false if the message is
    shared or the pool is exhausted. *)
Definition push_back (v : byte) (p : msg_pool) (m : msg)
    : bool * msg_pool * msg :=
  if is_shared p m then (false, p, m)
  else
    match last (pgs m) with
    | Some l =>
        if tail m =? B then
          match acquire p with
          | None => (false, p, m)
          | Some (i, p1) =>
              (true, write_page i 0 v p1, mk_msg (pgs m ++ [i]) (head m) 1)
          end
        else
          (true, write_page l (tail m) v p, mk_msg (pgs m) (head m) (S (tail m)))
    | None =>
        match acquire p with
        | None => (false, p, m)
        | Some (i, p1) => (true, write_page i 0 v p1, mk_msg [i] 0 1)
        end
    end.

(** Modelled from the spec: push_front(v) takes a new leading page when
    there is none or when head == 0; it returns false if the message is
    shared or the pool is exhausted. *)
Definition push_front (v : byte) (p : msg_pool) (m : msg)
    : bool * msg_pool * msg :=
  if is_shared p m then (false, p, m)
  else
    match pgs m with
    | f :: _ =>
        if head m =? 0 then
          match acquire p with
          | None => (false, p, m)
          | Some (i, p1) =>
              (true, write_page i (B - 1) v p1,
               mk_msg (i :: pgs m) (B - 1) (tail m))
          end
        else
          (true, write_page f (head m - 1) v p,
           mk_msg (pgs m) (head m - 1) (tail m))
    | [] =>
        match acquire p with
        | None => (false, p, m)
        | Some (i, p1) =>
            (true, write_page i (B - 1) v p1, mk_msg [i] (B - 1) B)
        end
    end.

(** Modelled from the spec: put(buf, n) appends the bytes of [buf]; it
    returns false at the first byte that cannot be stored. *)
Fixpoint put (buf : list byte) (p : msg_pool) (m : msg)
    : bool * msg_pool * msg :=
  match buf with
  | [] => (true, p, m)
  | v :: rest =>
      match push_back v p m with
      | (true, p1, m1) => put rest p1 m1
      | r => r
      end
  end.

(** Modelled from the spec: clear() releases all pages; the message is
    empty and writable. *)
Definition clear (p : msg_pool) (m : msg) : msg_pool * msg :=
  (foldr release p (pgs m), msg_empty).

(** Modelled from the spec: dst.ref_copy(src), the cheap copy.  [dst]
    drops what it holds, then shares the pages and the window of [src];
    the reference count of every shared page is incremented. *)
Definition ref_copy (p : msg_pool) (dst src : msg) : msg_pool * msg :=
  let '(p1, _) := clear p dst in
  (foldr acquire_ref p1 (pgs src), mk_msg (pgs src) (head src) (tail src)).

(** Every page of the pool has [B] bytes. *)
Definition pool_wf (p : msg_pool) : Prop :=
  Forall (fun pg => length (bytes pg) = B) (pages p).

(** The pages of a message are pages of the pool. *)
Definition msg_in_pool (p : msg_pool) (m : msg) : Prop :=
  Forall (fun i => i < length (pages p)) (pgs m).

(** The entries of the free list are pages of the pool. *)
Definition free_in_pool (p : msg_pool) : Prop :=
  Forall (fun i => i < length (pages p)) (free_list p).

(** The window of a message that holds pages lies within them. *)
Definition window_ok (m : msg) : Prop :=
  pgs m <> [] ->
  tail m <= B /\ head m <= (length (pgs m) - 1) * B + tail m.


End pool.

End MsgPool.

(** * The SNTP device: NTP time stamps and the request/retry cycle *)
Module Sntp.

Import Util.

Definition NTP_MODE_SERVER : Z := 4.
Definition NTP_HEADER_LEN : Z := 48.
Definition NTP_HEADER_EXT_LEN : Z := 68.

(* defines the maximum retries before failure *)
Definition MAX_RETRIES : Z := 3.
(* defines the maximum server response time before timeout in [ms] *)
Definition RESPONSE_TIMEOUT : Z := 2000.
(* period from 1900 - 1970 in [us] *)
Definition JAN_1970 : Z := 2208988800000000.

Definition u32 (x : Z) : Z := x mod 2 ^ 32.
Definition u64 (x : Z) : Z := x mod 2 ^ 64.
(** The value of an unsigned 64 bit number as the signed 64 bit count
    of a duration. *)
Definition i64 (x : Z) : Z := if x <? 2 ^ 63 then x else x - 2 ^ 64.

(** ntp_timestamp_type, fixpt_t<uint64, uint32, uint32>: seconds and
    the binary fraction of a second. *)
Record fixpt_t : Type := mk_fixpt {
  integer : Z;
  fraction : Z
}.

(** operator- *)
Definition fixpt_sub (a rhs : fixpt_t) : fixpt_t :=
  let tmp_fraction := u32 (fraction a - fraction rhs) in
  let tmp_integer :=
    u32 (u32 (integer a - integer rhs)
         - (if fraction a <? fraction rhs then 1 else 0)) in
  mk_fixpt tmp_integer tmp_fraction.

(** operator+ *)
Definition fixpt_add (a rhs : fixpt_t) : fixpt_t :=
  let tmp_fraction := u32 (fraction a + fraction rhs) in
  let tmp_integer :=
    u32 (u32 (integer a + integer rhs)
         + (if (tmp_fraction <? fraction a) && (tmp_fraction <? fraction rhs)
            then 1 else 0)) in
  mk_fixpt tmp_integer tmp_fraction.

(** get(): the value in microseconds; (F(-1) >> 1) + 1 is 2^31. *)
Definition fixpt_get (a : fixpt_t) : Z :=
  i64 (u64 (u64 (integer a * 1000000)
            + u64 (fraction a * 500000) / (Z.shiftr (u32 (-1)) 1 + 1))).

(** set(time): [time] is the signed 64 bit count of microseconds. *)
Definition fixpt_set (time : Z) : fixpt_t :=
  let integer1 := u32 (Z.quot time 1000000) in
  let fraction1 := u32 (u64 time mod 1000000) in
  let fraction2 :=
    u32 (u64 (fraction1 * (Z.shiftr (u32 (-1)) 1 + 1)) / 500000) in
  mk_fixpt integer1 fraction2.

(** What the header buffer ntp_header_ holds: the request assembled
    around a transmit time stamp, or the first bytes of a received
    message as they came. *)
Inductive header : Type :=
| header_request (send_timestamp : fixpt_t)
| header_received (raw : list byte).

Record sntp : Type := mk {
  ntp_header_ : header;           (* send/receive header *)
  timer_ : timer;                 (* timeout for response *)
  rx_ev_ : bool;                  (* receive event (latch) *)
  retries_ : Z;                   (* request retries (uint8) *)
  dest_timestamp_ : fixpt_t       (* destination time *)
}.

(** What the device hands to the lower layer: the request header with
    its transmit time stamp. *)
Inductive sntp_event : Type :=
| Request (send_timestamp : fixpt_t).

(** request(): [now] is the system clock in microseconds since the
    epoch, [lower_ok] the answer of device::send(). *)
Definition request (now : Z) (lower_ok : bool) (s : sntp)
    : bool * sntp * list sntp_event :=
  let ts := fixpt_set (now + JAN_1970) in
  (lower_ok,
   mk (header_request ts) (timer_start RESPONSE_TIMEOUT) false (retries_ s)
      (dest_timestamp_ s),
   [Request ts]).

(** timeout(): the response timeout handler. *)
Definition timeout (now : Z) (lower_ok : bool) (s : sntp)
    : sntp * list sntp_event :=
  let s1 := mk (ntp_header_ s) (timer_ s) (rx_ev_ s) (u8 (retries_ s + 1))
               (dest_timestamp_ s) in
  if retries_ s <? MAX_RETRIES then
    let '(_, s2, ev) := request now lower_ok s1 in (s2, ev)
  else
    (mk (ntp_header_ s1) (timer_ s1) true (retries_ s1) (dest_timestamp_ s1),
     []).

(** Expiry of the armed response timer. *)
Definition expire (now : Z) (lower_ok : bool) (s : sntp)
    : sntp * list sntp_event :=
  match timer_ s with
  | Some _ =>
      timeout now lower_ok
        (mk (ntp_header_ s) timer_stop (rx_ev_ s) (retries_ s)
            (dest_timestamp_ s))
  | None => (s, [])
  end.

(** A time stamp of the raw header is zero when its eight bytes are. *)
Definition timestamp_is_zero (raw : list byte) (off : nat) : bool :=
  forallb (fun b => b =? 0) (firstn 8 (skipn off raw)).

(** receive() *)
Definition receive (data : LMsg.msg) (now : Z) (lower_ok : bool) (s : sntp)
    : sntp * list sntp_event :=
  let s1 := mk (ntp_header_ s) timer_stop (rx_ev_ s) (retries_ s)
               (fixpt_set (now + JAN_1970)) in
  if negb (LMsg.size data =? NTP_HEADER_LEN) &&
     negb (LMsg.size data =? NTP_HEADER_EXT_LEN) then
    timeout now lower_ok s1
  else
    let raw := firstn 48 data in
    let s2 := mk (header_received raw) (timer_ s1) (rx_ev_ s1) (retries_ s1)
                 (dest_timestamp_ s1) in
    if timestamp_is_zero raw 16 || timestamp_is_zero raw 24 ||
       timestamp_is_zero raw 32 || timestamp_is_zero raw 40 ||
       negb (Z.land (LMsg.at_ raw 0) 0x07 =? NTP_MODE_SERVER) then
      timeout now lower_ok s2
    else
      (mk (ntp_header_ s2) (timer_ s2) true (retries_ s2) (dest_timestamp_ s2),
       []).

(** get_time(), up to the wait on rx_ev_: the first request. *)
Definition get_time_request (now : Z) (lower_ok : bool) (s : sntp)
    : bool * sntp * list sntp_event :=
  request now lower_ok
    (mk (ntp_header_ s) (timer_ s) (rx_ev_ s) 0 (dest_timestamp_ s)).

(** get_time(), after the wait on rx_ev_: whether a time is returned. *)
Definition get_time_result (s : sntp) : bool :=
  negb (MAX_RETRIES <=? retries_ s).

End Sntp.

(** * The test harness: escaping of text for the XML report *)
Module Test.

Local Open Scope string_scope.



End Test.

(** ** Auxiliary notions used in the statements *)

(** The byte stuffing of one data byte, as the loop of slip::send()
    writes it. *)
Definition stuffed (it : byte) : list byte :=
  if it =? Slip.END then [Slip.ESC; Slip.ESC_END]
  else if it =? Slip.ESC then [Slip.ESC; Slip.ESC_ESC]
  else [it].

(** A slip layer as open() leaves it: open, decoder idle, buffers empty. *)
Definition slip_ready (s : Slip.slip) : Prop :=
  Slip.is_open_ s = true /\ Slip.rx_state_ s = Slip.RCV_IDLE /\
  Slip.rx_msg_ s = [] /\ Slip.tx_msg_ s = [].

(** The frame a receiver takes in: with extended addressing the first
    byte must be the source address and is stripped, as receive() does
    before it looks at the N_PCI byte. *)
Definition iso_accepted (s : Iso15765.iso15765) (data : list byte)
    : option (list byte) :=
  if Iso15765.use_ext_adr_ s then
    if LMsg.at_ data 0 =? Iso15765.ext_source_adr_ s
    then Some (LMsg.pop_front data) else None
  else Some data.

(** The sender of the CF test (STmin 50, BS 3, MAX_DL 4095, normal
    addressing, no padding) after send() of the bytes 1..8 was accepted
    by the lower layer: the First Frame is out and the sender waits for
    a Flow Control frame. *)
Definition iso_waiting_for_FC : Iso15765.iso15765 :=
  snd (fst (Iso15765.send true [1; 2; 3; 4; 5; 6; 7; 8] (eid_of 10) false
              (Iso15765.ctor true 50 3 4095))).

(** The message of the copy test, the bytes 1 4 9 16, in a pool of 5
    pages of 4 bytes. *)
Definition copy_test_pool : MsgPool.msg_pool :=
  snd (fst (MsgPool.put 4 [1; 4; 9; 16] (MsgPool.pool_init 4 5) MsgPool.msg_empty)).
Definition copy_test_msg : MsgPool.msg :=
  snd (MsgPool.put 4 [1; 4; 9; 16] (MsgPool.pool_init 4 5) MsgPool.msg_empty).

(** The frame slip::send() hands to the lower layer for the packet [p]. *)
Definition slip_frame (p : list byte) : list byte :=
  Slip.END :: concat (map stuffed p) ++ [Slip.END].

(** What the slip decoder hands upward for a list of packets: one
    delivery per non-empty packet, in order. *)
Definition slip_deliveries (ps : list (list byte)) : list event :=
  map (fun p => UpperReceive p eid_any false)
      (List.filter (fun p => negb (LMsg.empty p)) ps).


(** Two iso15765 layers are peers when they agree on the addressing mode
    and, with extended addressing, the receiver [r] listens on the
    address the sender [s] sends to. *)
Definition iso_peer (s r : Iso15765.iso15765) : Prop :=
  Iso15765.use_ext_adr_ r = Iso15765.use_ext_adr_ s /\
  Iso15765.ext_source_adr_ r = Iso15765.ext_target_adr_ s.

(** Two stacks back to back: every frame one layer hands down (the
    LowerSend events among [evs]) reaches receive() of the peer, in
    order; the result is the peer afterwards and the events it raised. *)
Fixpoint iso_deliver (evs : list event) (peer : Iso15765.iso15765)
    : Iso15765.iso15765 * list event :=
  match evs with
  | [] => (peer, [])
  | LowerSend d id _ :: rest =>
      let '(p1, e1) := Iso15765.receive d id false peer in
      let '(p2, e2) := iso_deliver rest p1 in
      (p2, e1 ++ e2)
  | _ :: rest => iso_deliver rest peer
  end.

(** The start of a transfer from [s] to [r]: send() is called on [s] and
    accepted below, tx_done is indicated, the frame reaches [r] and what
    [r] answers reaches [s].  The result is both layers afterwards and
    the events of [r]. *)
Definition iso_start (p : list byte) (id : eid) (s r : Iso15765.iso15765)
    : Iso15765.iso15765 * Iso15765.iso15765 * list event :=
  let '(_, s1, ev1) := Iso15765.send true p id false s in
  let '(s2, _) := Iso15765.indication tx_done id s1 in
  let '(r1, evr) := iso_deliver ev1 r in
  let '(s3, _) := iso_deliver evr s2 in
  (s3, r1, evr).

(** One round of a transfer: the STmin timer of [s] expires, its frame
    is accepted below and acknowledged with tx_done, reaches [r], and
    what [r] answers reaches [s]. *)
Definition iso_round (s r : Iso15765.iso15765)
    : Iso15765.iso15765 * Iso15765.iso15765 * list event :=
  let '(s1, ev1) := Iso15765.expire_TX_CF false true s in
  let '(s2, _) := Iso15765.indication tx_done (Iso15765.CF_eid_ s) s1 in
  let '(r1, evr) := iso_deliver ev1 r in
  let '(s3, _) := iso_deliver evr s2 in
  (s3, r1, evr).

Fixpoint iso_rounds (n : nat) (s r : Iso15765.iso15765)
    : Iso15765.iso15765 * Iso15765.iso15765 * list event :=
  match n with
  | O => (s, r, [])
  | S n' =>
      let '(s1, r1, e1) := iso_round s r in
      let '(s2, r2, e2) := iso_rounds n' s1 r1 in
      (s2, r2, e1 ++ e2)
  end.

(** What the upper layer sees: the events that are not frames sent down. *)
Definition iso_upper (evs : list event) : list event :=
  List.filter (fun e => match e with LowerSend _ _ _ => false | _ => true end) evs.

(** The sender in the middle of a transfer of [p] that the peer [r]
    paces: [dl] bytes are out, [sn] is the next sequence number, [c]
    frames of the current block are out, the STmin timer is armed. *)
Definition iso_tx_state (s r : Iso15765.iso15765) (p : list byte) (id : eid)
    (sn dl c : Z) : Iso15765.iso15765 :=
  Iso15765.set_timer_TX_CF (Util.timer_start (Iso15765.CF_STmin_ r))
    (Iso15765.set_timer_TX_FC Util.timer_stop
       (Iso15765.set_tx_ev true
          (Iso15765.set_CF_BScnt c
             (Iso15765.set_FC_STmin (Iso15765.CF_STmin_ r)
                (Iso15765.set_FC_BS (Iso15765.CF_BS_ r)
                   (Iso15765.set_FC_FS 0
                      (Iso15765.set_CF_eid id
                         (Iso15765.set_CF_size (LMsg.size p)
                            (Iso15765.set_CF_DL dl
                               (Iso15765.set_CF_SN sn
                                  (Iso15765.set_CF_frame p s))))))))))).

(** The receiver in the middle of the reassembly of [p]: it holds the
    first [dl] bytes, expects the sequence number [sn], has counted [c]
    frames of the current block and supervises the next frame with
    N_Cr. *)
Definition iso_rx_state (r : Iso15765.iso15765) (p : list byte)
    (sn dl c : Z) : Iso15765.iso15765 :=
  Iso15765.set_timer_RX_CF (Util.timer_start Iso15765.N_Cr)
    (Iso15765.set_CF_BScnt c
       (Iso15765.set_CF_SN sn
          (Iso15765.set_CF_frame (take (Z.to_nat dl) p)
             (Iso15765.set_CF_DL (LMsg.size p) r)))).

(** The Consecutive Frame with the sequence number [sn] that carries
    the bytes of [p] from the offset [dl] on, as the sender [s] hands it
    to the lower layer. *)
Definition iso_CF_wire (s : Iso15765.iso15765) (p : list byte) (sn dl : Z)
    : list byte :=
  Iso15765.zero_pad s
    (Iso15765.add_target s
       (u8 (Z.lor Iso15765.NPCI_CONSECUTIVE_FRAME (Z.land sn 15))
          :: take (Z.to_nat (Iso15765.CF_len s)) (drop (Z.to_nat dl) p))).

(** The number of Consecutive Frames that follow the First Frame of
    the payload [p]. *)
Definition iso_CF_count (s : Iso15765.iso15765) (p : list byte) : nat :=
  Z.to_nat ((LMsg.size p - Iso15765.FF_len s + Iso15765.CF_len s - 1)
            / Iso15765.CF_len s).

(** A whole transfer from [s] to [r]: the start and one round for each
    Consecutive Frame. *)
Definition iso_transfer (p : list byte) (id : eid) (s r : Iso15765.iso15765)
    : Iso15765.iso15765 * Iso15765.iso15765 * list event :=
  let '(s1, r1, e0) := iso_start p id s r in
  let '(s2, r2, e1) := iso_rounds (iso_CF_count s p) s1 r1 in
  (s2, r2, e0 ++ e1).

(** A round of the sender on its own: the STmin timer expires, the
    frame is accepted below and acknowledged with tx_done, and no frame
    of the peer arrives.  The result is the sender afterwards and what
    it handed down. *)
Definition iso_tx_round (s : Iso15765.iso15765)
    : Iso15765.iso15765 * list event :=
  let '(s1, ev1) := Iso15765.expire_TX_CF false true s in
  let '(s2, _) := Iso15765.indication tx_done (Iso15765.CF_eid_ s) s1 in
  (s2, ev1).

Fixpoint iso_tx_rounds (n : nat) (s : Iso15765.iso15765)
    : Iso15765.iso15765 * list event :=
  match n with
  | O => (s, [])
  | S n' =>
      let '(s1, e1) := iso_tx_round s in
      let '(s2, e2) := iso_tx_rounds n' s1 in
      (s2, e1 ++ e2)
  end.

(** The event is a frame handed to the lower layer for the endpoint [id]. *)
Definition is_frame_for (id : eid) (e : event) : Prop :=
  exists d, e = LowerSend d id false.

(** The 64 bit value of an NTP time stamp, in units of 2^-32 s. *)
Definition fixpt_value (a : Sntp.fixpt_t) : Z :=
  Sntp.integer a * 2 ^ 32 + Sntp.fraction a.

(** Both parts of the time stamp are unsigned 32 bit values. *)
Definition fixpt_wf (a : Sntp.fixpt_t) : Prop :=
  0 <= Sntp.integer a < 2 ^ 32 /\ 0 <= Sntp.fraction a < 2 ^ 32.

(** [n] expiries of the response timer in a row, each request accepted
    by the lower layer. *)
Fixpoint sntp_expiries (n : nat) (now : Z) (s : Sntp.sntp)
    : Sntp.sntp * list Sntp.sntp_event :=
  match n with
  | O => (s, [])
  | S n' =>
      let '(s1, e1) := Sntp.expire now true s in
      let '(s2, e2) := sntp_expiries n' now s1 in
      (s2, e1 ++ e2)
  end.

(** A response receive() accepts: 48 or 68 bytes, mode server, the four
    time stamps not zero. *)
Definition sntp_valid_response (data : list byte) : Prop :=
  (LMsg.size data = 48 \/ LMsg.size data = 68) /\
  Z.land (LMsg.at_ data 0) 7 = 4 /\
  Sntp.timestamp_is_zero data 16 = false /\
  Sntp.timestamp_is_zero data 24 = false /\
  Sntp.timestamp_is_zero data 32 = false /\
  Sntp.timestamp_is_zero data 40 = false.



(** * Properties *)

(** ** SLIP *)
Section slip_properties.

Import Slip.

Lemma send_byte_stuffed tx it : send_byte tx it = tx ++ stuffed it.
Proof.
  unfold send_byte, stuffed, LMsg.push_back.
  destruct (it =? END); [by rewrite <- app_assoc|].
  destruct (it =? ESC); [by rewrite <- app_assoc|done].
Qed.

Lemma send_loop_stuffed packet : forall tx,
  send_loop packet tx = tx ++ concat (map stuffed packet).
Proof.
  induction packet as [|it rest IH]; intros tx; simpl.
  - by rewrite app_nil_r.
  - by rewrite IH, send_byte_stuffed, <- app_assoc.
Qed.

Lemma receive_loop_app d1 : forall d2 s,
  receive_loop (d1 ++ d2) s =
    let '(s1, ev1) := receive_loop d1 s in
    let '(s2, ev2) := receive_loop d2 s1 in
    (s2, ev1 ++ ev2).
Proof.
  induction d1 as [|it rest IH]; intros d2 s; simpl.
  - by destruct (receive_loop d2 s).
  - destruct (receive_byte s it) as [s1 ev1].
    rewrite IH.
    destruct (receive_loop rest s1) as [s2 ev2].
    destruct (receive_loop d2 s2) as [s3 ev3].
    by rewrite app_assoc.
Qed.

(** In state RCV_DATA the decoder undoes the stuffing of one byte. *)
Lemma receive_stuffed_byte it s :
  rx_state_ s = RCV_DATA ->
  receive_loop (stuffed it) s =
    (set_rx_msg (LMsg.push_back (rx_msg_ s) it) s, []).
Proof.
  intros Hs. unfold stuffed.
  destruct (it =? END) eqn:HE.
  - apply Z.eqb_eq in HE. subst it.
    destruct s; simpl in *; subst; reflexivity.
  - destruct (it =? ESC) eqn:HC.
    + apply Z.eqb_eq in HC. subst it.
      destruct s; simpl in *; subst; reflexivity.
    + simpl. unfold receive_byte. rewrite Hs, HC, HE. reflexivity.
Qed.

Lemma receive_stuffed packet : forall s,
  rx_state_ s = RCV_DATA ->
  receive_loop (concat (map stuffed packet)) s =
    (set_rx_msg (rx_msg_ s ++ packet) s, []).
Proof.
  induction packet as [|it rest IH]; intros s Hs; simpl.
  - rewrite app_nil_r. by destruct s.
  - rewrite receive_loop_app, receive_stuffed_byte by done.
    rewrite IH by done. simpl.
    unfold LMsg.push_back. by rewrite <- app_assoc.
Qed.

End slip_properties.

(** C1, as amended: for every non-empty byte sequence [p], the frame that
    send() hands to the lower layer for [p] (more = false, layer open,
    nothing pending) is END, the stuffed bytes of [p], END; fed into
    receive() of an open decoder at rest it delivers exactly [p] upward,
    once, and leaves the decoder at rest.  The packet 0xC0 0xDB 0x00 is
    sent as 0xC0 0xDB 0xDC 0xDB 0xDD 0x00 0xC0. *)
Theorem slip_round_trip :
  (forall (p : list byte) (tx rx : Slip.slip) (ok : bool) (id id' : eid) (more : bool),
     p <> [] -> slip_ready tx -> slip_ready rx ->
     exists wire,
       wire = Slip.END :: concat (map stuffed p) ++ [Slip.END] /\
       Slip.send ok p id false tx = (ok, tx, [LowerSend wire id false]) /\
       Slip.receive wire id' more rx = (rx, [UpperReceive p eid_any false])) /\
  (forall (tx : Slip.slip) (ok : bool) (id : eid),
     slip_ready tx ->
     Slip.send ok [0xC0; 0xDB; 0x00] id false tx =
       (ok, tx, [LowerSend [0xC0; 0xDB; 0xDC; 0xDB; 0xDD; 0x00; 0xC0] id false])).
Proof.
  assert (Hsend : forall p tx ok id, slip_ready tx ->
            Slip.send ok p id false tx =
              (ok, tx, [LowerSend (Slip.END :: concat (map stuffed p) ++ [Slip.END])
                          id false])).
  { intros p tx ok id (Ho & _ & _ & Ht).
    unfold Slip.send. rewrite Ho, Ht. simpl.
    rewrite send_loop_stuffed. unfold LMsg.push_back, LMsg.push_front. simpl.
    destruct tx; simpl in *; subst; reflexivity. }
  split.
  - intros p tx rx ok id id' more Hp Htx (Ho & Hi & Hr & Ht).
    eexists; split; [reflexivity|]. split; [by apply Hsend|].
    unfold Slip.receive. rewrite Ho. simpl.
    unfold Slip.receive_byte at 1. rewrite Hi. simpl.
    rewrite receive_loop_app, receive_stuffed by done.
    simpl. unfold Slip.receive_byte. simpl. rewrite Hr. simpl.
    destruct p as [|b p']; [done|].
    destruct rx; simpl in *; subst; reflexivity.
  - intros tx ok id Htx. by rewrite Hsend.
Qed.

(** The round trip at the packet 0xC0 0xDB 0x00. *)
Lemma slip_round_trip_witness :
  exists wire,
    wire = [0xC0; 0xDB; 0xDC; 0xDB; 0xDD; 0x00; 0xC0] /\
    Slip.receive wire eid_any false (Slip.mk true Slip.RCV_IDLE true [] []) =
      (Slip.mk true Slip.RCV_IDLE true [] [],
       [UpperReceive [0xC0; 0xDB; 0x00] eid_any false]).
Proof.
  destruct (proj1 slip_round_trip [0xC0; 0xDB; 0x00]
              (Slip.mk true Slip.RCV_IDLE true [] [])
              (Slip.mk true Slip.RCV_IDLE true [] [])
              true eid_any eid_any false)
    as (wire & Hw & _ & Hr).
  - discriminate.
  - repeat split.
  - repeat split.
  - exists wire. split; [exact Hw | exact Hr].
Defined.

(** C1 as stated fails at the empty packet: its frame is END END, which
    the decoder discards, so nothing is delivered upward. *)
Lemma slip_round_trip_empty_counterexample :
  let s := Slip.mk true Slip.RCV_IDLE true [] [] in
  Slip.send true [] eid_any false s =
    (true, s, [LowerSend [0xC0; 0xC0] eid_any false]) /\
  Slip.receive [0xC0; 0xC0] eid_any false s = (s, []) /\
  snd (Slip.receive [0xC0; 0xC0] eid_any false s) <>
    [UpperReceive [] eid_any false].
Proof. cbv zeta. repeat split. discriminate. Qed.

(** C10: while the slip layer is not open, send() returns false and
    receive() drops its input, both without any effect on the layer or
    its neighbours; the layer is not open after the constructor and
    after close(); close() clears both buffers and resets the decoder,
    so that after a reopen nothing of a partial frame is left. *)
Theorem slip_closed_is_inert :
  (forall (s : Slip.slip) ok p id more,
     Slip.is_open_ s = false -> Slip.send ok p id more s = (false, s, [])) /\
  (forall (s : Slip.slip) data id more,
     Slip.is_open_ s = false -> Slip.receive data id more s = (s, [])) /\
  (forall wired, Slip.is_open_ (Slip.ctor wired) = false) /\
  (forall (s : Slip.slip) id,
     Slip.close id s = (Slip.mk (Slip.upper_ s) Slip.RCV_IDLE false [] [],
                        [LowerClose id])) /\
  (forall (s : Slip.slip) id adr id',
     Slip.upper_ s = true ->
     Slip.open true adr id' (fst (Slip.close id s)) =
       (true, Slip.mk true Slip.RCV_IDLE true [] [], [LowerOpen adr id'])).
Proof.
  repeat split.
  - intros s ok p id more H. unfold Slip.send. by rewrite H.
  - intros s data id more H. unfold Slip.receive. by rewrite H.
  - intros s id adr id' H. destruct s; simpl in *; subst; reflexivity.
Qed.

(** A layer closed in the middle of a frame neither sends nor
    receives. *)
Lemma slip_closed_is_inert_witness :
  let s := fst (Slip.close eid_any (Slip.mk true Slip.RCV_ESC true [1; 2] [Slip.END; 7])) in
  Slip.send true [1; 2; 3] eid_any false s = (false, s, []) /\
  Slip.receive [Slip.ESC_END; 3; Slip.END] eid_any false s = (s, []).
Proof.
  pose proof slip_closed_is_inert as (Hs & Hr & _).
  split; [apply Hs | apply Hr]; reflexivity.
Defined.

(** C9: a layer whose upper layer is not wired refuses to open: open()
    returns false, the layer is unchanged and neither the lower layer
    (iso15765, slip) nor the port (serial) is touched. *)
Theorem open_without_upper_refused :
  (forall (s : Iso15765.iso15765) lower_ok adr id,
     Iso15765.upper_ s = false ->
     Iso15765.open lower_ok adr id s = (false, s, [])) /\
  (forall (s : Slip.slip) lower_ok adr id,
     Slip.upper_ s = false ->
     Slip.open lower_ok adr id s = (false, s, [])) /\
  (forall (s : Serial.serial) os adr id,
     Serial.upper_ s = false ->
     Serial.open os adr id s = (false, s, [])).
Proof.
  repeat split.
  - intros s ok adr id H. unfold Iso15765.open. by rewrite H.
  - intros s ok adr id H. unfold Slip.open. by rewrite H.
  - intros s os adr id H. unfold Serial.open. by rewrite H.
Qed.

(** The three layers right after construction, with nothing above
    them, refuse to open. *)
Lemma open_without_upper_refused_witness :
  Iso15765.open true (Some "COM1"%string) eid_any (Iso15765.ctor false 50 3 4095) =
    (false, Iso15765.ctor false 50 3 4095, []) /\
  Slip.open true (Some "COM1"%string) eid_any (Slip.ctor false) =
    (false, Slip.ctor false, []) /\
  Serial.open (Serial.mk_os true true true true) (Some "COM1"%string) eid_any
      (Serial.ctor false) =
    (false, Serial.ctor false, []).
Proof.
  pose proof open_without_upper_refused as (Hi & Hs & Hc).
  split; [apply Hi | split; [apply Hs | apply Hc]]; reflexivity.
Defined.

(** ** ISO 15765-2 *)

(** C2: with normal addressing and no zero padding, send() of the eight
    bytes 1..8 by an idle sender hands the First Frame
    10 08 01 02 03 04 05 06 to the lower layer; once tx_done was
    indicated and the Flow Control frame 30 00 00 was received, the
    STmin timer is armed and its expiry hands the Consecutive Frame
    21 07 08 to the lower layer. *)
Theorem iso_send_FF_then_CF :
  forall (s : Iso15765.iso15765) (id id1 id2 : eid) (more more2 arrives : bool),
    Iso15765.use_ext_adr_ s = false ->
    Iso15765.use_zero_padding_ s = false ->
    Iso15765.CF_DL_ s = 0 ->
    let '(r1, s1, ev1) := Iso15765.send true [1; 2; 3; 4; 5; 6; 7; 8] id more s in
    let '(s2, _) := Iso15765.indication tx_done id1 s1 in
    let '(s3, ev3) := Iso15765.receive [0x30; 0x00; 0x00] id2 more2 s2 in
    let '(s4, ev4) := Iso15765.expire_TX_CF arrives true s3 in
    r1 = true /\
    ev1 = [LowerSend [0x10; 0x08; 0x01; 0x02; 0x03; 0x04; 0x05; 0x06] id false] /\
    ev3 = [] /\
    Iso15765.timer_TX_CF_ s3 = Some 0 /\
    ev4 = [LowerSend [0x21; 0x07; 0x08] id false].
Proof.
  intros s id id1 id2 more more2 arrives He Hz Hd.
  destruct s; cbn [Iso15765.use_ext_adr_ Iso15765.use_zero_padding_
                   Iso15765.CF_DL_] in He, Hz, Hd; subst.
  vm_compute. repeat split.
Qed.

(** The stack of the CF test (STmin 50, BS 3, MAX_DL 4095), writing
    the bytes 1..8 to endpoint 10. *)
Lemma iso_send_FF_then_CF_witness :
  let '(r1, s1, ev1) :=
    Iso15765.send true [1; 2; 3; 4; 5; 6; 7; 8] (eid_of 10) false
      (Iso15765.ctor true 50 3 4095) in
  let '(s2, _) := Iso15765.indication tx_done (eid_of 10) s1 in
  let '(s3, ev3) := Iso15765.receive [0x30; 0x00; 0x00] (eid_of 1) false s2 in
  let '(s4, ev4) := Iso15765.expire_TX_CF false true s3 in
  r1 = true /\
  ev1 = [LowerSend [0x10; 0x08; 0x01; 0x02; 0x03; 0x04; 0x05; 0x06] (eid_of 10) false] /\
  ev3 = [] /\
  Iso15765.timer_TX_CF_ s3 = Some 0 /\
  ev4 = [LowerSend [0x21; 0x07; 0x08] (eid_of 10) false].
Proof.
  exact (iso_send_FF_then_CF (Iso15765.ctor true 50 3 4095)
           (eid_of 10) (eid_of 10) (eid_of 1) false false false
           eq_refl eq_refl eq_refl).
Defined.

Ltac iso_normal_idle s He Hd :=
  destruct s as [? ? ? ? ? ? ? ? ? ? ? ? ? ? ? ? pad ? ? ? ?];
  cbn [Iso15765.use_ext_adr_ Iso15765.CF_DL_] in He, Hd; subst;
  destruct pad; vm_compute; repeat split.

(** C3: with normal addressing an idle sender answers send() of a payload
    of 1 to 7 bytes with exactly one frame, the Single Frame made of the
    byte 0x00 | length and the payload (zero-padded to 8 bytes when
    padding is on); 01 05 09 goes out as 03 01 05 09.  A payload of 8
    bytes goes out as a First Frame with its first 6 bytes and, after
    tx_done and a clear-to-send Flow Control frame, as a Consecutive
    Frame with the last 2 bytes, which completes the transfer. *)
Theorem iso_send_SF_boundary :
  (forall (s : Iso15765.iso15765) (p : list byte) ok id more,
     Iso15765.use_ext_adr_ s = false ->
     Iso15765.CF_DL_ s = 0 ->
     (0 < length p <= 7)%nat ->
     Iso15765.send ok p id more s =
       (ok, s,
        [LowerSend
           (if Iso15765.use_zero_padding_ s
            then Z.of_nat (length p) :: p ++ repeat 0 (7 - length p)%nat
            else Z.of_nat (length p) :: p) id false])) /\
  (forall (s : Iso15765.iso15765) ok id more,
     Iso15765.use_ext_adr_ s = false ->
     Iso15765.use_zero_padding_ s = false ->
     Iso15765.CF_DL_ s = 0 ->
     Iso15765.send ok [1; 5; 9] id more s =
       (ok, s, [LowerSend [0x03; 0x01; 0x05; 0x09] id false])) /\
  (forall (s : Iso15765.iso15765) (b0 b1 b2 b3 b4 b5 b6 b7 bs stmin : byte)
          id id1 id2 more more2 arrives,
     Iso15765.use_ext_adr_ s = false ->
     Iso15765.CF_DL_ s = 0 ->
     let '(r1, s1, ev1) :=
       Iso15765.send true [b0; b1; b2; b3; b4; b5; b6; b7] id more s in
     let '(s2, _) := Iso15765.indication tx_done id1 s1 in
     let '(s3, ev3) := Iso15765.receive [0x30; bs; stmin] id2 more2 s2 in
     let '(s4, ev4) := Iso15765.expire_TX_CF arrives true s3 in
     r1 = true /\
     ev1 = [LowerSend [0x10; 0x08; b0; b1; b2; b3; b4; b5] id false] /\
     Iso15765.timer_TX_FC_ s1 = Some Iso15765.N_Bs /\
     ev3 = [] /\
     ev4 = [LowerSend
              (if Iso15765.use_zero_padding_ s
               then [0x21; b6; b7; 0; 0; 0; 0; 0] else [0x21; b6; b7])
              id false] /\
     Iso15765.CF_DL_ s4 = 0).
Proof.
  split; [|split].
  - intros s p ok id more He Hd [Hl Hu].
    destruct p as [|b0 [|b1 [|b2 [|b3 [|b4 [|b5 [|b6 [|b7 p]]]]]]]];
      simpl in Hl, Hu; try lia; iso_normal_idle s He Hd.
  - intros s ok id more He Hz Hd.
    destruct s; cbn [Iso15765.use_ext_adr_ Iso15765.use_zero_padding_
                     Iso15765.CF_DL_] in He, Hz, Hd; subst.
    vm_compute. reflexivity.
  - intros s b0 b1 b2 b3 b4 b5 b6 b7 bs stmin id id1 id2 more more2 arrives He Hd.
    iso_normal_idle s He Hd.
Qed.

(** The payload of the SF test goes out as one Single Frame. *)
Lemma iso_send_SF_boundary_witness :
  Iso15765.send true [1; 5; 9] (eid_of 10) false (Iso15765.ctor true 50 3 4095) =
    (true, Iso15765.ctor true 50 3 4095,
     [LowerSend [0x03; 0x01; 0x05; 0x09] (eid_of 10) false]).
Proof.
  apply (proj1 iso_send_SF_boundary (Iso15765.ctor true 50 3 4095) [1; 5; 9]
           true (eid_of 10) false); [reflexivity | reflexivity | simpl; lia].
Defined.

(** What receive() does once the frame is taken in. *)
Lemma iso_receive_accepted s data d id more :
  iso_accepted s data = Some d ->
  Iso15765.receive data id more s =
    let npci := Z.land (LMsg.at_ d 0) 0xF0 in
    if npci =? Iso15765.NPCI_SINGLE_FRAME then Iso15765.receive_SF d id s
    else if npci =? Iso15765.NPCI_FIRST_FRAME then Iso15765.receive_FF d id s
    else if npci =? Iso15765.NPCI_CONSECUTIVE_FRAME then Iso15765.receive_CF d id s
    else if npci =? Iso15765.NPCI_FLOW_CONTROL then Iso15765.receive_FC d id s
    else (s, [UpperIndication rx_error id]).
Proof.
  unfold iso_accepted, Iso15765.receive.
  destruct (Iso15765.use_ext_adr_ s); simpl.
  - destruct (LMsg.at_ data 0 =? Iso15765.ext_source_adr_ s); [|discriminate].
    intros [= <-]. reflexivity.
  - intros [= <-]. reflexivity.
Qed.

(** C6: while a multi-frame message is being reassembled (CF_DL_ <> 0), a
    Consecutive Frame whose sequence number differs from the expected
    one is not appended and not delivered: the N_Cr timer is stopped,
    CF_DL_ is set to 0, the buffer is cleared and exactly one indication,
    rx_error, goes to the upper layer. *)
Theorem iso_receive_CF_wrong_SN :
  forall (s : Iso15765.iso15765) (data d : list byte) id more,
    Iso15765.CF_DL_ s <> 0 ->
    iso_accepted s data = Some d ->
    Z.land (LMsg.at_ d 0) 0xF0 = Iso15765.NPCI_CONSECUTIVE_FRAME ->
    Z.land (LMsg.at_ d 0) 0x0F <> Iso15765.CF_SN_ s ->
    Iso15765.receive data id more s =
      (Iso15765.set_CF_frame []
         (Iso15765.set_CF_DL 0 (Iso15765.set_timer_RX_CF Util.timer_stop s)),
       [UpperIndication rx_error id]) /\
    Iso15765.CF_DL_ (fst (Iso15765.receive data id more s)) = 0 /\
    Iso15765.CF_frame_ (fst (Iso15765.receive data id more s)) = [] /\
    Iso15765.timer_RX_CF_ (fst (Iso15765.receive data id more s)) = None.
Proof.
  intros s data d id more Hdl Hacc Hn Hsn.
  assert (Hr : Iso15765.receive data id more s =
      (Iso15765.set_CF_frame []
         (Iso15765.set_CF_DL 0 (Iso15765.set_timer_RX_CF Util.timer_stop s)),
       [UpperIndication rx_error id])).
  { rewrite (iso_receive_accepted _ _ _ _ _ Hacc). cbv zeta. rewrite Hn.
    change (Iso15765.NPCI_CONSECUTIVE_FRAME =? Iso15765.NPCI_SINGLE_FRAME) with false.
    change (Iso15765.NPCI_CONSECUTIVE_FRAME =? Iso15765.NPCI_FIRST_FRAME) with false.
    change (Iso15765.NPCI_CONSECUTIVE_FRAME =? Iso15765.NPCI_CONSECUTIVE_FRAME) with true.
    cbv iota. unfold Iso15765.receive_CF. cbv zeta.
    destruct s. cbn [Iso15765.CF_DL_ Iso15765.CF_SN_ Iso15765.set_timer_RX_CF] in *.
    destruct (Z.eqb_spec CF_DL_ 0) as [|_]; [done|].
    destruct (Z.eqb_spec (Z.land (LMsg.at_ d 0) 15) CF_SN_) as [|_]; [done|].
    reflexivity. }
  rewrite Hr. repeat split.
Qed.

(** After the First Frame of a 20 byte message the receiver expects
    SN 1 and is sent SN 2. *)
Lemma iso_receive_CF_wrong_SN_witness :
  let s := fst (Iso15765.receive [0x10; 20; 1; 2; 3; 4; 5; 6] eid_any false
                  (Iso15765.ctor true 50 3 4095)) in
  Iso15765.CF_DL_ s = 20 /\
  Iso15765.CF_frame_ s = [1; 2; 3; 4; 5; 6] /\
  let r := Iso15765.receive [0x22; 7; 8; 9; 10; 11; 12; 13] eid_any false s in
  snd r = [UpperIndication rx_error eid_any] /\
  Iso15765.CF_DL_ (fst r) = 0 /\ Iso15765.CF_frame_ (fst r) = [].
Proof.
  cbv zeta. split; [reflexivity|]. split; [reflexivity|].
  pose proof (iso_receive_CF_wrong_SN
    (fst (Iso15765.receive [0x10; 20; 1; 2; 3; 4; 5; 6] eid_any false
            (Iso15765.ctor true 50 3 4095)))
    [0x22; 7; 8; 9; 10; 11; 12; 13] [0x22; 7; 8; 9; 10; 11; 12; 13]
    eid_any false) as H.
  destruct H as (Hr & Hd & Hf & _); [by vm_compute | reflexivity | reflexivity
                                    | by vm_compute |].
  rewrite Hr at 1. split; [reflexivity|]. split; [exact Hd | exact Hf].
Defined.

(** What receive() does with a well-formed Flow Control frame: the N_Bs
    timer is stopped, FS, BS and STmin of the peer are stored and the
    block counter is reset; on clear-to-send the STmin timer is armed
    with the STmin of the peer, on wait no timer is armed. *)
Lemma iso_receive_FC_stores :
  forall (s : Iso15765.iso15765) (data : list byte) (b0 bs stmin : byte) rest id more,
    iso_accepted s data = Some (b0 :: bs :: stmin :: rest) ->
    Z.land b0 0xF0 = Iso15765.NPCI_FLOW_CONTROL ->
    Z.land b0 0x0F <= 1 ->
    let s' := fst (Iso15765.receive data id more s) in
    snd (Iso15765.receive data id more s) = [] /\
    Iso15765.FC_FS_ s' = Z.land b0 0x01 /\
    Iso15765.FC_BS_ s' = bs /\
    Iso15765.FC_STmin_ s' = stmin /\
    Iso15765.timer_TX_FC_ s' = None /\
    Iso15765.timer_TX_CF_ s' =
      (if Z.land b0 0x01 =? 0 then Some stmin else Iso15765.timer_TX_CF_ s).
Proof.
  intros s data b0 bs stmin rest id more Hacc Hn Hfs.
  rewrite (iso_receive_accepted _ _ _ _ _ Hacc). cbv zeta.
  change (LMsg.at_ (b0 :: bs :: stmin :: rest) 0) with b0. rewrite Hn.
  change (Iso15765.NPCI_FLOW_CONTROL =? Iso15765.NPCI_SINGLE_FRAME) with false.
  change (Iso15765.NPCI_FLOW_CONTROL =? Iso15765.NPCI_FIRST_FRAME) with false.
  change (Iso15765.NPCI_FLOW_CONTROL =? Iso15765.NPCI_CONSECUTIVE_FRAME) with false.
  change (Iso15765.NPCI_FLOW_CONTROL =? Iso15765.NPCI_FLOW_CONTROL) with true.
  cbv iota. unfold Iso15765.receive_FC. cbv zeta.
  change (LMsg.at_ (b0 :: bs :: stmin :: rest) 0) with b0.
  change (LMsg.at_ (b0 :: bs :: stmin :: rest) 1) with bs.
  change (LMsg.at_ (b0 :: bs :: stmin :: rest) 2) with stmin.
  destruct (Z.ltb_spec (LMsg.size (b0 :: bs :: stmin :: rest)) Iso15765.FC_DATALENGTH)
    as [Hlt|_].
  { unfold LMsg.size, Iso15765.FC_DATALENGTH in Hlt. simpl length in Hlt. lia. }
  destruct (Z.ltb_spec 1 (Z.land b0 15)) as [Hlt|_]; [lia|].
  destruct s.
  cbn [Iso15765.FC_FS_ Iso15765.set_CF_BScnt Iso15765.set_FC_STmin
       Iso15765.set_FC_BS Iso15765.set_FC_FS Iso15765.set_timer_TX_FC
       Iso15765.FC_STmin_ Iso15765.timer_TX_CF_].
  destruct (Z.land b0 1 =? 0); repeat split.
Qed.

(** C4, at the failing input: the waiting sender receives the Flow
    Control frame 31 00 00 (flow status WAIT).  The N_Bs timer, armed
    before, is stopped and stays stopped, no other timer is armed and
    the transfer stays pending, so that nothing ends the wait: no timer
    expiry has an effect and a further send() is refused. *)
Theorem iso_receive_FC_wait_leaves_N_Bs_stopped :
  let s1 := iso_waiting_for_FC in
  let '(s2, ev) := Iso15765.receive [0x31; 0x00; 0x00] (eid_of 1) false s1 in
  Iso15765.timer_TX_FC_ s1 = Some Iso15765.N_Bs /\
  ev = [] /\
  Iso15765.FC_FS_ s2 = Iso15765.FC_WAIT /\
  Iso15765.timer_TX_FC_ s2 = None /\
  Iso15765.timer_TX_CF_ s2 = None /\
  Iso15765.CF_DL_ s2 = 6 /\
  Iso15765.expire_TX_FC s2 = (s2, []) /\
  Iso15765.expire_TX_CF true true s2 = (s2, []) /\
  Iso15765.send true [1] (eid_of 10) false s2 = (false, s2, []).
Proof. vm_compute. repeat split. Qed.

(** C5, as amended: expiry of the armed N_Bs timer aborts the transfer,
    CF_DL_ is set to 0, CF_frame_ is cleared and rx_timeout is indicated
    to the upper layer; a malformed Flow Control frame (shorter than 3
    bytes, or flow status above 1) stops the N_Bs timer and is reported
    to the upper layer as rx_error, nothing else being emitted. *)
Theorem iso_N_Bs_expiry_and_malformed_FC :
  (forall (s : Iso15765.iso15765) ms,
     Iso15765.timer_TX_FC_ s = Some ms ->
     let '(s', ev) := Iso15765.expire_TX_FC s in
     Iso15765.CF_DL_ s' = 0 /\ Iso15765.CF_frame_ s' = [] /\
     Iso15765.timer_TX_FC_ s' = None /\
     ev = [UpperIndication rx_timeout eid_any]) /\
  (forall (s : Iso15765.iso15765) (data d : list byte) id more,
     iso_accepted s data = Some d ->
     Z.land (LMsg.at_ d 0) 0xF0 = Iso15765.NPCI_FLOW_CONTROL ->
     LMsg.size d < Iso15765.FC_DATALENGTH \/ 1 < Z.land (LMsg.at_ d 0) 0x0F ->
     let '(s', ev) := Iso15765.receive data id more s in
     Iso15765.timer_TX_FC_ s' = None /\
     ev = [UpperIndication rx_error id]).
Proof.
  split.
  - intros s ms Ht. unfold Iso15765.expire_TX_FC. rewrite Ht.
    destruct s. repeat split.
  - intros s data d id more Hacc Hn Hbad.
    rewrite (iso_receive_accepted _ _ _ _ _ Hacc). cbv zeta. rewrite Hn.
    change (Iso15765.NPCI_FLOW_CONTROL =? Iso15765.NPCI_SINGLE_FRAME) with false.
    change (Iso15765.NPCI_FLOW_CONTROL =? Iso15765.NPCI_FIRST_FRAME) with false.
    change (Iso15765.NPCI_FLOW_CONTROL =? Iso15765.NPCI_CONSECUTIVE_FRAME) with false.
    change (Iso15765.NPCI_FLOW_CONTROL =? Iso15765.NPCI_FLOW_CONTROL) with true.
    cbv iota. unfold Iso15765.receive_FC. cbv zeta.
    destruct (Z.ltb_spec (LMsg.size d) Iso15765.FC_DATALENGTH) as [_|Hge].
    { destruct s. repeat split. }
    destruct (Z.ltb_spec 1 (Z.land (LMsg.at_ d 0) 15)) as [_|Hle].
    { destruct s. repeat split. }
    exfalso. destruct Hbad as [Hbad|Hbad]; lia.
Qed.

(** The waiting sender runs into the N_Bs timeout, or is sent the
    frame 32 00 00. *)
Lemma iso_N_Bs_expiry_and_malformed_FC_witness :
  snd (Iso15765.expire_TX_FC iso_waiting_for_FC) =
    [UpperIndication rx_timeout eid_any] /\
  Iso15765.CF_DL_ (fst (Iso15765.expire_TX_FC iso_waiting_for_FC)) = 0 /\
  snd (Iso15765.receive [0x32; 0x00; 0x00] (eid_of 1) false iso_waiting_for_FC) =
    [UpperIndication rx_error (eid_of 1)].
Proof.
  pose proof (proj1 iso_N_Bs_expiry_and_malformed_FC iso_waiting_for_FC 1000
                eq_refl) as H1.
  pose proof (proj2 iso_N_Bs_expiry_and_malformed_FC iso_waiting_for_FC
                [0x32; 0x00; 0x00] [0x32; 0x00; 0x00] (eid_of 1) false
                eq_refl eq_refl) as H2.
  destruct (Iso15765.expire_TX_FC iso_waiting_for_FC) as [s1 ev1].
  destruct (Iso15765.receive [0x32; 0x00; 0x00] (eid_of 1) false
              iso_waiting_for_FC) as [s2 ev2].
  destruct H1 as (Hd & _ & _ & He).
  destruct H2 as (_ & He2); [right; vm_compute; reflexivity|].
  simpl. split; [exact He | split; [exact Hd | exact He2]].
Defined.

(** C5 as stated fails for a malformed Flow Control frame: the waiting
    sender that receives 32 00 00 (flow status 2), or the short frame
    30 00, indicates rx_error instead of rx_timeout, and the
    per-transfer state is left as it was. *)
Lemma iso_malformed_FC_counterexample :
  let s1 := iso_waiting_for_FC in
  (let '(s2, ev) := Iso15765.receive [0x32; 0x00; 0x00] (eid_of 1) false s1 in
   ev = [UpperIndication rx_error (eid_of 1)] /\
   ev <> [UpperIndication rx_timeout (eid_of 1)] /\
   ev <> [UpperIndication rx_timeout eid_any] /\
   Iso15765.CF_DL_ s2 = 6 /\
   Iso15765.CF_frame_ s2 = [1; 2; 3; 4; 5; 6; 7; 8]) /\
  (let '(s2, ev) := Iso15765.receive [0x30; 0x00] (eid_of 1) false s1 in
   ev = [UpperIndication rx_error (eid_of 1)] /\
   ev <> [UpperIndication rx_timeout (eid_of 1)] /\
   ev <> [UpperIndication rx_timeout eid_any] /\
   Iso15765.CF_DL_ s2 = 6 /\
   Iso15765.CF_frame_ s2 = [1; 2; 3; 4; 5; 6; 7; 8]).
Proof. vm_compute. repeat split; discriminate. Qed.

(** ** Message pool and message container *)
Section msgpool_properties.

Import MsgPool.
Local Open Scope nat_scope.

Variable B : nat.

Lemma page_bytes_set_refcnt i n p j :
  page_bytes (set_refcnt i n p) j = page_bytes p j.
Proof.
  unfold page_bytes, set_refcnt. simpl.
  destruct (decide (i = j)) as [->|Hne].
  - rewrite list_lookup_alter_eq. by destruct (pages p !! j).
  - by rewrite list_lookup_alter_ne.
Qed.















Lemma lookup_concat_uniform (blocks : list (list byte)) : forall k,
  0 < B ->
  Forall (fun b => length b = B) blocks ->
  concat blocks !! k = blocks !! (k / B) ≫= (fun b => b !! (k mod B)).
Proof.
  induction blocks as [|b bs IH]; intros k HB Hall; [done|].
  apply Forall_cons in Hall as [Hb Hbs]. simpl concat.
  destruct (decide (k < B)) as [Hk|Hk].
  - rewrite lookup_app_l by lia.
    rewrite Nat.div_small, Nat.mod_small by lia. done.
  - rewrite lookup_app_r by lia. rewrite Hb, IH by done.
    assert (Hd : k / B = S ((k - B) / B)).
    { replace k with ((k - B) + 1 * B) at 1 by lia.
      rewrite Nat.div_add by lia. lia. }
    assert (Hm : k mod B = (k - B) mod B).
    { replace k with ((k - B) + 1 * B) at 1 by lia.
      by rewrite Nat.Div0.mod_add. }
    by rewrite Hd, Hm.
Qed.

Lemma page_bytes_length p i :
  pool_wf B p -> i < length (pages p) -> length (page_bytes p i) = B.
Proof.
  intros Hwf Hi. unfold page_bytes.
  destruct (lookup_lt_is_Some_2 _ _ Hi) as [pg Hpg]. rewrite Hpg.
  eapply Forall_lookup_1 in Hwf; eauto.
Qed.

(** Within the window, at() reads the byte of the linearized content. *)
Lemma at_content p m i :
  0 < B -> pool_wf B p -> msg_in_pool p m -> i < size B m ->
  content B p m !! i = Some (at_ B p m i).
Proof.
  intros HB Hwf Hin Hi. unfold content, at_.
  rewrite lookup_take_lt, lookup_drop by done.
  destruct (Nat.leb_spec (size B m) i) as [|_]; [lia|].
  assert (Hk : (head m + i) / B < length (pgs m)).
  { apply Nat.Div0.div_lt_upper_bound. unfold size in Hi.
    destruct (pgs m); [lia|]. lia. }
  rewrite lookup_concat_uniform; [|done|].
  - rewrite list_lookup_fmap.
    destruct (lookup_lt_is_Some_2 _ _ Hk) as [pg Hpg]. rewrite Hpg. simpl.
    unfold read_page.
    assert (Hlen : length (page_bytes p pg) = B).
    { apply page_bytes_length; [done|].
      eapply Forall_lookup_1 in Hin; eauto. }
    assert (Hoff : (head m + i) mod B < length (page_bytes p pg)).
    { rewrite Hlen. apply Nat.mod_upper_bound. lia. }
    destruct (lookup_lt_is_Some_2 _ _ Hoff) as [x Hx]. rewrite Hx.
    f_equal. symmetry. by apply nth_lookup_Some.
  - apply Forall_fmap. eapply Forall_impl; [exact Hin|].
    intros j Hj. simpl. by apply page_bytes_length.
Qed.

Lemma page_bytes_write_page_eq i off v p :
  page_bytes (write_page i off v p) i = <[off := v]> (page_bytes p i).
Proof.
  unfold page_bytes, write_page. simpl. rewrite list_lookup_alter_eq.
  by destruct (pages p !! i).
Qed.

Lemma read_write_page i off v p :
  off < length (page_bytes p i) ->
  read_page (write_page i off v p) i off = v.
Proof.
  intros Hoff. unfold read_page. rewrite page_bytes_write_page_eq.
  apply nth_lookup_Some. by apply list_lookup_insert_eq.
Qed.

Lemma acquire_Some p i p1 :
  acquire p = Some (i, p1) ->
  In i (free_list p) /\ forall j, page_bytes p1 j = page_bytes p j.
Proof.
  unfold acquire. destruct (free_list p) as [|i0 rest]; [discriminate|].
  intros [= <- <-]. split; [by left|].
  intros j. apply (page_bytes_set_refcnt i0 1 p j).
Qed.

Lemma at_index k q r (pl : list nat) pg p m' i :
  0 < B -> r < B -> k = B * q + r ->
  i < size B m' -> head m' + i = k -> pgs m' = pl -> pl !! q = Some pg ->
  at_ B p m' i = read_page p pg r.
Proof.
  intros HB Hr Hk Hi Hh Hp Hq. unfold at_.
  destruct (Nat.leb_spec (size B m') i) as [|_]; [lia|].
  rewrite Hh, Hp.
  rewrite <- (Nat.div_unique k B q r Hr Hk).
  rewrite <- (Nat.mod_unique k B q r Hr Hk).
  by rewrite Hq.
Qed.

Lemma size_nonempty m :
  pgs m <> [] -> size B m = length (pgs m) * B - head m - (B - tail m).
Proof. unfold size. by destruct (pgs m). Qed.

(** push_back stores its byte at the end: the size grows by one and the
    new last index reads the byte. *)
Lemma at_push_back v p m p' m' :
  0 < B -> pool_wf B p -> msg_in_pool p m -> free_in_pool p -> window_ok B m ->
  push_back B v p m = (true, p', m') ->
  size B m' = S (size B m) /\ at_ B p' m' (size B m) = v.
Proof.
  intros HB Hwf Hin Hfree Hwin. unfold push_back.
  destruct (is_shared p m); [discriminate|].
  destruct (last (pgs m)) as [l|] eqn:Hlast.
  - assert (Hne : pgs m <> []) by (intros E; by rewrite E in Hlast).
    destruct (Hwin Hne) as [Ht Hh].
    pose proof (size_nonempty m Hne) as Hsz.
    assert (Hk : exists k, length (pgs m) = S k).
    { destruct (pgs m) as [|x xs]; [done|]. by exists (length xs). }
    destruct Hk as [k Hk]. rewrite Hk in Hh, Hsz.
    replace (S k - 1) with k in Hh by lia.
    rewrite Nat.mul_succ_l in Hsz.
    destruct (Nat.eqb_spec (tail m) B) as [HtB|HtB].
    + destruct (acquire p) as [[i p1]|] eqn:Hacq; [|discriminate].
      intros [= <- <-].
      destruct (acquire_Some _ _ _ Hacq) as [Hif Hpb].
      assert (Hi : i < length (pages p))
        by (eapply Forall_forall in Hfree; eauto; by apply list_elem_of_In).
      assert (Hsz' : size B (mk_msg (pgs m ++ [i]) (head m) 1) = S (size B m)).
      { rewrite Hsz, size_nonempty; cbn [pgs head tail].
        - rewrite length_app, Hk. simpl length.
          replace (S k + 1) with (S (S k)) by lia. rewrite !Nat.mul_succ_l. lia.
        - by destruct (pgs m). }
      split; [done|].
      rewrite (at_index (B * S k) (S k) 0 (pgs m ++ [i]) i);
        try done; try lia.
      * apply read_write_page. rewrite Hpb, page_bytes_length by done. lia.
      * cbn [head]. rewrite Hsz. rewrite Nat.mul_succ_r. lia.
      * rewrite lookup_app_r by lia. by rewrite Hk, Nat.sub_diag.
    + intros [= <- <-].
      assert (Hl : l < length (pages p)).
      { destruct (proj1 (last_Some _ _) Hlast) as [l' El].
        unfold msg_in_pool in Hin. rewrite El in Hin.
        apply Forall_app in Hin as [_ Hin]. by apply Forall_inv in Hin. }
      assert (Hsz' : size B (mk_msg (pgs m) (head m) (S (tail m))) = S (size B m)).
      { rewrite Hsz, size_nonempty by done. cbn [pgs head tail].
        rewrite Hk, Nat.mul_succ_l. lia. }
      split; [done|].
      rewrite (at_index (B * k + tail m) k (tail m) (pgs m) l);
        try done; try lia.
      * apply read_write_page. rewrite page_bytes_length by done. lia.
      * cbn [head]. rewrite Hsz. rewrite (Nat.mul_comm B k). lia.
      * rewrite <- Hlast, last_lookup, Hk. done.
  - apply last_None in Hlast.
    destruct (acquire p) as [[i p1]|] eqn:Hacq; [|discriminate].
    intros [= <- <-].
    destruct (acquire_Some _ _ _ Hacq) as [Hif Hpb].
    assert (Hi : i < length (pages p))
      by (eapply Forall_forall in Hfree; eauto; by apply list_elem_of_In).
    assert (Hsz : size B m = 0) by (unfold size; by rewrite Hlast).
    assert (Hsz' : size B (mk_msg [i] 0 1) = 1).
    { unfold size. cbn [pgs head tail length]. nia. }
    rewrite Hsz. split; [done|].
    rewrite (at_index 0 0 0 [i] i); try done; try lia.
    apply read_write_page. rewrite Hpb, page_bytes_length by done. lia.
Qed.

(** C8: at(i), and operator[] alike, is bounds-checked: for every
    message and every index at or past size() it reads the marker byte
    0xCC; for an index below size() it reads the byte stored at that
    position of the message, whatever pages the window spans, and the
    byte a push_back has stored is read back at the new last index. *)
Theorem msg_at_bounds_checked :
  forall (p : msg_pool) (m : msg) (i : nat),
    (size B m <= i -> at_ B p m i = 0xCC%Z) /\
    (0 < B -> pool_wf B p -> msg_in_pool p m -> i < size B m ->
     content B p m !! i = Some (at_ B p m i)) /\
    (forall v p' m',
       0 < B -> pool_wf B p -> msg_in_pool p m -> free_in_pool p ->
       window_ok B m ->
       push_back B v p m = (true, p', m') ->
       size B m' = S (size B m) /\ at_ B p' m' (size B m) = v).
Proof.
  intros p m i. split; [|split].
  - intros Hi. unfold at_. by destruct (Nat.leb_spec (size B m) i); [|lia].
  - apply at_content.
  - intros v p' m'. apply at_push_back.
Qed.








End msgpool_properties.

(** The message 1 4 9 16 read at index 4, past its end, and at
    index 2. *)
Lemma msg_at_bounds_checked_witness :
  MsgPool.at_ 4 copy_test_pool copy_test_msg 4 = 0xCC /\
  MsgPool.content 4 copy_test_pool copy_test_msg !! 2%nat =
    Some (MsgPool.at_ 4 copy_test_pool copy_test_msg 2) /\
  MsgPool.at_ 4 copy_test_pool copy_test_msg 2 = 9 /\
  (let r := MsgPool.push_back 4 25 copy_test_pool copy_test_msg in
   MsgPool.size 4 (snd r) = 5%nat /\
   MsgPool.at_ 4 (snd (fst r)) (snd r) 4 = 25).
Proof.
  split; [|split; [|split]]; [| | |
    apply (proj2 (proj2 (msg_at_bounds_checked 4 copy_test_pool copy_test_msg 0))
             25
             (snd (fst (MsgPool.push_back 4 25 copy_test_pool copy_test_msg)))
             (snd (MsgPool.push_back 4 25 copy_test_pool copy_test_msg)));
    [lia | vm_compute; repeat constructor | vm_compute; repeat constructor
    | vm_compute; repeat constructor | intros _; vm_compute; lia | reflexivity]].
  - apply (proj1 (msg_at_bounds_checked 4 copy_test_pool copy_test_msg 4)).
    vm_compute. lia.
  - apply (proj1 (proj2 (msg_at_bounds_checked 4 copy_test_pool copy_test_msg 2))).
    + lia.
    + vm_compute. repeat constructor.
    + vm_compute. repeat constructor.
    + vm_compute. lia.
  - reflexivity.
Defined.


(** ** The tests of the repository, replayed on the model *)

(** test_msg.h, copy ("cheap copy 2"): the copy reads 1 4 9 16, neither
    message accepts a push, and once the copy is cleared the original
    takes push_back(25) again. *)
Example msg_copy_test :
  let m := copy_test_msg in
  let '(p1, cc2) := MsgPool.ref_copy copy_test_pool MsgPool.msg_empty m in
  let '(r1, p2, m1) := MsgPool.push_back 4 1 p1 m in
  let '(r2, p3, m2) := MsgPool.push_front 4 1 p2 m1 in
  let '(r3, p4, cc3) := MsgPool.push_back 4 1 p3 cc2 in
  let '(r4, p5, cc4) := MsgPool.push_front 4 1 p4 cc3 in
  let '(p6, cc5) := MsgPool.clear p5 cc4 in
  let '(r5, p7, m3) := MsgPool.push_back 4 25 p6 m2 in
  MsgPool.size 4 cc2 = 4%nat /\
  map (MsgPool.at_ 4 p1 cc2) [0; 1; 2; 3]%nat = [1; 4; 9; 16] /\
  (r1, r2, r3, r4) = (false, false, false, false) /\
  MsgPool.size 4 m2 = 4%nat /\ MsgPool.size 4 cc4 = 4%nat /\
  MsgPool.empty 4 cc5 = true /\
  r5 = true /\ MsgPool.at_ 4 p7 m3 4 = 25.
Proof. vm_compute. repeat split. Qed.

(** test_msg.h, access: reading index 4 of a message of 4 bytes gives
    0xCC. *)
Example msg_access_test :
  MsgPool.at_ 4 copy_test_pool copy_test_msg 4 = 0xCC /\
  MsgPool.size 4 copy_test_msg = 4%nat /\
  MsgPool.at_ 4 copy_test_pool copy_test_msg 0 = 1 /\
  MsgPool.at_ 4 copy_test_pool copy_test_msg 3 = 16.
Proof. vm_compute. repeat split. Qed.

(** The iso15765 SF test: 01 05 09 written to endpoint 10 reaches the
    communicator as 03 01 05 09. *)
Example iso_SF_test :
  snd (Iso15765.send true [1; 5; 9] (eid_of 10) false
         (snd (fst (Iso15765.open true None eid_any
                      (Iso15765.ctor true 50 3 4095))))) =
    [LowerSend [3; 1; 5; 9] (eid_of 10) false].
Proof. vm_compute. reflexivity. Qed.

(** * Further properties of the layers *)

(** ** SLIP: the decoder on a byte stream *)

Lemma receive_loop_is_open data : forall s,
  Slip.is_open_ (fst (Slip.receive_loop data s)) = Slip.is_open_ s.
Proof.
  induction data as [|it rest IH]; intros s; [done|].
  cbn [Slip.receive_loop].
  destruct (Slip.receive_byte s it) as [s1 ev1] eqn:E1.
  specialize (IH s1). destruct (Slip.receive_loop rest s1) as [s2 ev2].
  cbn [fst] in *. rewrite IH.
  unfold Slip.receive_byte in E1.
  destruct s as [u st o rx tx]; cbn in E1.
  destruct st; repeat (match type of E1 with
                       | context [if ?c then _ else _] => destruct c
                       end); by injection E1 as <- _.
Qed.

(** X1: the decoder is a stream decoder: receiving a chunk of bytes in
    one call or split at any position into two calls gives the same
    deliveries, in the same order, and the same decoder state. *)
Theorem slip_receive_chunks :
  forall (d1 d2 : list byte) id1 more1 id2 more2 id more (s : Slip.slip),
    Slip.receive (d1 ++ d2) id more s =
      let '(s1, ev1) := Slip.receive d1 id1 more1 s in
      let '(s2, ev2) := Slip.receive d2 id2 more2 s1 in
      (s2, ev1 ++ ev2).
Proof.
  intros d1 d2 id1 more1 id2 more2 id more s. unfold Slip.receive.
  destruct (Slip.is_open_ s) eqn:Ho; cbn [negb].
  - rewrite receive_loop_app.
    pose proof (receive_loop_is_open d1 s) as H1.
    destruct (Slip.receive_loop d1 s) as [s1 ev1]. cbn [fst] in H1.
    rewrite H1, Ho. cbn [negb]. reflexivity.
  - rewrite Ho. reflexivity.
Qed.

Lemma receive_loop_idle g : forall s,
  Slip.rx_state_ s = Slip.RCV_IDLE ->
  Forall (fun b => b <> Slip.END) g ->
  Slip.receive_loop g s = (s, []).
Proof.
  induction g as [|b g IH]; intros s Hs Hg; [done|].
  apply Forall_cons in Hg as [Hb Hg]. cbn [Slip.receive_loop].
  unfold Slip.receive_byte at 1. rewrite Hs.
  destruct (Z.eqb_spec b Slip.END) as [|_]; [done|].
  by rewrite IH.
Qed.

(** X2: resynchronisation on a clean line: while the decoder waits for
    a frame (RCV_IDLE), bytes other than END are dropped without a
    trace, so noise without an END byte ahead of the data changes
    nothing. *)
Theorem slip_idle_drops_noise :
  forall (g d : list byte) id more (s : Slip.slip),
    Slip.rx_state_ s = Slip.RCV_IDLE ->
    Forall (fun b => b <> Slip.END) g ->
    Slip.receive (g ++ d) id more s = Slip.receive d id more s.
Proof.
  intros g d id more s Hs Hg. unfold Slip.receive.
  destruct (Slip.is_open_ s); cbn [negb]; [|done].
  rewrite receive_loop_app, receive_loop_idle by done.
  by destruct (Slip.receive_loop d s).
Qed.

(** Noise 01 DB 02 ahead of the frame of the packet 07 is dropped. *)
Lemma slip_idle_drops_noise_witness :
  Slip.receive ([1; 0xDB; 2] ++ slip_frame [7]) eid_any false
      (Slip.mk true Slip.RCV_IDLE true [] []) =
    (Slip.mk true Slip.RCV_IDLE true [] [], [UpperReceive [7] eid_any false]).
Proof.
  etransitivity.
  - apply slip_idle_drops_noise; [reflexivity|repeat constructor; discriminate].
  - reflexivity.
Defined.

Lemma stuffed_no_END b : Forall (fun x => x <> Slip.END) (stuffed b).
Proof.
  unfold stuffed.
  destruct (Z.eqb_spec b Slip.END) as [|Hb]; [repeat constructor; discriminate|].
  destruct (Z.eqb_spec b Slip.ESC) as [|_]; repeat constructor; try discriminate.
  done.
Qed.

Lemma stuffed_length b : (1 <= length (stuffed b) <= 2)%nat.
Proof.
  unfold stuffed. destruct (b =? Slip.END); [simpl; lia|].
  destruct (b =? Slip.ESC); simpl; lia.
Qed.

Lemma stuffed_body_no_END p :
  Forall (fun x => x <> Slip.END) (concat (map stuffed p)).
Proof.
  induction p as [|b p IH]; [constructor|].
  cbn [map concat]. apply Forall_app. split; [apply stuffed_no_END|done].
Qed.

(** X3: framing: whatever the packet, the frame handed to the lower
    layer is END, a body and END, where the body holds no END byte and
    is at least as long and at most twice as long as the packet. *)
Theorem slip_frame_shape :
  forall (p : list byte) (tx : Slip.slip) ok id,
    Slip.is_open_ tx = true -> Slip.tx_msg_ tx = [] ->
    exists body,
      snd (Slip.send ok p id false tx) =
        [LowerSend (Slip.END :: body ++ [Slip.END]) id false] /\
      Forall (fun x => x <> Slip.END) body /\
      (length p <= length body <= 2 * length p)%nat.
Proof.
  intros p tx ok id Ho Ht. exists (concat (map stuffed p)).
  split; [|split].
  - unfold Slip.send. rewrite Ho, Ht. cbn [negb LMsg.empty snd].
    rewrite send_loop_stuffed. reflexivity.
  - apply stuffed_body_no_END.
  - induction p as [|b p IH]; cbn [map concat length]; [lia|].
    rewrite length_app. pose proof (stuffed_length b). cbn [length]. lia.
Qed.

(** The frame of the packet C0 01: the body DB DC 01 holds no END. *)
Lemma slip_frame_shape_witness :
  exists body,
    snd (Slip.send true [0xC0; 1] eid_any false (Slip.mk true Slip.RCV_IDLE true [] [])) =
      [LowerSend (Slip.END :: body ++ [Slip.END]) eid_any false] /\
    Forall (fun x => x <> Slip.END) body /\
    (2 <= length body <= 4)%nat.
Proof.
  exact (slip_frame_shape [0xC0; 1] (Slip.mk true Slip.RCV_IDLE true [] [])
           true eid_any eq_refl eq_refl).
Defined.

Lemma receive_loop_frame p (rx : Slip.slip) :
  Slip.rx_state_ rx = Slip.RCV_IDLE -> Slip.rx_msg_ rx = [] ->
  Slip.receive_loop (slip_frame p) rx = (rx, slip_deliveries [p]).
Proof.
  intros Hi Hr. unfold slip_frame. cbn [Slip.receive_loop].
  unfold Slip.receive_byte at 1. rewrite Hi. cbn.
  rewrite receive_loop_app, receive_stuffed by done.
  cbn. unfold Slip.receive_byte. cbn. rewrite Hr. cbn.
  destruct rx as [u st o r t]; cbn in *; subst.
  by destruct p.
Qed.

Lemma slip_deliveries_cons p ps :
  slip_deliveries (p :: ps) = slip_deliveries [p] ++ slip_deliveries ps.
Proof.
  unfold slip_deliveries. cbn [List.filter]. by destruct (negb (LMsg.empty p)).
Qed.

(** X4: a stream of frames: an open decoder at rest that receives the
    frames of the packets [ps] one after the other, in one chunk,
    delivers every non-empty packet once, in order, drops the empty ones
    and is at rest again. *)
Theorem slip_stream_in_sync :
  forall (ps : list (list byte)) (rx : Slip.slip) id more,
    slip_ready rx ->
    Slip.receive (concat (map slip_frame ps)) id more rx = (rx, slip_deliveries ps).
Proof.
  intros ps rx id more (Ho & Hi & Hr & _). unfold Slip.receive.
  rewrite Ho. cbn [negb].
  induction ps as [|p ps IH]; [done|].
  cbn [map concat]. rewrite receive_loop_app, receive_loop_frame by done.
  rewrite IH, (slip_deliveries_cons p ps). reflexivity.
Qed.

(** Three frames in one chunk, the second one of an empty packet. *)
Lemma slip_stream_in_sync_witness :
  Slip.receive (concat (map slip_frame [[1; 0xC0]; []; [0xDB]])) eid_any false
      (Slip.mk true Slip.RCV_IDLE true [] []) =
    (Slip.mk true Slip.RCV_IDLE true [] [],
     [UpperReceive [1; 0xC0] eid_any false; UpperReceive [0xDB] eid_any false]).
Proof.
  etransitivity.
  - apply slip_stream_in_sync. repeat split.
  - reflexivity.
Defined.

Lemma receive_loop_frame_out_of_phase p (s : Slip.slip) :
  Slip.rx_state_ s = Slip.RCV_DATA -> Slip.rx_msg_ s = [] ->
  Slip.receive_loop (slip_frame p) s = (s, []).
Proof.
  intros Hd Hr. unfold slip_frame. cbn [Slip.receive_loop].
  unfold Slip.receive_byte at 1. rewrite Hd, Hr. cbn.
  change (0 <? LMsg.size []) with false. cbv iota.
  rewrite receive_loop_app, receive_loop_idle;
    [|done|apply stuffed_body_no_END].
  cbn. destruct s as [u st o r t]; cbn in *; subst. reflexivity.
Qed.

(** X5: loss of synchronisation: END starts a frame in RCV_IDLE and ends
    one in RCV_DATA.  After a single stray END byte the decoder takes
    the opening END of every following frame for a closing one: of any
    number of well-formed frames that follow not one is delivered. *)
Theorem slip_stray_END_loses_frames :
  forall (ps : list (list byte)) (rx : Slip.slip) id more,
    slip_ready rx ->
    Slip.receive (Slip.END :: concat (map slip_frame ps)) id more rx =
      (Slip.set_rx_state Slip.RCV_DATA rx, []).
Proof.
  intros ps rx id more (Ho & Hi & Hr & _). unfold Slip.receive.
  rewrite Ho. cbn [negb Slip.receive_loop].
  unfold Slip.receive_byte at 1. rewrite Hi. cbn.
  assert (H : forall s, Slip.rx_state_ s = Slip.RCV_DATA -> Slip.rx_msg_ s = [] ->
            Slip.receive_loop (concat (map slip_frame ps)) s = (s, [])).
  { induction ps as [|p ps IH]; intros s Hd Hs; [done|].
    cbn [map concat].
    by rewrite receive_loop_app, receive_loop_frame_out_of_phase, IH. }
  by rewrite H.
Qed.

(** A stray END ahead of the frames of 01 and 02: nothing is delivered. *)
Lemma slip_stray_END_loses_frames_witness :
  snd (Slip.receive (Slip.END :: concat (map slip_frame [[1]; [2]])) eid_any false
         (Slip.mk true Slip.RCV_IDLE true [] [])) = [].
Proof.
  rewrite (slip_stray_END_loses_frames [[1]; [2]]
             (Slip.mk true Slip.RCV_IDLE true [] []) eid_any false).
  - reflexivity.
  - repeat split.
Defined.

(** X6: fragments: a packet sent in two calls, the first with more =
    true, goes to the lower layer as one frame, the frame of the
    concatenation, when the second call comes; the first call only
    reports tx_done upward. *)
Theorem slip_send_fragments :
  forall (p1 p2 : list byte) (tx : Slip.slip) ok1 ok2 id1 id2,
    slip_ready tx ->
    let '(r1, s1, ev1) := Slip.send ok1 p1 id1 true tx in
    let '(r2, s2, ev2) := Slip.send ok2 p2 id2 false s1 in
    r1 = true /\ ev1 = [UpperIndication tx_done id1] /\
    r2 = ok2 /\ ev2 = [LowerSend (slip_frame (p1 ++ p2)) id2 false] /\
    s2 = tx.
Proof.
  intros p1 p2 tx ok1 ok2 id1 id2 (Ho & Hi & Hr & Ht).
  unfold Slip.send. rewrite Ho, Ht. cbn.
  rewrite !send_loop_stuffed. cbn.
  destruct tx as [u st o r t]; cbn in *; subst.
  repeat split. unfold slip_frame, LMsg.push_back.
  rewrite map_app, concat_app, <- !app_assoc. reflexivity.
Qed.

(** The packet 01 C0 02 sent as 01 C0 and 02. *)
Lemma slip_send_fragments_witness :
  let tx := Slip.mk true Slip.RCV_IDLE true [] [] in
  let '(r1, s1, ev1) := Slip.send true [1; 0xC0] eid_any true tx in
  let '(r2, s2, ev2) := Slip.send true [2] eid_any false s1 in
  ev2 = [LowerSend [0xC0; 1; 0xDB; 0xDC; 2; 0xC0] eid_any false].
Proof.
  pose proof (slip_send_fragments [1; 0xC0] [2]
                (Slip.mk true Slip.RCV_IDLE true [] []) true true eid_any eid_any) as H.
  cbv zeta.
  destruct (Slip.send true [1; 0xC0] eid_any true _) as [[r1 s1] ev1].
  destruct (Slip.send true [2] eid_any false s1) as [[r2 s2] ev2].
  destruct H as (_ & _ & _ & H & _); [repeat split|]. exact H.
Defined.

(** ** ISO 15765-2: frames on the wire *)



Lemma range_length (m : list byte) from to :
  (length (LMsg.range m from to) <= to - from)%nat.
Proof. unfold LMsg.range. rewrite length_take. lia. Qed.





Lemma small_length_cases (n : Z) :
  0 <= n <= 7 ->
  n = 0 \/ n = 1 \/ n = 2 \/ n = 3 \/ n = 4 \/ n = 5 \/ n = 6 \/ n = 7.
Proof. lia. Qed.

Lemma SF_pci_byte (n : Z) :
  0 <= n <= 7 ->
  u8 (Z.lor Iso15765.NPCI_SINGLE_FRAME (Z.land n 15)) = n /\
  Z.land n 240 = Iso15765.NPCI_SINGLE_FRAME /\ Z.land n 15 = n.
Proof.
  intros H. destruct (small_length_cases n H) as [->|[->|[->|[->|[->|[->|[->| ->]]]]]]];
    repeat split.
Qed.

Lemma SF_len_bounds s : 6 <= Iso15765.SF_len s <= 7.
Proof. unfold Iso15765.SF_len. destruct (Iso15765.use_ext_adr_ s); vm_compute; done. Qed.

(** The Single Frame of the payload [p] as send() builds it. *)
Lemma iso_send_SF s p ok id more :
  Iso15765.CF_DL_ s = 0 ->
  LMsg.size p <= Iso15765.SF_len s ->
  Iso15765.send ok p id more s =
    (ok, s, [LowerSend (Iso15765.zero_pad s
                          (Iso15765.add_target s (LMsg.size p :: p))) id false]).
Proof.
  intros Hd Hsf. unfold Iso15765.send. rewrite Hd.
  pose proof (SF_len_bounds s) as Hb.
  assert (Hp : 0 <= LMsg.size p <= 7) by (unfold LMsg.size in *; lia).
  destruct (Z.ltb_spec Iso15765.CF_MAX_FRAME_SIZE (LMsg.size p)) as [Hbig|_].
  { unfold Iso15765.CF_MAX_FRAME_SIZE in Hbig. lia. }
  cbn [Z.eqb negb].
  destruct (Z.leb_spec (LMsg.size p) (Iso15765.SF_len s)) as [_|]; [|lia].
  cbv zeta. unfold LMsg.push_front.
  by rewrite (proj1 (SF_pci_byte _ Hp)).
Qed.

(** A frame made of the length byte, the payload and any number of
    padding bytes is delivered as the payload. *)
Lemma iso_receive_SF_padded r p k id :
  LMsg.size p <= Iso15765.SF_len r ->
  Iso15765.receive_SF (LMsg.size p :: p ++ repeat 0 k) id r =
    (Iso15765.set_CF_DL 0 r, [UpperReceive p id false]).
Proof.
  intros Hsf. pose proof (SF_len_bounds r) as Hb.
  assert (Hp : 0 <= LMsg.size p <= 7) by (unfold LMsg.size in *; lia).
  unfold Iso15765.receive_SF. cbv zeta.
  change (LMsg.at_ (LMsg.size p :: p ++ repeat 0 k) 0) with (LMsg.size p).
  rewrite (proj2 (proj2 (SF_pci_byte _ Hp))).
  replace (Iso15765.SF_len (Iso15765.set_CF_DL 0 r)) with (Iso15765.SF_len r)
    by (by destruct r).
  destruct (Z.ltb_spec (Iso15765.SF_len r) (LMsg.size p)) as [|_]; [lia|].
  destruct (Z.leb_spec (LMsg.size (LMsg.size p :: p ++ repeat 0 k)) (LMsg.size p))
    as [Hle|_].
  { unfold LMsg.size in Hle. cbn [length] in Hle. rewrite length_app in Hle. lia. }
  cbn [orb]. do 3 f_equal.
  unfold LMsg.resize, LMsg.pop_front, LMsg.size. cbn [tail].
  rewrite Nat2Z.id, take_app_length, length_app.
  assert (E : forall a b : nat, (a - (a + b))%nat = 0%nat) by lia.
  rewrite E. apply app_nil_r.
Qed.

Lemma zero_pad_repeat s d : exists k, Iso15765.zero_pad s d = d ++ repeat 0 k.
Proof.
  unfold Iso15765.zero_pad, LMsg.insert_end_n.
  destruct (Iso15765.use_zero_padding_ s); [by eexists|].
  exists 0%nat. by rewrite app_nil_r.
Qed.

(** X8: round trip of a Single Frame: what an idle sender emits for a
    payload of at most 7 bytes (6 with extended addressing), the empty
    payload included, a peer receiver takes in, with or without zero
    padding on the sender's side, and delivers upward as exactly that
    payload; no other indication is raised. *)
Theorem iso_single_frame_round_trip :
  forall (s r : Iso15765.iso15765) (p : list byte) ok id id' more more',
    Iso15765.CF_DL_ s = 0 ->
    LMsg.size p <= Iso15765.SF_len s ->
    iso_peer s r ->
    exists frame,
      Iso15765.send ok p id more s = (ok, s, [LowerSend frame id false]) /\
      Iso15765.receive frame id' more' r =
        (Iso15765.set_CF_DL 0 r, [UpperReceive p id' false]).
Proof.
  intros s r p ok id id' more more' Hd Hsf [Hext Hadr].
  eexists. split; [by apply iso_send_SF|].
  assert (Hsf' : LMsg.size p <= Iso15765.SF_len r).
  { unfold Iso15765.SF_len in *. by rewrite Hext. }
  pose proof (SF_len_bounds s) as Hb.
  assert (Hp : 0 <= LMsg.size p <= 7) by (unfold LMsg.size in *; lia).
  destruct (zero_pad_repeat s (Iso15765.add_target s (LMsg.size p :: p))) as [k ->].
  rewrite (iso_receive_accepted r _ (LMsg.size p :: p ++ repeat 0 k)).
  - cbv zeta. change (LMsg.at_ (LMsg.size p :: p ++ repeat 0 k) 0) with (LMsg.size p).
    rewrite (proj1 (proj2 (SF_pci_byte _ Hp))), Z.eqb_refl.
    by apply iso_receive_SF_padded.
  - unfold iso_accepted, Iso15765.add_target. rewrite Hext.
    destruct (Iso15765.use_ext_adr_ s); [|done].
    cbn [app LMsg.at_ nth LMsg.pop_front tail]. by rewrite Hadr, Z.eqb_refl.
Qed.

(** The empty payload and a payload of 7 bytes, sent with zero padding. *)
Lemma iso_single_frame_round_trip_witness :
  let s := Iso15765.set_zero_padding true (Iso15765.ctor true 50 3 4095) in
  let r := Iso15765.ctor true 10 0 4095 in
  snd (Iso15765.receive [0; 0; 0; 0; 0; 0; 0; 0] eid_any false r) =
    [UpperReceive [] eid_any false] /\
  exists frame,
    Iso15765.send true [1; 2; 3; 4; 5; 6; 7] eid_any false s =
      (true, s, [LowerSend frame eid_any false]) /\
    Iso15765.receive frame eid_any false r =
      (Iso15765.set_CF_DL 0 r, [UpperReceive [1; 2; 3; 4; 5; 6; 7] eid_any false]).
Proof.
  cbv zeta. split; [reflexivity|].
  apply iso_single_frame_round_trip; [reflexivity|vm_compute; discriminate|].
  split; reflexivity.
Defined.

(** ** ISO 15765-2: a segmented transfer between two layers *)

Lemma u8_mod x : u8 x = x mod 256.
Proof. unfold u8. change 255 with (Z.ones 8). by rewrite Z.land_ones. Qed.

Lemma u16_mod x : u16 x = x mod 65536.
Proof. unfold u16. change 65535 with (Z.ones 16). by rewrite Z.land_ones. Qed.

Lemma land15_mod x : Z.land x 15 = x mod 16.
Proof. change 15 with (Z.ones 4). by rewrite Z.land_ones. Qed.

Lemma u8_small x : 0 <= x <= 255 -> u8 x = x.
Proof. intros H. rewrite u8_mod. apply Z.mod_small. lia. Qed.

Lemma u16_small x : 0 <= x <= 65535 -> u16 x = x.
Proof. intros H. rewrite u16_mod. apply Z.mod_small. lia. Qed.

Lemma nibble_cases (v : Z) :
  0 <= v <= 15 ->
  v = 0 \/ v = 1 \/ v = 2 \/ v = 3 \/ v = 4 \/ v = 5 \/ v = 6 \/ v = 7 \/
  v = 8 \/ v = 9 \/ v = 10 \/ v = 11 \/ v = 12 \/ v = 13 \/ v = 14 \/ v = 15.
Proof. lia. Qed.

(** The N_PCI byte: a type nibble joined with a low nibble. *)
Lemma pci_byte (t v : Z) :
  t = 0x10 \/ t = 0x20 \/ t = 0x30 ->
  0 <= v <= 15 ->
  u8 (Z.lor t v) = t + v /\ Z.land (t + v) 240 = t /\ Z.land (t + v) 15 = v.
Proof.
  intros Ht Hv.
  destruct (nibble_cases v Hv)
    as [->|[->|[->|[->|[->|[->|[->|[->|[->|[->|[->|[->|[->|[->|[->| ->]]]]]]]]]]]]]]];
    destruct Ht as [->|[->| ->]]; repeat split.
Qed.

Lemma land_high_low (a b : Z) : 0 <= b < 2 ^ 8 -> Z.land (a * 2 ^ 8) b = 0.
Proof.
  intros Hb. apply Z.bits_inj'. intros n Hn.
  rewrite Z.land_spec, Z.bits_0.
  destruct (Z.ltb_spec n 8) as [Hlt|Hge].
  - by rewrite Z.mul_pow2_bits_low by lia.
  - destruct (Z.eq_dec b 0) as [->|Hb0]; [by rewrite Z.bits_0, andb_false_r|].
    rewrite (Z.bits_above_log2 b n); [by rewrite andb_false_r|lia|].
    apply Z.log2_lt_pow2; [lia|].
    eapply Z.lt_le_trans; [apply Hb|]. apply Z.pow_le_mono_r; lia.
Qed.

Lemma lor_high_low (a b : Z) :
  0 <= b < 256 -> Z.lor (Z.shiftl a 8) b = a * 256 + b.
Proof.
  intros Hb. rewrite Z.shiftl_mul_pow2 by lia.
  rewrite <- Z.lxor_lor by (by apply land_high_low).
  rewrite <- Z.add_nocarry_lxor by (by apply land_high_low).
  reflexivity.
Qed.

(** The length of a First Frame is read back from its two bytes. *)
Lemma FF_length_bytes (n : Z) :
  0 <= n <= 4095 ->
  let b0 := u8 (Z.lor Iso15765.NPCI_FIRST_FRAME (Z.land (Z.shiftr (u16 n) 8) 15)) in
  let b1 := u8 (u16 n) in
  Z.land b0 240 = Iso15765.NPCI_FIRST_FRAME /\
  Util.make_large b1 (Z.land b0 15) = n.
Proof.
  intros Hn. cbv zeta. rewrite (u16_small n) by lia.
  rewrite Z.shiftr_div_pow2 by lia. change (2 ^ 8) with 256.
  assert (Hhi : 0 <= n / 256 <= 15).
  { split; [apply Z.div_pos; lia|].
    assert (n / 256 < 16) by (apply Z.div_lt_upper_bound; lia). lia. }
  rewrite (land15_mod (n / 256)), (Z.mod_small (n / 256) 16) by lia.
  destruct (pci_byte Iso15765.NPCI_FIRST_FRAME (n / 256)) as (E1 & E2 & E3);
    [by left|done|].
  rewrite E1, E2, E3. split; [done|].
  unfold Util.make_large. rewrite u8_mod.
  rewrite lor_high_low by (apply Z.mod_pos_bound; lia).
  rewrite u16_small; [|pose proof (Z.mod_pos_bound n 256); lia].
  pose proof (Z.div_mod n 256). lia.
Qed.
Ltac iso_fields :=
  cbn [Iso15765.upper_ Iso15765.CF_frame_ Iso15765.CF_eid_ Iso15765.CF_SN_
       Iso15765.CF_DL_ Iso15765.CF_size_ Iso15765.CF_MAX_DL_
       Iso15765.CF_STmin_ Iso15765.CF_BS_ Iso15765.CF_BScnt_
       Iso15765.FC_STmin_ Iso15765.FC_BS_ Iso15765.FC_FS_
       Iso15765.use_ext_adr_ Iso15765.ext_source_adr_
       Iso15765.ext_target_adr_ Iso15765.use_zero_padding_
       Iso15765.timer_TX_CF_ Iso15765.timer_TX_FC_ Iso15765.timer_RX_CF_
       Iso15765.tx_ev_ Iso15765.set_CF_frame Iso15765.set_CF_eid
       Iso15765.set_CF_SN Iso15765.set_CF_DL Iso15765.set_CF_size
       Iso15765.set_CF_BScnt Iso15765.set_FC_STmin Iso15765.set_FC_BS
       Iso15765.set_FC_FS Iso15765.set_use_ext_adr
       Iso15765.set_ext_source_adr Iso15765.set_ext_target_adr
       Iso15765.set_use_zero_padding Iso15765.set_timer_TX_CF
       Iso15765.set_timer_TX_FC Iso15765.set_timer_RX_CF Iso15765.set_tx_ev
       fst snd] in *.

Ltac iso_case :=
  match goal with
  | |- context [if ?a <? ?b then _ else _] => destruct (Z.ltb_spec a b)
  | |- context [if negb (?a <? ?b) then _ else _] => destruct (Z.ltb_spec a b)
  | |- context [if ?a <=? ?b then _ else _] => destruct (Z.leb_spec a b)
  | |- context [if negb (?a =? ?b) then _ else _] => destruct (Z.eqb_spec a b)
  | |- context [if ?a =? ?b then _ else _] => destruct (Z.eqb_spec a b)
  | |- context [if (?a <? ?b) || _ then _ else _] => destruct (Z.ltb_spec a b)
  end; cbn [negb orb andb]; try (exfalso; lia).

Lemma FF_len_bounds s : 5 <= Iso15765.FF_len s <= 6.
Proof. unfold Iso15765.FF_len. destruct (Iso15765.use_ext_adr_ s); vm_compute; done. Qed.

Lemma CF_len_bounds s : 6 <= Iso15765.CF_len s <= 7.
Proof. unfold Iso15765.CF_len. destruct (Iso15765.use_ext_adr_ s); vm_compute; done. Qed.

Lemma iso_lens s :
  Iso15765.SF_len s = Iso15765.CF_len s /\
  Iso15765.FF_len s = Iso15765.CF_len s - 1.
Proof.
  unfold Iso15765.SF_len, Iso15765.CF_len, Iso15765.FF_len.
  by destruct (Iso15765.use_ext_adr_ s).
Qed.

(** send() of a payload that does not fit a Single Frame. *)
Lemma iso_send_FF s p id more :
  Iso15765.CF_DL_ s = 0 ->
  Iso15765.SF_len s < LMsg.size p <= 4095 ->
  Iso15765.send true p id more s =
    (true,
     Iso15765.set_timer_TX_FC (Util.timer_start Iso15765.N_Bs)
       (Iso15765.set_CF_eid id
          (Iso15765.set_CF_BScnt 0
             (Iso15765.set_CF_size (LMsg.size p)
                (Iso15765.set_CF_DL (Iso15765.FF_len s)
                   (Iso15765.set_CF_SN 1 (Iso15765.set_CF_frame p s)))))),
     [LowerSend
        (Iso15765.add_target s
           (u8 (Z.lor Iso15765.NPCI_FIRST_FRAME
                  (Z.land (Z.shiftr (u16 (LMsg.size p)) 8) 15))
            :: u8 (u16 (LMsg.size p))
            :: take (Z.to_nat (Iso15765.FF_len s)) p)) id false]).
Proof.
  intros Hd [Hlo Hhi]. unfold Iso15765.send. rewrite Hd.
  change (negb (0 =? 0)) with false. cbv iota.
  unfold Iso15765.CF_MAX_FRAME_SIZE.
  do 2 iso_case. cbv zeta.
  destruct s. iso_fields.
  rewrite (u16_small (LMsg.size p)) by (unfold LMsg.size in *; lia).
  unfold Iso15765.add_target, LMsg.insert_end, LMsg.push_back, LMsg.range.
  iso_fields. cbn [app]. rewrite Nat.sub_0_r. reflexivity.
Qed.

(** The First Frame of a message whose length fits the receiver. *)
Lemma iso_receive_FF_ok r b0 b1 data id :
  let n := Util.make_large b1 (Z.land b0 15) in
  Iso15765.FF_len r + 2 <= n -> n <= Iso15765.CF_MAX_DL_ r -> n <= 4095 ->
  Iso15765.receive_FF (b0 :: b1 :: data) id r =
    (Iso15765.set_timer_RX_CF (Util.timer_start Iso15765.N_Cr)
       (Iso15765.set_CF_BScnt 0
          (Iso15765.set_CF_SN 1
             (Iso15765.set_CF_frame
                (LMsg.resize data (Z.to_nat (Iso15765.FF_len r)))
                (Iso15765.set_CF_DL n r)))),
     Iso15765.send_FC Iso15765.FC_CTS id r).
Proof.
  intros n Hlo Hhi Hmax. unfold Iso15765.receive_FF. cbv zeta.
  change (LMsg.at_ (b0 :: b1 :: data) 1) with b1.
  change (LMsg.at_ (b0 :: b1 :: data) 0) with b0. fold n.
  unfold Iso15765.CF_MAX_BUFFER_SIZE, Iso15765.CF_MAX_FRAME_SIZE.
  destruct r. unfold Iso15765.FF_len in *. iso_fields.
  iso_case. iso_case. iso_case. reflexivity.
Qed.

(** A clear-to-send Flow Control frame, on the whole state. *)
Lemma iso_receive_FC_CTS s b0 bs stmin rest id :
  Z.land b0 15 = 0 ->
  Iso15765.receive_FC (b0 :: bs :: stmin :: rest) id s =
    (Iso15765.set_timer_TX_CF (Util.timer_start stmin)
       (Iso15765.set_CF_BScnt 0
          (Iso15765.set_FC_STmin stmin
             (Iso15765.set_FC_BS bs
                (Iso15765.set_FC_FS 0
                   (Iso15765.set_timer_TX_FC Util.timer_stop s))))), []).
Proof.
  intros Hfs. unfold Iso15765.receive_FC. cbv zeta.
  change (LMsg.at_ (b0 :: bs :: stmin :: rest) 0) with b0.
  change (LMsg.at_ (b0 :: bs :: stmin :: rest) 1) with bs.
  change (LMsg.at_ (b0 :: bs :: stmin :: rest) 2) with stmin.
  rewrite Hfs.
  assert (H1 : Z.land b0 1 = 0).
  { rewrite land15_mod in Hfs. change 1 with (Z.ones 1).
    rewrite Z.land_ones by lia. change (2 ^ 1) with 2.
    pose proof (Z.mod_divide b0 16). pose proof (Z.mod_divide b0 2).
    apply Z.mod_divide; [lia|]. apply Z.mod_divide in Hfs; [|lia].
    destruct Hfs as [q ->]. exists (q * 8). lia. }
  rewrite H1.
  unfold LMsg.size, Iso15765.FC_DATALENGTH. cbn [length].
  iso_case. destruct s. iso_fields. reflexivity.
Qed.

Lemma iso_dispatch r data d id more :
  iso_accepted r data = Some d ->
  forall t, Z.land (LMsg.at_ d 0) 240 = t ->
  Iso15765.receive data id more r =
    if t =? Iso15765.NPCI_SINGLE_FRAME then Iso15765.receive_SF d id r
    else if t =? Iso15765.NPCI_FIRST_FRAME then Iso15765.receive_FF d id r
    else if t =? Iso15765.NPCI_CONSECUTIVE_FRAME then Iso15765.receive_CF d id r
    else if t =? Iso15765.NPCI_FLOW_CONTROL then Iso15765.receive_FC d id r
    else (r, [UpperIndication rx_error id]).
Proof. intros Hacc t <-. by apply iso_receive_accepted. Qed.

(** A frame built by add_target and zero_pad on one side is taken in
    by the peer as the frame without the address and with some zero
    bytes appended. *)
Lemma iso_accepted_peer s r d :
  iso_peer s r ->
  exists k,
    iso_accepted r (Iso15765.zero_pad s (Iso15765.add_target s d)) =
      Some (d ++ repeat 0 k) /\
    (Iso15765.use_zero_padding_ s = false -> k = 0%nat) /\
    (Z.of_nat (length d) + Z.of_nat k <=
       Z.max (Z.of_nat (length d))
             (if Iso15765.use_ext_adr_ s then 7 else 8)).
Proof.
  intros [Hext Hadr].
  unfold Iso15765.zero_pad, Iso15765.add_target, LMsg.insert_end_n,
    iso_accepted, LMsg.push_front, LMsg.size, Iso15765.FRAME_LENGTH.
  rewrite Hext, Hadr.
  destruct (Iso15765.use_zero_padding_ s), (Iso15765.use_ext_adr_ s).
  - eexists. cbn [app LMsg.at_ nth LMsg.pop_front tail]. rewrite Z.eqb_refl.
    split; [reflexivity|]. split; [discriminate|].
    cbn [length]. destruct (Z.ltb_spec (Z.of_nat (S (length d))) 8); lia.
  - eexists. split; [reflexivity|]. split; [discriminate|].
    destruct (Z.ltb_spec (Z.of_nat (length d)) 8); lia.
  - exists 0%nat. cbn [app LMsg.at_ nth LMsg.pop_front tail]. rewrite Z.eqb_refl.
    rewrite app_nil_r. split; [reflexivity|]. split; [done|lia].
  - exists 0%nat. rewrite app_nil_r. split; [reflexivity|]. split; [done|lia].
Qed.

Lemma iso_accepted_target s r d :
  iso_peer s r -> iso_accepted r (Iso15765.add_target s d) = Some d.
Proof.
  intros [Hext Hadr]. unfold Iso15765.add_target, iso_accepted, LMsg.push_front.
  rewrite Hext, Hadr. destruct (Iso15765.use_ext_adr_ s); [|done].
  cbn [LMsg.at_ nth LMsg.pop_front tail]. by rewrite Z.eqb_refl.
Qed.

Lemma iso_send_FC_CTS r id :
  Iso15765.send_FC Iso15765.FC_CTS id r =
    [LowerSend (Iso15765.zero_pad r
                  (Iso15765.add_target r
                     [0x30; Iso15765.CF_BS_ r; Iso15765.CF_STmin_ r])) id false].
Proof. reflexivity. Qed.

Ltac iso_setters :=
  cbv [Iso15765.set_CF_frame Iso15765.set_CF_eid
       Iso15765.set_CF_SN Iso15765.set_CF_DL Iso15765.set_CF_size
       Iso15765.set_CF_BScnt Iso15765.set_FC_STmin Iso15765.set_FC_BS
       Iso15765.set_FC_FS Iso15765.set_use_ext_adr
       Iso15765.set_ext_source_adr Iso15765.set_ext_target_adr
       Iso15765.set_use_zero_padding Iso15765.set_timer_TX_CF
       Iso15765.set_timer_TX_FC Iso15765.set_timer_RX_CF Iso15765.set_tx_ev
       Iso15765.upper_ Iso15765.CF_frame_ Iso15765.CF_eid_ Iso15765.CF_SN_
       Iso15765.CF_DL_ Iso15765.CF_size_ Iso15765.CF_MAX_DL_
       Iso15765.CF_STmin_ Iso15765.CF_BS_ Iso15765.CF_BScnt_
       Iso15765.FC_STmin_ Iso15765.FC_BS_ Iso15765.FC_FS_
       Iso15765.use_ext_adr_ Iso15765.ext_source_adr_
       Iso15765.ext_target_adr_ Iso15765.use_zero_padding_
       Iso15765.timer_TX_CF_ Iso15765.timer_TX_FC_ Iso15765.timer_RX_CF_
       Iso15765.tx_ev_ iso_tx_state iso_rx_state].

Section iso_transfer.

Variables (s r : Iso15765.iso15765) (p : list byte) (id : eid).

Hypothesis Hidle : Iso15765.CF_DL_ s = 0.
Hypothesis Hlong : Iso15765.SF_len s < LMsg.size p.
Hypothesis Hmax : LMsg.size p <= 4095.
Hypothesis Hrmax : LMsg.size p <= Iso15765.CF_MAX_DL_ r.
Hypothesis Hsr : iso_peer s r.
Hypothesis Hrs : iso_peer r s.

Local Abbreviation L := (Iso15765.FF_len s).
Local Abbreviation C := (Iso15765.CF_len s).

Lemma iso_tx_state_peer sn dl c : iso_peer r (iso_tx_state s r p id sn dl c).
Proof. destruct Hrs as [H1 H2]. split; destruct s; exact H1 || exact H2. Qed.

Lemma iso_rx_state_peer sn dl c : iso_peer s (iso_rx_state r p sn dl c).
Proof. destruct Hsr as [H1 H2]. split; destruct r; exact H1 || exact H2. Qed.

(** What the Flow Control frame of the receiver does to a sender state
    with the configuration of [s]. *)
Lemma iso_FC_reaches_sender (s' : Iso15765.iso15765) :
  iso_peer r s' ->
  iso_deliver (Iso15765.send_FC Iso15765.FC_CTS id r) s' =
    (Iso15765.set_timer_TX_CF (Util.timer_start (Iso15765.CF_STmin_ r))
       (Iso15765.set_CF_BScnt 0
          (Iso15765.set_FC_STmin (Iso15765.CF_STmin_ r)
             (Iso15765.set_FC_BS (Iso15765.CF_BS_ r)
                (Iso15765.set_FC_FS 0
                   (Iso15765.set_timer_TX_FC Util.timer_stop s'))))), []).
Proof.
  intros Hp. rewrite iso_send_FC_CTS. cbn [iso_deliver].
  destruct (iso_accepted_peer r s'
              [0x30; Iso15765.CF_BS_ r; Iso15765.CF_STmin_ r] Hp)
    as (k & Hacc & _).
  rewrite (iso_dispatch _ _ _ _ _ Hacc 0x30) by reflexivity.
  cbn [Z.eqb Pos.eqb Iso15765.NPCI_SINGLE_FRAME Iso15765.NPCI_FIRST_FRAME
       Iso15765.NPCI_CONSECUTIVE_FRAME Iso15765.NPCI_FLOW_CONTROL app].
  by rewrite iso_receive_FC_CTS.
Qed.

Lemma iso_start_state :
  iso_start p id s r =
    (iso_tx_state s r p id 1 L 0, iso_rx_state r p 1 L 0,
     Iso15765.send_FC Iso15765.FC_CTS id r).
Proof.
  pose proof (iso_lens s) as [HSF HFF]. pose proof (CF_len_bounds s) as HC.
  assert (Hsz : 0 <= LMsg.size p <= 4095) by (unfold LMsg.size in *; lia).
  unfold iso_start. rewrite iso_send_FF by lia.
  unfold Iso15765.indication. cbn [iso_deliver].
  rewrite (iso_dispatch r _ _ id false (iso_accepted_target s r _ Hsr)
             Iso15765.NPCI_FIRST_FRAME)
    by (apply (FF_length_bytes _ Hsz)).
  change (Iso15765.NPCI_FIRST_FRAME =? Iso15765.NPCI_SINGLE_FRAME) with false.
  change (Iso15765.NPCI_FIRST_FRAME =? Iso15765.NPCI_FIRST_FRAME) with true.
  cbv iota.
  assert (HLr : Iso15765.FF_len r = L).
  { unfold Iso15765.FF_len. by rewrite (proj1 Hsr). }
  rewrite iso_receive_FF_ok;
    rewrite ?(proj2 (FF_length_bytes _ Hsz)); try lia.
  rewrite app_nil_r, iso_FC_reaches_sender.
  - f_equal. f_equal.
    unfold iso_rx_state. rewrite HLr. do 4 f_equal.
    unfold LMsg.resize. rewrite take_take, Nat.min_id, length_take.
    unfold LMsg.size in *.
    replace (Z.to_nat L - Z.to_nat L `min` length p)%nat with 0%nat by lia.
    apply app_nil_r.
  - destruct Hrs as [H1 H2]. split; destruct s; exact H1 || exact H2.
Qed.

Hypothesis Hbs : 0 <= Iso15765.CF_BS_ r <= 255.

Lemma iso_tx_step sn dl c :
  0 <= dl < LMsg.size p -> 0 <= c ->
  (Iso15765.CF_BS_ r <> 0 -> c < Iso15765.CF_BS_ r) ->
  Iso15765.expire_TX_CF false true (iso_tx_state s r p id sn dl c) =
    (if LMsg.size p <=? dl + C
     then Iso15765.set_CF_frame []
            (Iso15765.set_CF_DL 0
               (Iso15765.set_tx_ev false
                  (Iso15765.set_timer_TX_CF Util.timer_stop
                     (iso_tx_state s r p id (u8 (sn + 1)) dl c))))
     else Iso15765.set_tx_ev false
            (iso_tx_state s r p id (u8 (sn + 1)) (dl + C)
               (if Iso15765.CF_BS_ r =? 0 then c else c + 1)),
     [LowerSend (iso_CF_wire s p sn dl) id false]).
Proof.
  intros Hdl Hc Hblock.
  pose proof (CF_len_bounds s) as HC.
  assert (Hsz : LMsg.size p <= 4095) by exact Hmax.
  clear Hidle Hlong Hmax Hrmax Hsr Hrs.
  unfold iso_CF_wire, iso_tx_state, Iso15765.expire_TX_CF,
    Iso15765.timer_func_TX_CF, Iso15765.send_CF, Util.wait_for,
    Util.timer_start, Util.timer_stop, LMsg.insert_end, LMsg.push_back,
    LMsg.range, LMsg.clear.
  set (C' := Iso15765.CF_len s) in *.
  assert (EC : forall t, Iso15765.use_ext_adr_ t = Iso15765.use_ext_adr_ s ->
                 Iso15765.CF_len t = C').
  { intros t Ht. unfold C', Iso15765.CF_len. by rewrite Ht. }
  clearbody C'.
  destruct s as [? ? ? ? ? ? ? ? ? ? ? ? ? ext ? ? pad ? ? ? ?].
  iso_fields. cbv zeta. iso_fields. cbn [orb app].
  rewrite !EC by reflexivity.
  rewrite (u16_small (dl + C')) by lia.
  assert (Hdata : forall a b : nat, firstn (a - b) (skipn b p) = take (a - b) (drop b p))
    by reflexivity.
  destruct (Z.leb_spec (LMsg.size p) (dl + C')) as [Hlast|Hmid].
  - destruct (Z.ltb_spec (dl + C') (LMsg.size p)) as [?|_]; [lia|].
    f_equal. do 2 f_equal.
    unfold Iso15765.zero_pad, Iso15765.add_target. iso_fields.
    assert (E : firstn (length p - Z.to_nat dl) (skipn (Z.to_nat dl) p)
                = take (Z.to_nat C') (drop (Z.to_nat dl) p)).
    { unfold LMsg.size in *.
      rewrite !take_ge; [reflexivity| |]; rewrite length_drop; lia. }
    rewrite E. reflexivity.
  - destruct (Z.ltb_spec (dl + C') (LMsg.size p)) as [_|?]; [|lia].
    assert (E : firstn (Z.to_nat (dl + C') - Z.to_nat dl) (skipn (Z.to_nat dl) p)
                = take (Z.to_nat C') (drop (Z.to_nat dl) p)).
    { f_equal. lia. }
    rewrite E.
    destruct (Z.eqb_spec (Iso15765.CF_BS_ r) 0) as [Hz|Hnz]; cbn [negb].
    + reflexivity.
    + destruct (Z.leb_spec (Iso15765.CF_BS_ r) c) as [?|_]; [lia|].
      rewrite (u8_small (c + 1)) by lia.
      reflexivity.
Qed.

(** The same step when the block is exhausted: the frame goes out, then
    the sender waits for flow control under N_Bs. *)
Lemma iso_tx_step_block sn dl c :
  0 <= dl -> dl + C < LMsg.size p -> 0 <= c <= 254 ->
  Iso15765.CF_BS_ r <> 0 -> Iso15765.CF_BS_ r <= c ->
  Iso15765.expire_TX_CF false true (iso_tx_state s r p id sn dl c) =
    (Iso15765.set_timer_TX_FC (Util.timer_start Iso15765.N_Bs)
       (Iso15765.set_tx_ev false
          (Iso15765.set_timer_TX_CF Util.timer_stop
             (iso_tx_state s r p id (u8 (sn + 1)) (dl + C) (c + 1)))),
     [LowerSend (iso_CF_wire s p sn dl) id false]).
Proof.
  intros Hdl Hmid Hc Hnz Hblock.
  pose proof (CF_len_bounds s) as HC.
  assert (Hsz : LMsg.size p <= 4095) by exact Hmax.
  clear Hidle Hlong Hmax Hrmax Hsr Hrs.
  unfold iso_CF_wire, iso_tx_state, Iso15765.expire_TX_CF,
    Iso15765.timer_func_TX_CF, Iso15765.send_CF, Util.wait_for,
    Util.timer_start, Util.timer_stop, LMsg.insert_end, LMsg.push_back,
    LMsg.range, LMsg.clear.
  set (C' := Iso15765.CF_len s) in *.
  assert (EC : forall t, Iso15765.use_ext_adr_ t = Iso15765.use_ext_adr_ s ->
                 Iso15765.CF_len t = C').
  { intros t Ht. unfold C', Iso15765.CF_len. by rewrite Ht. }
  clearbody C'.
  destruct s as [? ? ? ? ? ? ? ? ? ? ? ? ? ext ? ? pad ? ? ? ?].
  iso_fields. cbv zeta. iso_fields. cbn [orb app].
  rewrite !EC by reflexivity.
  rewrite (u16_small (dl + C')) by lia.
  destruct (Z.leb_spec (LMsg.size p) (dl + C')) as [?|_]; [lia|].
  destruct (Z.ltb_spec (dl + C') (LMsg.size p)) as [_|?]; [|lia].
  assert (E : firstn (Z.to_nat (dl + C') - Z.to_nat dl) (skipn (Z.to_nat dl) p)
              = take (Z.to_nat C') (drop (Z.to_nat dl) p)).
  { f_equal. lia. }
  rewrite E.
  destruct (Z.eqb_spec (Iso15765.CF_BS_ r) 0) as [?|_]; [lia|]. cbn [negb].
  destruct (Z.leb_spec (Iso15765.CF_BS_ r) c) as [_|?]; [|lia].
  rewrite (u8_small (c + 1)) by lia.
  reflexivity.
Qed.

Lemma iso_next_SN sn :
  Z.land (u8 (Z.land sn 15 + 1)) 15 = Z.land (u8 (sn + 1)) 15.
Proof.
  rewrite !u8_mod, !land15_mod. Z.div_mod_to_equations. lia.
Qed.

Lemma iso_rx_step sn dl c k :
  0 <= dl < LMsg.size p -> 0 <= c ->
  (Iso15765.CF_BS_ r <> 0 -> c < Iso15765.CF_BS_ r) ->
  let data := take (Z.to_nat C) (drop (Z.to_nat dl) p) in
  Z.of_nat (length data) + Z.of_nat k <= C ->
  dl + Z.of_nat (length data) + Z.of_nat k <= 4095 ->
  Iso15765.receive_CF
      (u8 (Z.lor Iso15765.NPCI_CONSECUTIVE_FRAME (Z.land sn 15))
         :: data ++ repeat 0 k) id
      (iso_rx_state r p (Z.land sn 15) dl c) =
    if LMsg.size p <=? dl + C
    then (Iso15765.set_CF_frame []
            (Iso15765.set_CF_DL 0
               (Iso15765.set_timer_RX_CF Util.timer_stop
                  (iso_rx_state r p (Z.land (u8 (sn + 1)) 15) dl c))),
          [UpperReceive p id false])
    else (iso_rx_state r p (Z.land (u8 (sn + 1)) 15) (dl + C)
            (if Iso15765.CF_BS_ r =? 0 then c
             else if Iso15765.CF_BS_ r <=? c + 1 then 0 else c + 1),
          if negb (Iso15765.CF_BS_ r =? 0) && (Iso15765.CF_BS_ r <=? c + 1)
          then Iso15765.send_FC Iso15765.FC_CTS id r else []).
Proof.
  intros Hdl Hc Hblock data Hk Hbuf.
  pose proof (CF_len_bounds s) as HC.
  assert (Hsz : LMsg.size p <= 4095) by exact Hmax.
  assert (Hlen : length data = Z.to_nat (Z.min C (LMsg.size p - dl))).
  { unfold data, LMsg.size in *. rewrite length_take, length_drop. lia. }
  destruct (pci_byte 0x20 (Z.land sn 15)) as (Hb & _ & Hlow).
  { auto. } { rewrite land15_mod. pose proof (Z.mod_pos_bound sn 16). lia. }
  clear Hidle Hlong Hmax Hrmax Hsr Hrs.
  unfold iso_rx_state, Iso15765.receive_CF, Util.timer_start, Util.timer_stop,
    LMsg.insert_end, LMsg.clear, LMsg.pop_front, LMsg.resize,
    Iso15765.CF_MAX_BUFFER_SIZE, Iso15765.CF_MAX_FRAME_SIZE.
  change (LMsg.at_ (?b :: ?l) 0) with b.
  change Iso15765.NPCI_CONSECUTIVE_FRAME with 0x20.
  rewrite Hb, Hlow.
  set (C' := Iso15765.CF_len s) in *. clearbody C'.
  destruct r as [? ? ? ? ? ? ? ? BS ? ? ? ? ext ? ? pad ? ? ? ?].
  iso_fields. cbv zeta. iso_fields. cbn [tail].
  destruct (Z.eqb_spec (LMsg.size p) 0) as [?|_]; [lia|].
  rewrite Z.eqb_refl. cbn [negb].
  assert (Hpre : LMsg.size (take (Z.to_nat dl) p) = dl).
  { unfold LMsg.size in *. rewrite length_take. lia. }
  assert (Hadd : LMsg.size (data ++ repeat 0 k)
                 = Z.of_nat (length data) + Z.of_nat k).
  { unfold LMsg.size. rewrite length_app, repeat_length. lia. }
  rewrite Hpre, Hadd.
  destruct (Z.leb_spec (dl + (Z.of_nat (length data) + Z.of_nat k)) 4095)
    as [_|?]; [|lia].
  iso_fields.
  assert (Hall : LMsg.size (take (Z.to_nat dl) p ++ data ++ repeat 0 k)
                 = dl + Z.of_nat (length data) + Z.of_nat k).
  { unfold LMsg.size in *. rewrite !length_app, repeat_length, length_take. lia. }
  rewrite Hall, iso_next_SN.
  destruct (Z.leb_spec (LMsg.size p) (dl + C')) as [Hlast|Hmid].
  - destruct (Z.leb_spec (LMsg.size p) (dl + Z.of_nat (length data) + Z.of_nat k))
      as [_|?]; [|lia].
    cbn [app].
    assert (Hwhole : firstn (Z.to_nat (LMsg.size p))
                       (take (Z.to_nat dl) p ++ data ++ repeat 0 k) ++
                     repeat 0 (Z.to_nat (LMsg.size p) -
                               length (take (Z.to_nat dl) p ++ data ++ repeat 0 k))
                     = p).
    { unfold data. rewrite (take_ge (drop _ _))
        by (unfold LMsg.size in *; rewrite length_drop; lia).
      rewrite app_assoc, take_drop.
      unfold LMsg.size. rewrite Nat2Z.id.
      change (firstn (length p) (p ++ repeat 0 k)) with (take (length p) (p ++ repeat 0 k)).
      rewrite take_app_length, length_app.
      assert (E : forall a b : nat, (a - (a + b))%nat = 0%nat) by lia.
      rewrite E.
      apply app_nil_r. }
    rewrite Hwhole. reflexivity.
  - destruct (Z.leb_spec (LMsg.size p) (dl + Z.of_nat (length data) + Z.of_nat k))
      as [?|_]; [lia|].
    assert (k = 0%nat) as -> by lia.
    assert (Hfr : take (Z.to_nat dl) p ++ data ++ repeat 0 0
                  = take (Z.to_nat (dl + C')) p).
    { cbn [repeat]. rewrite app_nil_r. unfold data.
      rewrite Z2Nat.inj_add by lia. by rewrite take_take_drop. }
    rewrite Hfr.
    destruct (Z.eqb_spec BS 0) as [Hz|Hnz]; cbn [negb andb].
    + reflexivity.
    + iso_fields. rewrite (u8_small (c + 1)) by lia.
      destruct (Z.leb_spec BS (c + 1)); reflexivity.
Qed.

Hypothesis Hpad :
  Iso15765.use_zero_padding_ s = true ->
  L + Z.of_nat (iso_CF_count s p) * C <= 4095.

Lemma iso_CF_reaches_receiver sn dl c :
  0 <= dl < LMsg.size p -> 0 <= c ->
  (Iso15765.CF_BS_ r <> 0 -> c < Iso15765.CF_BS_ r) ->
  (Iso15765.use_zero_padding_ s = true -> dl + C <= 4095) ->
  Iso15765.receive (iso_CF_wire s p sn dl) id false
      (iso_rx_state r p (Z.land sn 15) dl c) =
    if LMsg.size p <=? dl + C
    then (Iso15765.set_CF_frame []
            (Iso15765.set_CF_DL 0
               (Iso15765.set_timer_RX_CF Util.timer_stop
                  (iso_rx_state r p (Z.land (u8 (sn + 1)) 15) dl c))),
          [UpperReceive p id false])
    else (iso_rx_state r p (Z.land (u8 (sn + 1)) 15) (dl + C)
            (if Iso15765.CF_BS_ r =? 0 then c
             else if Iso15765.CF_BS_ r <=? c + 1 then 0 else c + 1),
          if negb (Iso15765.CF_BS_ r =? 0) && (Iso15765.CF_BS_ r <=? c + 1)
          then Iso15765.send_FC Iso15765.FC_CTS id r else []).
Proof.
  intros Hdl Hc Hblock Hfit.
  pose proof (CF_len_bounds s) as HC.
  set (b := u8 (Z.lor Iso15765.NPCI_CONSECUTIVE_FRAME (Z.land sn 15))).
  set (data := take (Z.to_nat C) (drop (Z.to_nat dl) p)).
  destruct (iso_accepted_peer s (iso_rx_state r p (Z.land sn 15) dl c)
              (b :: data) (iso_rx_state_peer _ _ _)) as (k & Hacc & Hk0 & Hkb).
  destruct (pci_byte 0x20 (Z.land sn 15)) as (Hb & Hhigh & _).
  { auto. } { rewrite land15_mod. pose proof (Z.mod_pos_bound sn 16). lia. }
  assert (Hlen : Z.of_nat (length data) = Z.min C (LMsg.size p - dl)).
  { unfold data, LMsg.size in *. rewrite length_take, length_drop. lia. }
  unfold iso_CF_wire. fold b data.
  rewrite (iso_dispatch _ _ _ id false Hacc 0x20)
    by (cbn [app LMsg.at_ nth]; unfold b;
        change Iso15765.NPCI_CONSECUTIVE_FRAME with 0x20;
        rewrite Hb; exact Hhigh).
  change (0x20 =? Iso15765.NPCI_SINGLE_FRAME) with false.
  change (0x20 =? Iso15765.NPCI_FIRST_FRAME) with false.
  change (0x20 =? Iso15765.NPCI_CONSECUTIVE_FRAME) with true.
  cbv iota. cbn [app].
  apply iso_rx_step; try assumption.
  - fold data. cbn [length] in Hkb.
    unfold Iso15765.CF_len in *. destruct (Iso15765.use_ext_adr_ s);
      unfold Iso15765.CF_DATALENGTH_EXT, Iso15765.CF_DATALENGTH in *; lia.
  - fold data. cbn [length] in Hkb.
    destruct (Iso15765.use_zero_padding_ s) eqn:Hp.
    + specialize (Hfit eq_refl).
      unfold Iso15765.CF_len in *. destruct (Iso15765.use_ext_adr_ s);
        unfold Iso15765.CF_DATALENGTH_EXT, Iso15765.CF_DATALENGTH in *; lia.
    + rewrite (Hk0 eq_refl). lia.
Qed.

Lemma iso_round_middle sn dl c :
  0 <= dl -> dl + C < LMsg.size p -> 0 <= c ->
  (Iso15765.CF_BS_ r <> 0 -> c < Iso15765.CF_BS_ r) ->
  iso_round (iso_tx_state s r p id sn dl c)
            (iso_rx_state r p (Z.land sn 15) dl c) =
    (iso_tx_state s r p id (u8 (sn + 1)) (dl + C)
       (if Iso15765.CF_BS_ r =? 0 then c
        else if Iso15765.CF_BS_ r <=? c + 1 then 0 else c + 1),
     iso_rx_state r p (Z.land (u8 (sn + 1)) 15) (dl + C)
       (if Iso15765.CF_BS_ r =? 0 then c
        else if Iso15765.CF_BS_ r <=? c + 1 then 0 else c + 1),
     if negb (Iso15765.CF_BS_ r =? 0) && (Iso15765.CF_BS_ r <=? c + 1)
     then Iso15765.send_FC Iso15765.FC_CTS id r else []).
Proof.
  intros Hdl Hmid Hc Hblock.
  pose proof (CF_len_bounds s) as HC.
  unfold iso_round. rewrite iso_tx_step by (try assumption; lia).
  destruct (Z.leb_spec (LMsg.size p) (dl + C)) as [?|_]; [lia|].
  unfold Iso15765.indication. cbn [iso_deliver].
  rewrite iso_CF_reaches_receiver by (try assumption; lia).
  destruct (Z.leb_spec (LMsg.size p) (dl + C)) as [?|_]; [lia|].
  rewrite app_nil_r.
  destruct (Z.eqb_spec (Iso15765.CF_BS_ r) 0) as [Hz|Hnz]; cbn [negb andb].
  - cbn [iso_deliver]. clear. destruct s. iso_setters. reflexivity.
  - destruct (Z.leb_spec (Iso15765.CF_BS_ r) (c + 1)).
    + rewrite iso_FC_reaches_sender.
      * clear. destruct s. iso_setters. reflexivity.
      * destruct Hrs as [H1 H2]. clear - H1 H2. split; destruct s; exact H1 || exact H2.
    + cbn [iso_deliver]. clear. destruct s. iso_setters. reflexivity.
Qed.

Lemma iso_round_last sn dl c :
  0 <= dl < LMsg.size p -> LMsg.size p <= dl + C -> 0 <= c ->
  (Iso15765.CF_BS_ r <> 0 -> c < Iso15765.CF_BS_ r) ->
  (Iso15765.use_zero_padding_ s = true -> dl + C <= 4095) ->
  iso_round (iso_tx_state s r p id sn dl c)
            (iso_rx_state r p (Z.land sn 15) dl c) =
    (Iso15765.set_tx_ev true
       (Iso15765.set_CF_frame []
          (Iso15765.set_CF_DL 0
             (Iso15765.set_tx_ev false
                (Iso15765.set_timer_TX_CF Util.timer_stop
                   (iso_tx_state s r p id (u8 (sn + 1)) dl c))))),
     Iso15765.set_CF_frame []
       (Iso15765.set_CF_DL 0
          (Iso15765.set_timer_RX_CF Util.timer_stop
             (iso_rx_state r p (Z.land (u8 (sn + 1)) 15) dl c))),
     [UpperReceive p id false]).
Proof.
  intros Hdl Hlast Hc Hblock Hfit.
  unfold iso_round. rewrite iso_tx_step by assumption.
  destruct (Z.leb_spec (LMsg.size p) (dl + C)) as [_|?]; [|lia].
  unfold Iso15765.indication. cbn [iso_deliver].
  rewrite iso_CF_reaches_receiver by assumption.
  destruct (Z.leb_spec (LMsg.size p) (dl + C)) as [_|?]; [|lia].
  reflexivity.
Qed.

Lemma iso_rounds_finish n : forall sn dl c,
  0 <= dl ->
  dl + Z.of_nat n * C < LMsg.size p <= dl + Z.of_nat (S n) * C ->
  0 <= c ->
  (Iso15765.CF_BS_ r <> 0 -> c < Iso15765.CF_BS_ r) ->
  (Iso15765.use_zero_padding_ s = true -> dl + Z.of_nat (S n) * C <= 4095) ->
  exists s' r' evs,
    iso_rounds (S n) (iso_tx_state s r p id sn dl c)
                     (iso_rx_state r p (Z.land sn 15) dl c) = (s', r', evs) /\
    iso_upper evs = [UpperReceive p id false] /\
    (Iso15765.CF_DL_ s' = 0 /\ Iso15765.CF_frame_ s' = [] /\
     Iso15765.timer_TX_CF_ s' = None /\ Iso15765.timer_TX_FC_ s' = None) /\
    (Iso15765.CF_DL_ r' = 0 /\ Iso15765.CF_frame_ r' = [] /\
     Iso15765.timer_RX_CF_ r' = None).
Proof.
  pose proof (CF_len_bounds s) as HC.
  induction n as [|n IH]; intros sn dl c Hdl Hn Hc Hblock Hfit.
  - change (iso_rounds 1 ?a ?b)
      with (let '(s1, r1, e1) := iso_round a b in
            let '(s2, r2, e2) := iso_rounds 0 s1 r1 in (s2, r2, e1 ++ e2)).
    rewrite iso_round_last
      by (try assumption; try lia; intros Hp; specialize (Hfit Hp); lia).
    cbn [iso_rounds app]. do 3 eexists. split; [reflexivity|].
    split; [reflexivity|]. clear. split; [destruct s|destruct r]; repeat split.
  - change (iso_rounds (S (S n)) ?a ?b)
      with (let '(s1, r1, e1) := iso_round a b in
            let '(s2, r2, e2) := iso_rounds (S n) s1 r1 in (s2, r2, e1 ++ e2)).
    rewrite iso_round_middle by (try assumption; lia).
    set (c' := if Iso15765.CF_BS_ r =? 0 then c
               else if Iso15765.CF_BS_ r <=? c + 1 then 0 else c + 1).
    destruct (IH (u8 (sn + 1)) (dl + C) c') as (s' & r' & evs & Hrun & Hup & Hs & Hr).
    + lia.
    + lia.
    + unfold c'. repeat iso_case; lia.
    + unfold c'. repeat iso_case; lia.
    + intros Hp. specialize (Hfit Hp). lia.
    + rewrite Hrun. do 3 eexists. split; [reflexivity|].
      split; [|split; assumption].
      unfold iso_upper in *. rewrite List.filter_app, Hup.
      destruct (negb (Iso15765.CF_BS_ r =? 0) && (Iso15765.CF_BS_ r <=? c + 1));
        reflexivity.
Qed.

Lemma iso_CF_count_bounds :
  exists n, iso_CF_count s p = S n /\
    L + Z.of_nat n * C < LMsg.size p <= L + Z.of_nat (S n) * C.
Proof.
  pose proof (iso_lens s) as [HSF HFF]. pose proof (CF_len_bounds s) as HC.
  unfold iso_CF_count.
  set (q := (LMsg.size p - L + C - 1) / C).
  assert (Hq : C * q <= LMsg.size p - L + C - 1 < C * (q + 1)).
  { unfold q. pose proof (Z.mul_div_le (LMsg.size p - L + C - 1) C).
    pose proof (Z.mul_succ_div_gt (LMsg.size p - L + C - 1) C). lia. }
  assert (1 <= q) by nia.
  exists (Z.to_nat (q - 1)). split; [lia|].
  rewrite Nat2Z.inj_succ, Z2Nat.id by lia. nia.
Qed.

Lemma iso_transfer_complete :
  exists s' r' evs,
    iso_transfer p id s r = (s', r', evs) /\
    iso_upper evs = [UpperReceive p id false] /\
    (Iso15765.CF_DL_ s' = 0 /\ Iso15765.CF_frame_ s' = [] /\
     Iso15765.timer_TX_CF_ s' = None /\ Iso15765.timer_TX_FC_ s' = None) /\
    (Iso15765.CF_DL_ r' = 0 /\ Iso15765.CF_frame_ r' = [] /\
     Iso15765.timer_RX_CF_ r' = None).
Proof.
  pose proof (FF_len_bounds s) as HL.
  destruct iso_CF_count_bounds as (n & Hcount & Hn).
  unfold iso_transfer. rewrite iso_start_state, Hcount.
  change (iso_rx_state r p 1 L 0) with (iso_rx_state r p (Z.land 1 15) L 0).
  destruct (iso_rounds_finish n 1 L 0) as (s' & r' & evs & Hrun & Hup & Hs & Hr);
    try lia.
  - intros Hp. specialize (Hpad Hp). rewrite Hcount in Hpad. lia.
  - rewrite Hrun. do 3 eexists. split; [reflexivity|].
    split; [|split; assumption].
    unfold iso_upper in *. rewrite List.filter_app, Hup. reflexivity.
Qed.

End iso_transfer.

(** X9: round trip of a segmented message.  An idle sender is given a
    payload [p] too long for a Single Frame (up to 4095 bytes) that the
    receiver's MAX_DL admits; the two layers are peers in both
    directions, every frame is accepted below and acknowledged with
    tx_done, and each frame reaches the other side.  After the First
    Frame and one round per Consecutive Frame the receiver has handed
    [p] upward exactly once and raised nothing else, whatever block
    size and STmin it announces, and both layers are back at rest: no
    transfer in progress, buffers empty, the STmin, N_Bs and N_Cr
    timers stopped.  With zero padding on the sender's side the padded
    last frame must still fit the receive buffer of 4095 bytes. *)
Theorem iso_segmented_round_trip :
  forall (s r : Iso15765.iso15765) (p : list byte) (id : eid),
    Iso15765.CF_DL_ s = 0 ->
    Iso15765.SF_len s < LMsg.size p ->
    LMsg.size p <= 4095 ->
    LMsg.size p <= Iso15765.CF_MAX_DL_ r ->
    iso_peer s r -> iso_peer r s ->
    0 <= Iso15765.CF_BS_ r <= 255 ->
    (Iso15765.use_zero_padding_ s = true ->
     Iso15765.FF_len s + Z.of_nat (iso_CF_count s p) * Iso15765.CF_len s
       <= 4095) ->
    let '(s', r', evs) := iso_transfer p id s r in
    iso_upper evs = [UpperReceive p id false] /\
    (Iso15765.CF_DL_ s' = 0 /\ Iso15765.CF_frame_ s' = [] /\
     Iso15765.timer_TX_CF_ s' = None /\ Iso15765.timer_TX_FC_ s' = None) /\
    (Iso15765.CF_DL_ r' = 0 /\ Iso15765.CF_frame_ r' = [] /\
     Iso15765.timer_RX_CF_ r' = None).
Proof.
  intros s r p id Hidle Hlong Hmax Hrmax Hsr Hrs Hbs Hpad.
  destruct (iso_transfer_complete s r p id Hidle Hlong Hmax Hrmax Hsr Hrs Hbs Hpad)
    as (s' & r' & evs & -> & H).
  exact H.
Qed.

(** Twenty bytes between two layers with extended addressing and zero
    padding, the receiver announcing a block size of 2. *)
Lemma iso_segmented_round_trip_witness :
  let s := Iso15765.extended_addressing true 0x11 0x22
             (Iso15765.set_zero_padding true (Iso15765.ctor true 0 0 4095)) in
  let r := Iso15765.extended_addressing true 0x22 0x11
             (Iso15765.set_zero_padding true (Iso15765.ctor true 10 2 4095)) in
  let p := [1; 2; 3; 4; 5; 6; 7; 8; 9; 10; 11; 12; 13; 14; 15; 16; 17; 18; 19; 20] in
  let '(s', r', evs) := iso_transfer p eid_any s r in
  iso_upper evs = [UpperReceive p eid_any false] /\
  (Iso15765.CF_DL_ s' = 0 /\ Iso15765.CF_frame_ s' = [] /\
   Iso15765.timer_TX_CF_ s' = None /\ Iso15765.timer_TX_FC_ s' = None) /\
  (Iso15765.CF_DL_ r' = 0 /\ Iso15765.CF_frame_ r' = [] /\
   Iso15765.timer_RX_CF_ r' = None).
Proof.
  cbv zeta.
  apply (iso_segmented_round_trip
           (Iso15765.extended_addressing true 0x11 0x22
              (Iso15765.set_zero_padding true (Iso15765.ctor true 0 0 4095)))
           (Iso15765.extended_addressing true 0x22 0x11
              (Iso15765.set_zero_padding true (Iso15765.ctor true 10 2 4095)))).
  - reflexivity.
  - vm_compute. reflexivity.
  - vm_compute. discriminate.
  - vm_compute. discriminate.
  - split; reflexivity.
  - split; reflexivity.
  - vm_compute. split; discriminate.
  - intros _. vm_compute. discriminate.
Defined.

(** ** ISO 15765-2: the sender between two Flow Control frames *)

Lemma iso_tx_round_paced s r p id sn dl c :
  LMsg.size p <= 4095 -> 0 <= Iso15765.CF_BS_ r <= 255 ->
  0 <= dl -> dl + Iso15765.CF_len s < LMsg.size p ->
  0 <= c < Iso15765.CF_BS_ r ->
  iso_tx_round (iso_tx_state s r p id sn dl c) =
    (iso_tx_state s r p id (u8 (sn + 1)) (dl + Iso15765.CF_len s) (c + 1),
     [LowerSend (iso_CF_wire s p sn dl) id false]).
Proof.
  intros Hmax Hbs Hdl Hmid Hc.
  pose proof (CF_len_bounds s) as HC.
  unfold iso_tx_round. rewrite iso_tx_step by (try assumption; lia).
  destruct (Z.leb_spec (LMsg.size p) (dl + Iso15765.CF_len s)) as [?|_]; [lia|].
  destruct (Z.eqb_spec (Iso15765.CF_BS_ r) 0) as [?|_]; [lia|].
  unfold Iso15765.indication. apply pair_equal_spec. split; [|reflexivity].
  clear. destruct s. iso_setters. reflexivity.
Qed.

Lemma iso_tx_rounds_paced s r p id n : forall sn dl c,
  LMsg.size p <= 4095 -> 0 <= Iso15765.CF_BS_ r <= 255 ->
  0 <= dl -> dl + Z.of_nat n * Iso15765.CF_len s < LMsg.size p ->
  0 <= c -> c + Z.of_nat n <= Iso15765.CF_BS_ r ->
  exists sn' evs,
    iso_tx_rounds n (iso_tx_state s r p id sn dl c) =
      (iso_tx_state s r p id sn' (dl + Z.of_nat n * Iso15765.CF_len s)
         (c + Z.of_nat n), evs) /\
    length evs = n /\ Forall (is_frame_for id) evs.
Proof.
  pose proof (CF_len_bounds s) as HC.
  induction n as [|n IH]; intros sn dl c Hmax Hbs Hdl Hmid Hc Hblock.
  - exists sn, []. cbn [iso_tx_rounds Z.of_nat].
    rewrite Z.mul_0_l, !Z.add_0_r. repeat split. constructor.
  - cbn [iso_tx_rounds].
    rewrite iso_tx_round_paced by (try assumption; lia).
    destruct (IH (u8 (sn + 1)) (dl + Iso15765.CF_len s) (c + 1))
      as (sn' & evs & Hrun & Hlen & Hall); try assumption; try lia.
    rewrite Hrun. exists sn', (LowerSend (iso_CF_wire s p sn dl) id false :: evs).
    split; [|split].
    + cbn [app].
      replace (dl + Z.of_nat (S n) * Iso15765.CF_len s)
        with (dl + Iso15765.CF_len s + Z.of_nat n * Iso15765.CF_len s) by lia.
      replace (c + Z.of_nat (S n)) with (c + 1 + Z.of_nat n) by lia.
      reflexivity.
    + cbn [length]. by rewrite Hlen.
    + constructor; [by eexists|exact Hall].
Qed.

(** X10: the sender between two Flow Control frames.  After a
    clear-to-send frame that announces the block size BS > 0 the
    counter of the sender is 0; left alone by the receiver, the sender
    hands BS + 1 Consecutive Frames to the lower layer, one per STmin
    expiry, and only then stops its STmin timer and waits for the next
    Flow Control frame under N_Bs; a further expiry of the STmin timer
    then sends nothing. *)
Theorem iso_block_then_wait :
  forall (s r : Iso15765.iso15765) (p : list byte) (id : eid) (sn dl : Z),
    let BS := Iso15765.CF_BS_ r in
    let C := Iso15765.CF_len s in
    0 < BS <= 254 ->
    0 <= dl -> dl + (BS + 1) * C < LMsg.size p -> LMsg.size p <= 4095 ->
    let '(s', evs) :=
      iso_tx_rounds (Z.to_nat (BS + 1)) (iso_tx_state s r p id sn dl 0) in
    Z.of_nat (length evs) = BS + 1 /\
    Forall (is_frame_for id) evs /\
    Iso15765.CF_DL_ s' = dl + (BS + 1) * C /\
    Iso15765.timer_TX_CF_ s' = None /\
    Iso15765.timer_TX_FC_ s' = Some Iso15765.N_Bs /\
    Iso15765.expire_TX_CF false true s' = (s', []).
Proof.
  intros s r p id sn dl BS C HBS Hdl Hdata Hmax. subst BS C.
  pose proof (CF_len_bounds s) as HC.
  set (BS := Iso15765.CF_BS_ r) in *. set (C := Iso15765.CF_len s) in *.
  assert (Hn : Z.of_nat (Z.to_nat BS) = BS) by lia.
  replace (Z.to_nat (BS + 1)) with (Z.to_nat BS + 1)%nat by lia.
  assert (Hsplit : forall n m t,
            iso_tx_rounds (n + m) t =
              let '(t1, e1) := iso_tx_rounds n t in
              let '(t2, e2) := iso_tx_rounds m t1 in (t2, e1 ++ e2)).
  { induction n as [|n IH]; intros m t.
    - cbn [iso_tx_rounds Nat.add]. by destruct (iso_tx_rounds m t).
    - cbn [iso_tx_rounds Nat.add]. destruct (iso_tx_round t) as [t1 e1].
      rewrite IH. destruct (iso_tx_rounds n t1) as [t2 e2].
      destruct (iso_tx_rounds m t2) as [t3 e3]. by rewrite app_assoc. }
  rewrite Hsplit.
  destruct (iso_tx_rounds_paced s r p id (Z.to_nat BS) sn dl 0)
    as (sn' & evs & Hrun & Hlen & Hall);
    fold BS C; rewrite ?Hn; try lia; try nia.
  rewrite Hrun. cbn [iso_tx_rounds]. unfold iso_tx_round.
  rewrite Hn, Z.add_0_l.
  rewrite iso_tx_step_block; fold BS C; try lia; try nia.
  unfold Iso15765.indication. rewrite app_nil_r.
  split; [rewrite length_app, Hlen; cbn [length]; lia|].
  split; [apply Forall_app; split; [exact Hall|]; constructor;
            [by eexists|constructor]|].
  clearbody BS. subst C. clear. destruct s. iso_setters.
  repeat split. lia.
Qed.

(** The sender of the CF test (block size 3) with 100 bytes to send. *)
Lemma iso_block_then_wait_witness :
  let s := Iso15765.ctor true 50 3 4095 in
  let p := repeat 0x55 100 in
  let '(s', evs) :=
    iso_tx_rounds 4 (iso_tx_state s s p eid_any 1 6 0) in
  Z.of_nat (length evs) = 4 /\
  Forall (is_frame_for eid_any) evs /\
  Iso15765.CF_DL_ s' = 6 + 4 * 7 /\
  Iso15765.timer_TX_CF_ s' = None /\
  Iso15765.timer_TX_FC_ s' = Some Iso15765.N_Bs /\
  Iso15765.expire_TX_CF false true s' = (s', []).
Proof.
  cbv zeta.
  apply (iso_block_then_wait (Iso15765.ctor true 50 3 4095)
           (Iso15765.ctor true 50 3 4095) (repeat 0x55 100) eid_any 1 6);
    vm_compute; try split; discriminate || reflexivity.
Defined.

(** ** ISO 15765-2: errors below and closing *)

(** X11: a Consecutive Frame the lower layer rejects.  The STmin timer
    expires while the tx_done latch is set; the frame is handed down and
    rejected.  The sender keeps its position (offset, sequence number,
    buffer), re-arms the STmin timer with the peer's STmin and has
    consumed the latch.  When that timer expires and no tx_done arrives
    within N_As, nothing is handed down, the transfer is aborted (offset
    0, buffer cleared, no timer armed) and tx_timeout is indicated. *)
Theorem iso_CF_rejected_then_timeout :
  forall (s : Iso15765.iso15765) (ok : bool),
    Iso15765.timer_TX_CF_ s <> None ->
    Iso15765.tx_ev_ s = true ->
    let '(s1, e1) := Iso15765.expire_TX_CF false false s in
    let '(s2, e2) := Iso15765.expire_TX_CF false ok s1 in
    (exists d, e1 = [LowerSend d (Iso15765.CF_eid_ s) false]) /\
    (Iso15765.CF_DL_ s1 = Iso15765.CF_DL_ s /\
     Iso15765.CF_SN_ s1 = Iso15765.CF_SN_ s /\
     Iso15765.CF_frame_ s1 = Iso15765.CF_frame_ s /\
     Iso15765.timer_TX_CF_ s1 = Some (Iso15765.FC_STmin_ s) /\
     Iso15765.tx_ev_ s1 = false) /\
    e2 = [UpperIndication tx_timeout eid_any] /\
    (Iso15765.CF_DL_ s2 = 0 /\ Iso15765.CF_frame_ s2 = [] /\
     Iso15765.timer_TX_CF_ s2 = None /\ Iso15765.timer_TX_FC_ s2 = Iso15765.timer_TX_FC_ s).
Proof.
  intros s ok Htimer Hev.
  unfold Iso15765.expire_TX_CF, Iso15765.timer_func_TX_CF, Iso15765.send_CF,
    Util.wait_for, Util.timer_start, Util.timer_stop.
  destruct s as [? ? ? ? ? ? ? ? ? ? ? ? ? ? ? ? ? tcf ? ? ev].
  iso_fields. subst ev. destruct tcf as [t|]; [|contradiction].
  cbv zeta. iso_fields. cbn [orb]. iso_fields. cbn [orb].
  repeat split. eexists. reflexivity.
Qed.

Lemma iso_CF_rejected_then_timeout_witness :
  let '(s1, e1) := Iso15765.expire_TX_CF false false
                     (iso_tx_state (Iso15765.ctor true 50 3 4095)
                        (Iso15765.ctor true 50 3 4095)
                        [1; 2; 3; 4; 5; 6; 7; 8] eid_any 1 6 0) in
  let '(s2, e2) := Iso15765.expire_TX_CF false true s1 in
  (exists d, e1 = [LowerSend d eid_any false]) /\
  (Iso15765.CF_DL_ s1 = 6 /\
   Iso15765.CF_SN_ s1 = 1 /\
   Iso15765.CF_frame_ s1 = [1; 2; 3; 4; 5; 6; 7; 8] /\
   Iso15765.timer_TX_CF_ s1 = Some 50 /\
   Iso15765.tx_ev_ s1 = false) /\
  e2 = [UpperIndication tx_timeout eid_any] /\
  (Iso15765.CF_DL_ s2 = 0 /\ Iso15765.CF_frame_ s2 = [] /\
   Iso15765.timer_TX_CF_ s2 = None /\ Iso15765.timer_TX_FC_ s2 = None).
Proof.
  apply (iso_CF_rejected_then_timeout
           (iso_tx_state (Iso15765.ctor true 50 3 4095)
              (Iso15765.ctor true 50 3 4095)
              [1; 2; 3; 4; 5; 6; 7; 8] eid_any 1 6 0) true).
  - vm_compute. discriminate.
  - reflexivity.
Defined.

(** X12: close() and the timers.  close() stops the STmin, N_Bs and
    N_Cr timers and closes the lower layer, so that no expiry has any
    effect afterwards; it leaves the offset of a transfer in progress
    as it is, and it is the next accepted open() that sets it back to
    0, whatever the lower layer answers. *)
Theorem iso_close_disarms_timers :
  forall (s : Iso15765.iso15765) (id id' : eid) (a b ok : bool)
         (address : option string),
    Iso15765.upper_ s = true ->
    let '(s1, e1) := Iso15765.close id s in
    let '(res, s2, e2) := Iso15765.open ok address id' s1 in
    e1 = [LowerClose id] /\
    Iso15765.expire_TX_CF a b s1 = (s1, []) /\
    Iso15765.expire_TX_FC s1 = (s1, []) /\
    Iso15765.expire_RX_CF s1 = (s1, []) /\
    Iso15765.CF_DL_ s1 = Iso15765.CF_DL_ s /\
    res = ok /\ e2 = [LowerOpen address id'] /\ Iso15765.CF_DL_ s2 = 0.
Proof.
  intros s id id' a b ok address Hup.
  unfold Iso15765.close, Iso15765.open, Iso15765.expire_TX_CF,
    Iso15765.expire_TX_FC, Iso15765.expire_RX_CF, Util.timer_stop.
  destruct s. iso_fields. subst. cbn [negb]. repeat split.
Qed.

Lemma iso_close_disarms_timers_witness :
  let '(s1, e1) := Iso15765.close eid_any iso_waiting_for_FC in
  let '(res, s2, e2) := Iso15765.open true None eid_any s1 in
  e1 = [LowerClose eid_any] /\
  Iso15765.expire_TX_CF false true s1 = (s1, []) /\
  Iso15765.expire_TX_FC s1 = (s1, []) /\
  Iso15765.expire_RX_CF s1 = (s1, []) /\
  Iso15765.CF_DL_ s1 = 6 /\
  res = true /\ e2 = [LowerOpen None eid_any] /\ Iso15765.CF_DL_ s2 = 0.
Proof.
  apply (iso_close_disarms_timers iso_waiting_for_FC eid_any eid_any
           false true true None).
  reflexivity.
Defined.

(** X13: what receive() hands to the lower layer.  Whatever frame
    arrives in whatever state, the only frame receive() ever sends down
    is the clear-to-send Flow Control frame 30 BS STmin with the
    layer's own parameters (addressed and padded as configured), for
    the endpoint the frame came from; it sends neither a WAIT nor an
    OVERFLOW flow status, and every indication and delivery upward
    carries the endpoint of the frame. *)
Theorem iso_receive_sends_only_CTS :
  forall (s : Iso15765.iso15765) (data : list byte) (id : eid) (more : bool)
         (e : event),
    In e (snd (Iso15765.receive data id more s)) ->
    match e with
    | LowerSend d id' m =>
        d = Iso15765.zero_pad s
              (Iso15765.add_target s
                 [0x30; Iso15765.CF_BS_ s; Iso15765.CF_STmin_ s]) /\
        id' = id /\ m = false
    | UpperReceive _ id' _ => id' = id
    | UpperIndication _ id' => id' = id
    | _ => False
    end.
Proof.
  intros s data id more e.
  unfold Iso15765.receive, Iso15765.receive_SF, Iso15765.receive_FF,
    Iso15765.receive_CF, Iso15765.receive_FC, Iso15765.send_FC,
    Util.timer_start, Util.timer_stop, LMsg.push_back.
  destruct s. iso_fields. cbv zeta. iso_fields.
  repeat match goal with
         | |- context [if ?c then _ else _] => destruct c
         end;
    cbn [snd In app]; intros H;
    repeat match goal with
           | H : _ \/ _ |- _ => destruct H as [H|H]
           | H : False |- _ => destruct H
           end;
    subst e; repeat split.
Qed.

Lemma iso_receive_sends_only_CTS_witness :
  Iso15765.zero_pad (Iso15765.ctor true 50 3 4095)
    (Iso15765.add_target (Iso15765.ctor true 50 3 4095) [0x30; 3; 50])
    = [0x30; 3; 50] /\ eid_any = eid_any /\ false = false.
Proof.
  apply (iso_receive_sends_only_CTS (Iso15765.ctor true 50 3 4095)
           [0x10; 0x08; 1; 2; 3; 4; 5; 6] eid_any false
           (LowerSend [0x30; 3; 50] eid_any false)).
  vm_compute. left. reflexivity.
Defined.

(** X14: what send() leaves behind.  A send() that returns false,
    because the payload is longer than 4095 bytes, a transfer is in
    progress or the lower layer rejects the frame, leaves the offset of
    the transfer and all three timers as they were: a rejected First
    Frame does not leave the sender busy.  A send() that returns true
    was accepted below, found the sender idle and handed down exactly
    one frame; it arms N_Bs only for a segmented message and never
    touches the STmin and N_Cr timers. *)
Theorem iso_send_outcome :
  forall (s : Iso15765.iso15765) (data : list byte) (id : eid)
         (more ok : bool),
    let '(res, s', ev) := Iso15765.send ok data id more s in
    (res = false ->
       Iso15765.CF_DL_ s' = Iso15765.CF_DL_ s /\
       Iso15765.timer_TX_FC_ s' = Iso15765.timer_TX_FC_ s /\
       (ok = true -> s' = s /\ ev = [])) /\
    (res = true ->
       ok = true /\ Iso15765.CF_DL_ s = 0 /\ LMsg.size data <= 4095 /\
       (exists d, ev = [LowerSend d id false]) /\
       (if LMsg.size data <=? Iso15765.SF_len s then s' = s
        else Iso15765.CF_DL_ s' = Iso15765.FF_len s /\
             Iso15765.CF_frame_ s' = data /\
             Iso15765.timer_TX_FC_ s' = Some Iso15765.N_Bs)) /\
    Iso15765.timer_TX_CF_ s' = Iso15765.timer_TX_CF_ s /\
    Iso15765.timer_RX_CF_ s' = Iso15765.timer_RX_CF_ s.
Proof.
  intros s data id more ok.
  unfold Iso15765.send, Iso15765.CF_MAX_FRAME_SIZE, Util.timer_start,
    LMsg.clear.
  destruct (Z.ltb_spec 4095 (LMsg.size data)) as [Hbig|Hfit].
  { repeat split; intros; discriminate || reflexivity. }
  destruct (Z.eqb_spec (Iso15765.CF_DL_ s) 0) as [Hidle|Hbusy]; cbn [negb].
  2: { repeat split; intros; discriminate || reflexivity. }
  destruct (Z.leb_spec (LMsg.size data) (Iso15765.SF_len s)) as [HSF|HFF].
  { destruct ok; repeat split; intros;
      try discriminate; try reflexivity; try assumption.
    eexists. reflexivity. }
  cbv zeta. unfold Iso15765.FF_len.
  destruct s. iso_fields. subst.
  destruct ok; repeat split; intros;
    try discriminate; try reflexivity; try assumption.
  eexists. reflexivity.
Qed.

(** ** The serial communicator *)

(** X15: open() of the serial port is all or nothing.  With an upper
    layer and a non-empty address, open() returns true exactly when
    CreateFile, SetCommState, SetCommTimeouts and the thread creation
    all succeed; then the port and the worker thread are up, no
    transmission is pending and connected is the last thing indicated.
    In every other case both handles are invalid again afterwards and
    connected is not indicated. *)
Theorem serial_open_all_or_nothing :
  forall (os : Serial.os_answers) (c : Ascii.ascii) (adr : string) (id : eid)
         (s : Serial.serial),
    Serial.upper_ s = true ->
    let '(ok, s', ev) := Serial.open os (Some (String c adr)) id s in
    ok = Serial.create_file_ok os && Serial.set_comm_state_ok os &&
         Serial.set_comm_timeouts_ok os && Serial.begin_thread_ok os /\
    Serial.is_open s' = ok /\
    Serial.handle_is_invalid (Serial.thread_handle_ s') = negb ok /\
    (ok = true ->
       Serial.thread_handle_ s' = Serial.VALID_HANDLE /\
       Serial.tx_busy_ s' = false /\
       last ev = Some (Serial.Up (UpperIndication connected eid_any))) /\
    (ok = false ->
       ~ In (Serial.Up (UpperIndication connected eid_any)) ev).
Proof.
  intros [cf scs sct bt] c adr id [up th com busy] Hup.
  cbn [Serial.upper_] in Hup. subst up.
  destruct cf, scs, sct, bt, th, com; vm_compute;
    repeat split; try discriminate; try reflexivity;
    intros; intuition discriminate.
Qed.

Lemma serial_open_all_or_nothing_witness :
  let '(ok, s', ev) :=
    Serial.open (Serial.mk_os true true true true) (Some "COM1"%string)
      eid_any (Serial.ctor true) in
  ok = true /\
  Serial.is_open s' = ok /\
  Serial.handle_is_invalid (Serial.thread_handle_ s') = negb ok /\
  (ok = true ->
     Serial.thread_handle_ s' = Serial.VALID_HANDLE /\
     Serial.tx_busy_ s' = false /\
     last ev = Some (Serial.Up (UpperIndication connected eid_any))) /\
  (ok = false ->
     ~ In (Serial.Up (UpperIndication connected eid_any)) ev).
Proof.
  apply (serial_open_all_or_nothing (Serial.mk_os true true true true)
           (Ascii.ascii_of_nat 67) "OM1"%string eid_any (Serial.ctor true)).
  reflexivity.
Defined.

(** X16: close() of the serial port.  Afterwards both handles are
    invalid and a second close() does nothing: no operating system
    call, no indication.  disconnected is indicated exactly when the
    port was open, and the worker thread is stopped before the port is
    purged and closed. *)
Theorem serial_close_idempotent :
  forall (s : Serial.serial),
    let '(s1, e1) := Serial.close s in
    Serial.close s1 = (s1, []) /\
    Serial.is_open s1 = false /\
    Serial.thread_handle_ s1 = Serial.INVALID_HANDLE_VALUE /\
    Serial.tx_busy_ s1 = Serial.tx_busy_ s /\
    e1 = (if Serial.handle_is_invalid (Serial.thread_handle_ s) then []
          else [Serial.Os Serial.TerminateThread]) ++
         (if Serial.is_open s
          then [Serial.Os Serial.PurgeComm; Serial.Os Serial.CloseHandle;
                Serial.Up (UpperIndication disconnected eid_any)]
          else []).
Proof. intros [up [] [] busy]; repeat split. Qed.

(** X17: the transmit latch of the serial port.  On an open port with
    no transmission pending, send() hands the bytes of the message to
    WriteFile once and sets tx_busy_ exactly when it returns true (all
    bytes written at once, or the write pending).  While tx_busy_ is
    set every further send() is refused without a call to WriteFile;
    the transmit event of the worker thread clears it and indicates
    tx_done or tx_error, after which the next send() reaches WriteFile
    again. *)
Theorem serial_tx_busy_latch :
  forall (s : Serial.serial) (data data' : list byte)
         (w w' : Serial.write_answer) (ok : bool) (n : Z),
    Serial.is_open s = true ->
    Serial.tx_busy_ s = false ->
    let '(res, s1, bufs) := Serial.send w data s in
    bufs = [data] /\
    Serial.tx_busy_ s1 = res /\
    res = match w with
          | Serial.written k => k =? LMsg.size data
          | Serial.write_pending => true
          | Serial.write_failed => false
          end /\
    (res = true ->
       Serial.send w' data' s1 = (false, s1, []) /\
       let '(s2, ev) := Serial.worker_transmit ok n s1 in
       s2 = s /\
       ev = [Serial.Up (UpperIndication
                          (if ok && negb (n =? 0) then tx_done else tx_error)
                          eid_any)] /\
       snd (Serial.send w' data' s2) = [data']).
Proof.
  intros [up th com busy] data data' w w' ok n Hopen Hbusy.
  cbn [Serial.tx_busy_] in Hbusy. subst busy.
  assert (Hcom : Serial.handle_is_invalid com = false).
  { unfold Serial.is_open in Hopen. cbn [Serial.com_handle_] in Hopen.
    by destruct (Serial.handle_is_invalid com). }
  assert (Hrefused : Serial.send w' data' (Serial.mk up th com true) =
                       (false, Serial.mk up th com true, [])).
  { unfold Serial.send, Serial.is_open.
    cbn [Serial.tx_busy_ Serial.com_handle_]. by rewrite Hcom. }
  assert (Hnext : snd (Serial.send w' data' (Serial.mk up th com false)) =
                    [data']).
  { unfold Serial.send, Serial.is_open.
    cbn [Serial.tx_busy_ Serial.upper_ Serial.thread_handle_ Serial.com_handle_].
    rewrite Hcom. cbn [negb].
    destruct w' as [k'| |]; try reflexivity.
    destruct (negb (k' =? LMsg.size data')); reflexivity. }
  unfold Serial.send at 1, Serial.worker_transmit, Serial.is_open.
  cbn [Serial.tx_busy_ Serial.upper_ Serial.thread_handle_ Serial.com_handle_].
  rewrite Hcom. cbn [negb].
  destruct w as [k| |]; [destruct (k =? LMsg.size data)|..]; cbn [negb];
    (split; [reflexivity|]); (split; [reflexivity|]); (split; [reflexivity|]);
    intros Hres; try discriminate Hres;
    (split; [exact Hrefused|]); (split; [reflexivity|]);
    (split; [|exact Hnext]);
    destruct (ok && negb (n =? 0)); reflexivity.
Qed.

Lemma serial_tx_busy_latch_witness :
  let s := Serial.mk true Serial.VALID_HANDLE Serial.VALID_HANDLE false in
  let '(res, s1, bufs) := Serial.send Serial.write_pending [1; 2; 3] s in
  bufs = [[1; 2; 3]] /\
  Serial.tx_busy_ s1 = res /\
  res = true /\
  (res = true ->
     Serial.send (Serial.written 1) [4] s1 = (false, s1, []) /\
     let '(s2, ev) := Serial.worker_transmit true 3 s1 in
     s2 = s /\
     ev = [Serial.Up (UpperIndication tx_done eid_any)] /\
     snd (Serial.send (Serial.written 1) [4] s2) = [[4]]).
Proof.
  cbv zeta.
  apply (serial_tx_busy_latch
           (Serial.mk true Serial.VALID_HANDLE Serial.VALID_HANDLE false)
           [1; 2; 3] [4] Serial.write_pending (Serial.written 1) true 3);
    reflexivity.
Defined.

(** ** The SNTP device *)

(** X18: the arithmetic of NTP time stamps.  On time stamps whose parts
    are unsigned 32 bit values, operator- and operator+ are subtraction
    and addition modulo 2^64 of the 64 bit values (seconds in the upper
    half, fraction in the lower), with the borrow and the carry passed
    from the fraction to the seconds; the parts of the result are again
    unsigned 32 bit values. *)
Theorem sntp_fixpt_arithmetic :
  forall a b : Sntp.fixpt_t,
    fixpt_wf a -> fixpt_wf b ->
    fixpt_value (Sntp.fixpt_sub a b) = (fixpt_value a - fixpt_value b) mod 2 ^ 64 /\
    fixpt_value (Sntp.fixpt_add a b) = (fixpt_value a + fixpt_value b) mod 2 ^ 64 /\
    fixpt_wf (Sntp.fixpt_sub a b) /\ fixpt_wf (Sntp.fixpt_add a b).
Proof.
  intros [ia fa] [ib fb] [Hia Hfa] [Hib Hfb].
  unfold fixpt_value, fixpt_wf, Sntp.fixpt_sub, Sntp.fixpt_add, Sntp.u32 in *.
  cbn [Sntp.integer Sntp.fraction] in *.
  change (2 ^ 32) with 4294967296 in *.
  change (2 ^ 64) with 18446744073709551616 in *.
  repeat split;
    try (apply Z.mod_pos_bound; lia).
  - destruct (Z.ltb_spec fa fb); Z.div_mod_to_equations; lia.
  - destruct (Z.ltb_spec ((fa + fb) mod 4294967296) fa),
             (Z.ltb_spec ((fa + fb) mod 4294967296) fb);
      cbn [andb]; Z.div_mod_to_equations; lia.
Qed.

Lemma sntp_fixpt_arithmetic_witness :
  let a := Sntp.mk_fixpt 5 1 in
  let b := Sntp.mk_fixpt 2 4294967295 in
  fixpt_value (Sntp.fixpt_sub a b) = (fixpt_value a - fixpt_value b) mod 2 ^ 64 /\
  fixpt_value (Sntp.fixpt_add a b) = (fixpt_value a + fixpt_value b) mod 2 ^ 64 /\
  fixpt_wf (Sntp.fixpt_sub a b) /\ fixpt_wf (Sntp.fixpt_add a b).
Proof.
  apply (sntp_fixpt_arithmetic (Sntp.mk_fixpt 5 1) (Sntp.mk_fixpt 2 4294967295));
    vm_compute; repeat split; discriminate.
Defined.

(** X19: set() then get() of a time stamp.  For a time of up to 2^32
    seconds given in microseconds, set() stores the whole seconds and a
    fraction below 2^32, and get() returns the time again or one
    microsecond less; whole seconds come back exactly. *)
Theorem sntp_fixpt_set_get :
  forall t : Z,
    0 <= t < 2 ^ 32 * 1000000 ->
    let a := Sntp.fixpt_set t in
    fixpt_wf a /\
    Sntp.integer a = t / 1000000 /\
    t - 1 <= Sntp.fixpt_get a <= t /\
    (t mod 1000000 = 0 -> Sntp.fixpt_get a = t).
Proof.
  intros t Ht. cbv zeta.
  unfold fixpt_wf, Sntp.fixpt_set, Sntp.fixpt_get, Sntp.u32, Sntp.u64, Sntp.i64.
  cbn [Sntp.integer Sntp.fraction].
  change (Z.shiftr (-1 mod 2 ^ 32) 1 + 1) with 2147483648.
  change (2 ^ 32) with 4294967296 in *.
  change (2 ^ 64) with 18446744073709551616 in *.
  change (2 ^ 63) with 9223372036854775808 in *.
  rewrite Z.quot_div_nonneg by lia.
  set (q := t / 1000000). set (r := t mod 1000000).
  assert (Hq : 0 <= q < 4294967296) by (unfold q; Z.div_mod_to_equations; lia).
  assert (Hr : 0 <= r < 1000000) by (unfold r; Z.div_mod_to_equations; lia).
  assert (Ht' : t = 1000000 * q + r) by (unfold q, r; Z.div_mod_to_equations; lia).
  rewrite (Z.mod_small t) by lia. fold r.
  rewrite (Z.mod_small q), (Z.mod_small r) by lia.
  rewrite (Z.mod_small (r * 2147483648)) by lia.
  set (f := r * 2147483648 / 500000).
  assert (Hf : 500000 * f <= r * 2147483648 < 500000 * (f + 1))
    by (unfold f; Z.div_mod_to_equations; lia).
  rewrite (Z.mod_small f) by lia.
  rewrite (Z.mod_small (q * 1000000)), (Z.mod_small (f * 500000)) by lia.
  set (g := f * 500000 / 2147483648).
  assert (Hg : 2147483648 * g <= f * 500000 < 2147483648 * (g + 1))
    by (unfold g; Z.div_mod_to_equations; lia).
  rewrite (Z.mod_small (q * 1000000 + g)) by lia.
  destruct (Z.ltb_spec (q * 1000000 + g) 9223372036854775808); [|lia].
  repeat split; try lia.
Qed.

Lemma sntp_fixpt_set_get_witness :
  let a := Sntp.fixpt_set 1000001 in
  fixpt_wf a /\
  Sntp.integer a = 1000001 / 1000000 /\
  1000001 - 1 <= Sntp.fixpt_get a <= 1000001 /\
  (1000001 mod 1000000 = 0 -> Sntp.fixpt_get a = 1000001).
Proof.
  apply (sntp_fixpt_set_get 1000001). vm_compute. split; discriminate || reflexivity.
Defined.

Lemma sntp_expire_retry now h t n d :
  0 <= n < 3 ->
  Sntp.expire now true (Sntp.mk h (Some t) false n d) =
    (Sntp.mk (Sntp.header_request (Sntp.fixpt_set (now + Sntp.JAN_1970)))
       (Some Sntp.RESPONSE_TIMEOUT) false (n + 1) d,
     [Sntp.Request (Sntp.fixpt_set (now + Sntp.JAN_1970))]).
Proof.
  intros Hn. unfold Sntp.expire, Sntp.timeout, Sntp.request, Sntp.MAX_RETRIES,
    Util.timer_start.
  cbn [Sntp.retries_ Sntp.rx_ev_ Sntp.timer_ Sntp.dest_timestamp_
       Sntp.ntp_header_].
  destruct (Z.ltb_spec n 3) as [_|?]; [|lia].
  by rewrite u8_small by lia.
Qed.

Lemma sntp_expire_give_up now ok h t e n d :
  3 <= n <= 254 ->
  Sntp.expire now ok (Sntp.mk h (Some t) e n d) =
    (Sntp.mk h None true (n + 1) d, []).
Proof.
  intros Hn. unfold Sntp.expire, Sntp.timeout, Sntp.MAX_RETRIES, Util.timer_stop.
  cbn [Sntp.retries_ Sntp.rx_ev_ Sntp.timer_ Sntp.dest_timestamp_
       Sntp.ntp_header_].
  destruct (Z.ltb_spec n 3) as [?|_]; [lia|].
  by rewrite u8_small by lia.
Qed.

(** X20: the request cycle without an answer.  get_time() sends one
    request and arms the response timer; each of the next three
    expiries sends the request again and re-arms the timer, rx_ev_
    staying clear; the fourth expiry sends nothing, leaves the timer
    stopped and sets rx_ev_, and get_time() then reports failure: four
    requests in all, three of them retries. *)
Theorem sntp_gives_up_after_three_retries :
  forall (s : Sntp.sntp) (now now' : Z),
    let '(ok, s0, e0) := Sntp.get_time_request now true s in
    let '(s3, e3) := sntp_expiries 3 now' s0 in
    let '(s4, e4) := Sntp.expire now' true s3 in
    ok = true /\
    e0 = [Sntp.Request (Sntp.fixpt_set (now + Sntp.JAN_1970))] /\
    Sntp.timer_ s0 = Some Sntp.RESPONSE_TIMEOUT /\
    e3 = repeat (Sntp.Request (Sntp.fixpt_set (now' + Sntp.JAN_1970))) 3 /\
    Sntp.rx_ev_ s3 = false /\
    Sntp.timer_ s3 = Some Sntp.RESPONSE_TIMEOUT /\
    e4 = [] /\
    Sntp.rx_ev_ s4 = true /\ Sntp.timer_ s4 = None /\
    Sntp.get_time_result s4 = false.
Proof.
  intros [h t e n d] now now'.
  unfold Sntp.get_time_request, Sntp.request.
  cbn [Sntp.retries_ Sntp.dest_timestamp_ sntp_expiries].
  rewrite (sntp_expire_retry now') by lia.
  rewrite (sntp_expire_retry now') by lia.
  rewrite (sntp_expire_retry now') by lia.
  cbn [app Z.add Pos.add Pos.succ].
  rewrite sntp_expire_give_up by lia.
  cbn [repeat Sntp.rx_ev_ Sntp.timer_ Sntp.retries_].
  unfold Sntp.get_time_result. cbn [Sntp.retries_].
  repeat split.
Qed.

(** X21: a valid response.  A message of 48 or 68 bytes in server mode
    with its four time stamps not zero stops the response timer, takes
    the destination time stamp from the clock, keeps the first 48 bytes
    as the header and releases get_time() without another request.
    get_time() returns a time when fewer than three retries were sent
    before; a valid response to the third retry is not used. *)
Theorem sntp_valid_response_outcome :
  forall (s : Sntp.sntp) (data : list byte) (now : Z) (lower_ok : bool),
    sntp_valid_response data ->
    let '(s', ev) := Sntp.receive data now lower_ok s in
    ev = [] /\
    Sntp.rx_ev_ s' = true /\ Sntp.timer_ s' = None /\
    Sntp.retries_ s' = Sntp.retries_ s /\
    Sntp.dest_timestamp_ s' = Sntp.fixpt_set (now + Sntp.JAN_1970) /\
    Sntp.ntp_header_ s' = Sntp.header_received (take 48 data) /\
    Sntp.get_time_result s' = (Sntp.retries_ s <? 3).
Proof.
  intros s data now lower_ok (Hsize & Hmode & H16 & H24 & H32 & H40).
  assert (Hlen : (48 <= length data)%nat)
    by (unfold LMsg.size in Hsize; lia).
  assert (Hz : forall off, (off + 8 <= 48)%nat ->
            Sntp.timestamp_is_zero (firstn 48 data) off =
              Sntp.timestamp_is_zero data off).
  { intros off Hoff. unfold Sntp.timestamp_is_zero. f_equal.
    change (take 8 (drop off (take 48 data)) = take 8 (drop off data)).
    rewrite skipn_firstn_comm. 
    change (take 8 (take (48 - off) (drop off data)) = take 8 (drop off data)).
    rewrite take_take. f_equal. lia. }
  assert (H0 : LMsg.at_ (firstn 48 data) 0 = LMsg.at_ data 0).
  { destruct data; [cbn in Hlen; lia|reflexivity]. }
  unfold Sntp.receive. cbv zeta.
  replace (negb (LMsg.size data =? Sntp.NTP_HEADER_LEN) &&
           negb (LMsg.size data =? Sntp.NTP_HEADER_EXT_LEN)) with false
    by (destruct Hsize as [-> | ->]; reflexivity).
  rewrite !Hz, H0, H16, H24, H32, H40, Hmode by lia.
  cbn [orb negb Z.eqb Pos.eqb Sntp.NTP_MODE_SERVER].
  unfold Sntp.get_time_result, Sntp.MAX_RETRIES.
  cbn [Sntp.retries_ Sntp.rx_ev_ Sntp.timer_ Sntp.dest_timestamp_
       Sntp.ntp_header_].
  repeat split. rewrite Z.leb_antisym, negb_involutive. reflexivity.
Qed.

Lemma sntp_valid_response_outcome_witness :
  let data := 0x24 :: repeat 1 47 in
  let s := Sntp.mk (Sntp.header_request (Sntp.mk_fixpt 0 0))
             (Some 2000) false 3 (Sntp.mk_fixpt 0 0) in
  let '(s', ev) := Sntp.receive data 0 true s in
  ev = [] /\
  Sntp.rx_ev_ s' = true /\ Sntp.timer_ s' = None /\
  Sntp.retries_ s' = 3 /\
  Sntp.dest_timestamp_ s' = Sntp.fixpt_set (0 + Sntp.JAN_1970) /\
  Sntp.ntp_header_ s' = Sntp.header_received (take 48 data) /\
  Sntp.get_time_result s' = false.
Proof.
  apply (sntp_valid_response_outcome
           (Sntp.mk (Sntp.header_request (Sntp.mk_fixpt 0 0))
              (Some 2000) false 3 (Sntp.mk_fixpt 0 0))
           (0x24 :: repeat 1 47) 0 true).
  vm_compute. repeat split. left. reflexivity.
Defined.

(** X22: a response that is not accepted.  A message whose length is
    neither 48 nor 68 bytes counts as a timeout at once: while fewer
    than three retries were sent, receive() sends the next request
    without waiting for the response timer, counts a retry, re-arms the
    timer and leaves rx_ev_ clear. *)
Theorem sntp_bad_length_is_a_retry :
  forall (s : Sntp.sntp) (data : list byte) (now : Z) (lower_ok : bool),
    LMsg.size data <> 48 -> LMsg.size data <> 68 ->
    0 <= Sntp.retries_ s < 3 ->
    let '(s', ev) := Sntp.receive data now lower_ok s in
    ev = [Sntp.Request (Sntp.fixpt_set (now + Sntp.JAN_1970))] /\
    Sntp.retries_ s' = Sntp.retries_ s + 1 /\
    Sntp.timer_ s' = Some Sntp.RESPONSE_TIMEOUT /\
    Sntp.rx_ev_ s' = false /\
    Sntp.ntp_header_ s' =
      Sntp.header_request (Sntp.fixpt_set (now + Sntp.JAN_1970)).
Proof.
  intros [h t e n d] data now lower_ok H48 H68 Hn.
  cbn [Sntp.retries_] in Hn.
  unfold Sntp.receive, Sntp.timeout, Sntp.request, Sntp.NTP_HEADER_LEN,
    Sntp.NTP_HEADER_EXT_LEN, Sntp.MAX_RETRIES.
  cbv zeta. cbn [Sntp.retries_ Sntp.rx_ev_ Sntp.timer_ Sntp.dest_timestamp_
                 Sntp.ntp_header_].
  destruct (Z.eqb_spec (LMsg.size data) 48) as [?|_]; [contradiction|].
  destruct (Z.eqb_spec (LMsg.size data) 68) as [?|_]; [contradiction|].
  cbn [negb andb].
  destruct (Z.ltb_spec n 3) as [_|?]; [|lia].
  cbn [Sntp.retries_ Sntp.rx_ev_ Sntp.timer_ Sntp.dest_timestamp_
       Sntp.ntp_header_].
  repeat split. apply u8_small. lia.
Qed.

Lemma sntp_bad_length_is_a_retry_witness :
  let s := Sntp.mk (Sntp.header_request (Sntp.mk_fixpt 0 0))
             (Some 2000) false 0 (Sntp.mk_fixpt 0 0) in
  let '(s', ev) := Sntp.receive [1; 2; 3] 0 true s in
  ev = [Sntp.Request (Sntp.fixpt_set (0 + Sntp.JAN_1970))] /\
  Sntp.retries_ s' = 0 + 1 /\
  Sntp.timer_ s' = Some Sntp.RESPONSE_TIMEOUT /\
  Sntp.rx_ev_ s' = false /\
  Sntp.ntp_header_ s' =
    Sntp.header_request (Sntp.fixpt_set (0 + Sntp.JAN_1970)).
Proof.
  apply (sntp_bad_length_is_a_retry
           (Sntp.mk (Sntp.header_request (Sntp.mk_fixpt 0 0))
              (Some 2000) false 0 (Sntp.mk_fixpt 0 0))
           [1; 2; 3] 0 true);
    [vm_compute; discriminate|vm_compute; discriminate|vm_compute; split; discriminate || reflexivity].
Defined.

(** ** SLIP: a damaged frame *)

Lemma receive_loop_frames_out_of_phase (ps : list (list byte)) :
  forall s : Slip.slip,
    Slip.rx_state_ s = Slip.RCV_DATA -> Slip.rx_msg_ s = [] ->
    Slip.receive_loop (concat (map slip_frame ps)) s = (s, []).
Proof.
  induction ps as [|p ps IH]; intros s Hd Hs; [done|].
  cbn [map concat].
  by rewrite receive_loop_app, receive_loop_frame_out_of_phase, IH.
Qed.

(** X23: a damaged frame.  In a frame, ESC followed by a byte that is
    neither ESC_END nor ESC_ESC makes the decoder drop what it has
    collected and return to RCV_IDLE; the rest of the frame is ignored,
    but its closing END is then taken for the start of a frame.  So
    nothing of the damaged frame is delivered, and of any number of
    well-formed frames that follow not one is delivered either. *)
Theorem slip_bad_escape_loses_frames :
  forall (p1 t : list byte) (x : byte) (ps : list (list byte))
         (rx : Slip.slip) id more,
    slip_ready rx ->
    x <> Slip.ESC_END -> x <> Slip.ESC_ESC ->
    Forall (fun b => b <> Slip.END) t ->
    Slip.receive
        (Slip.END :: concat (map stuffed p1) ++ [Slip.ESC; x] ++ t ++
           [Slip.END] ++ concat (map slip_frame ps)) id more rx =
      (Slip.set_rx_state Slip.RCV_DATA rx, []).
Proof.
  intros p1 t x ps rx id more (Ho & Hi & Hr & Ht) Hx1 Hx2 Hnoise.
  unfold Slip.receive. rewrite Ho. cbn [negb Slip.receive_loop].
  destruct rx as [u st o r tx]. cbn in Ho, Hi, Hr, Ht. subst.
  unfold Slip.receive_byte at 1. cbn [Slip.rx_state_].
  change (Slip.END =? Slip.END) with true. cbv iota.
  rewrite receive_loop_app, receive_stuffed by reflexivity.
  cbn [app Slip.receive_loop].
  unfold Slip.receive_byte at 1. cbn [Slip.rx_state_ Slip.set_rx_msg
    Slip.set_rx_state Slip.upper_ Slip.is_open_ Slip.rx_msg_ Slip.tx_msg_].
  change (Slip.ESC =? Slip.ESC) with true. cbv iota.
  unfold Slip.receive_byte at 1. cbn [Slip.rx_state_ Slip.set_rx_msg
    Slip.set_rx_state Slip.upper_ Slip.is_open_ Slip.rx_msg_ Slip.tx_msg_].
  destruct (Z.eqb_spec x Slip.ESC_END) as [?|_]; [contradiction|].
  destruct (Z.eqb_spec x Slip.ESC_ESC) as [?|_]; [contradiction|].
  rewrite receive_loop_app, receive_loop_idle by (reflexivity || assumption).
  cbn [app Slip.receive_loop].
  unfold Slip.receive_byte at 1. cbn [Slip.rx_state_ Slip.set_rx_state
    Slip.upper_ Slip.is_open_ Slip.rx_msg_ Slip.tx_msg_ LMsg.clear].
  change (Slip.END =? Slip.END) with true. cbv iota.
  rewrite receive_loop_frames_out_of_phase by reflexivity.
  reflexivity.
Qed.

(** The frame of 01 with the damaged escape DB 00, then the frames of
    02 and 03. *)
Lemma slip_bad_escape_loses_frames_witness :
  Slip.receive
      (Slip.END :: concat (map stuffed [1]) ++ [Slip.ESC; 0] ++ [5] ++
         [Slip.END] ++ concat (map slip_frame [[2]; [3]])) eid_any false
      (Slip.mk true Slip.RCV_IDLE true [] []) =
    (Slip.set_rx_state Slip.RCV_DATA (Slip.mk true Slip.RCV_IDLE true [] []),
     []).
Proof.
  apply (slip_bad_escape_loses_frames [1] [5] 0 [[2]; [3]]
           (Slip.mk true Slip.RCV_IDLE true [] []) eid_any false).
  - repeat split.
  - discriminate.
  - discriminate.
  - repeat constructor; discriminate.
Defined.

(** ** ISO 15765-2: a Flow Control frame nobody asked for *)

(** X24: an unsolicited Flow Control frame.  receive() does not look
    at the state of the sender when a clear-to-send Flow Control frame
    arrives: with no transfer in progress and an empty buffer it still
    takes over block size and STmin and arms the STmin timer.  When the
    timer expires while the tx_done latch is set, send_CF() hands a
    Consecutive Frame without payload to the lower layer, for the
    endpoint of the last transfer, and advances the sequence number. *)
Theorem iso_unsolicited_FC :
  forall (s : Iso15765.iso15765) (data rest : list byte) (bs stmin : byte)
         (id : eid) (more ok : bool),
    Iso15765.CF_DL_ s = 0 -> Iso15765.CF_frame_ s = [] ->
    Iso15765.tx_ev_ s = true ->
    iso_accepted s data = Some (0x30 :: bs :: stmin :: rest) ->
    let '(s1, e1) := Iso15765.receive data id more s in
    let '(s2, e2) := Iso15765.expire_TX_CF false ok s1 in
    e1 = [] /\
    Iso15765.timer_TX_CF_ s1 = Some stmin /\
    Iso15765.FC_BS_ s1 = bs /\ Iso15765.FC_STmin_ s1 = stmin /\
    e2 = [LowerSend
            (Iso15765.zero_pad s
               (Iso15765.add_target s
                  [u8 (Z.lor Iso15765.NPCI_CONSECUTIVE_FRAME
                         (Z.land (Iso15765.CF_SN_ s) 15))]))
            (Iso15765.CF_eid_ s) false] /\
    (ok = true -> Iso15765.CF_SN_ s2 = u8 (Iso15765.CF_SN_ s + 1)).
Proof.
  intros s data rest bs stmin id more ok Hidle Hbuf Hev Hacc.
  rewrite (iso_dispatch _ _ _ id more Hacc 0x30) by reflexivity.
  change (0x30 =? Iso15765.NPCI_SINGLE_FRAME) with false.
  change (0x30 =? Iso15765.NPCI_FIRST_FRAME) with false.
  change (0x30 =? Iso15765.NPCI_CONSECUTIVE_FRAME) with false.
  change (0x30 =? Iso15765.NPCI_FLOW_CONTROL) with true.
  cbv iota. rewrite iso_receive_FC_CTS by reflexivity.
  unfold Iso15765.expire_TX_CF, Iso15765.timer_func_TX_CF, Iso15765.send_CF,
    Util.wait_for, Util.timer_start, Util.timer_stop, LMsg.insert_end,
    LMsg.push_back, LMsg.range, LMsg.clear, Iso15765.CF_len.
  destruct s as [? fr ? ? dl ? ? ? ? ? ? ? ? ext ? ? pad ? ? ? ev].
  iso_fields. subst. cbv zeta. iso_fields. cbn [orb app length].
  assert (Hempty : forall n m, firstn n (skipn m (@nil byte)) = []).
  { intros n m. by destruct n, m. }
  rewrite !Hempty.
  destruct ok; iso_fields.
  - repeat match goal with
           | |- context [if ?c then _ else _] => destruct c
           end; repeat split.
  - repeat split; discriminate.
Qed.

Lemma iso_unsolicited_FC_witness :
  let s := Iso15765.set_tx_ev true (Iso15765.ctor true 50 3 4095) in
  let '(s1, e1) := Iso15765.receive [0x30; 0; 20] eid_any false s in
  let '(s2, e2) := Iso15765.expire_TX_CF false true s1 in
  e1 = [] /\
  Iso15765.timer_TX_CF_ s1 = Some 20 /\
  Iso15765.FC_BS_ s1 = 0 /\ Iso15765.FC_STmin_ s1 = 20 /\
  e2 = [LowerSend [0x20] eid_any false] /\
  (true = true -> Iso15765.CF_SN_ s2 = 1).
Proof.
  apply (iso_unsolicited_FC
           (Iso15765.set_tx_ev true (Iso15765.ctor true 50 3 4095))
           [0x30; 0; 20] [] 0 20 eid_any false true); reflexivity.
Defined.

(** ** The test harness *)


